(** * VaDER hyperparameter optimisation: cross-validated jobs and the
      Bayesian optimizer

    A shallow embedding of
      - [vader/hp_opt/abstract_optimization_job.py]  ([AbstractOptimizationJob]),
      - [vader/hp_opt/full_optimization_job.py]      ([FullOptimizationJob]),
      - [vader/hp_opt/vader_bayesian_optimizer.py]   ([VADERBayesianOptimizer]),
    followed by the properties of the orchestration layer.

    Conventions.  Python floats are modelled by exact rationals [Q]; Python
    exceptions by the error monad [M]; mutable objects ([self], the file
    system, the external model's hidden randomness) by the state the monad
    threads.  External collaborators (the VaDER model, scikit-learn's random
    shuffling, [ClusteringUtils], [uuid4]) are operational type classes. *)

From Stdlib Require Import Ascii QArith Qround Lqa.
From stdpp Require Import gmap strings pretty list.

(** ** Python values, exceptions and the state-and-error monad *)

Module Py.

(** The exception classes that occur; every one derives from [Exception]. *)
Inductive exn :=
  | ValueError (msg : string)
  | IndexError (msg : string)
  | KeyError (msg : string)
  | TypeError (msg : string)
  | RuntimeError (msg : string).

Inductive result (A : Type) :=
  | Ok (a : A)
  | Raise (e : exn).
Global Arguments Ok {A} a.
Global Arguments Raise {A} e.

(** A computation over a mutable state [S]: the state reached when an
    exception is raised is kept, as in Python. *)
Definition M (S A : Type) : Type := S → S * result A.

Definition ret {S A} (a : A) : M S A := λ s, (s, Ok a).
Definition raise {S A} (e : exn) : M S A := λ s, (s, Raise e).
Definition bind {S A B} (m : M S A) (k : A → M S B) : M S B :=
  λ s, match m s with
       | (s', Ok a) => k a s'
       | (s', Raise e) => (s', Raise e)
       end.
Definition get {S} : M S S := λ s, (s, Ok s).
Definition modify {S} (f : S → S) : M S unit := λ s, (f s, Ok tt).
Definition lift {S A} (r : result A) : M S A := λ s, (s, r).

Global Arguments bind : simpl never.

(** [try: ... except Exception as e: ...] *)
Definition try_except {S A} (m : M S A) (handler : exn → M S A) : M S A :=
  λ s, match m s with
       | (s', Ok a) => (s', Ok a)
       | (s', Raise e) => handler e s'
       end.

(** [for x in xs: body x], collecting what each iteration yields. *)
Fixpoint for_each {S A B} (xs : list A) (body : A → M S B) : M S (list B) :=
  match xs with
  | [] => ret []
  | x :: xs' => bind (body x) (λ b, bind (for_each xs' body) (λ bs, ret (b :: bs)))
  end.

(** [for x in xs: acc = body acc x], a loop over local variables [acc]. *)
Fixpoint for_loop {S A Acc} (xs : list A) (acc : Acc) (body : Acc → A → M S Acc)
  : M S Acc :=
  match xs with
  | [] => ret acc
  | x :: xs' => bind (body acc x) (λ acc', for_loop xs' acc' body)
  end.

(** Values stored in a hyperparameter dict or a result row: numbers
    ([int] and [float] alike) and tuples of ints ([n_hidden]). *)
Inductive value :=
  | Num (q : Q)
  | Tup (zs : list Z).

(** A [pd.Series] with a string index, and equally an insertion-ordered
    [dict]: the entries in order. *)
Abbreviation Series V := (list (string * V)) (only parsing).

Fixpoint getitem_opt {V} (d : Series V) (key : string) : option V :=
  match d with
  | [] => None
  | (k, v) :: d' => if decide (k = key) then Some v else getitem_opt d' key
  end.

(** [d[key]] *)
Definition getitem {V} (d : Series V) (key : string) : result V :=
  match getitem_opt d key with
  | Some v => Ok v
  | None => Raise (KeyError key)
  end.

Definition keys {V} (d : Series V) : list string := d.*1.

(** A dict entry taken as a number, as [alpha * loss] and [Series.mean]
    take it. *)
Definition as_number (v : value) : result Q :=
  match v with
  | Num q => Ok q
  | Tup _ => Raise (TypeError "unsupported operand type(s): tuple")
  end.

(** [str(n)] for an [int]. *)
Definition str_nat (n : nat) : string := pretty n.
Definition str_int (z : Z) : string := pretty z.

Definition digit_of_ascii (c : ascii) : option Z :=
  let n := Z.of_nat (nat_of_ascii c) in
  if decide (48 ≤ n ≤ 57)%Z then Some (n - 48)%Z else None.

Fixpoint int_of_digits (acc : Z) (s : string) : option Z :=
  match s with
  | EmptyString => Some acc
  | String c s' =>
      match digit_of_ascii c with
      | Some d => int_of_digits (10 * acc + d)%Z s'
      | None => None
      end
  end.

(** [int(s)] for a decimal literal with an optional minus sign. *)
Definition int_of_str (s : string) : result Z :=
  let bad := Raise (ValueError ("invalid literal for int() with base 10: " +:+ s)) in
  match s with
  | EmptyString => bad
  | String c s' =>
      if decide (c = "-"%char) then
        match s', int_of_digits 0 s' with
        | String _ _, Some z => Ok (- z)%Z
        | _, _ => bad
        end
      else
        match int_of_digits 0 s with
        | Some z => Ok z
        | None => bad
        end
  end.

(** Truth value of an [Optional[int]]: [None] and [0] are falsy. *)
Definition truthy_int (o : option Z) : bool :=
  match o with
  | None => false
  | Some z => negb (z =? 0)%Z
  end.

(** [np.mean]: the arithmetic mean (of a non-empty list). *)
Definition np_sum (l : list Q) : Q := foldr Qplus 0%Q l.
Definition np_mean (l : list Q) : Q :=
  Qred (np_sum l / inject_Z (Z.of_nat (length l))).

(** [round(x)] of a float: to the nearest integer, ties to the even one. *)
Definition py_round (x : Q) : Z :=
  let f := Qfloor x in
  match (x - inject_Z f ?= 1 # 2)%Q with
  | Lt => f
  | Gt => (f + 1)%Z
  | Eq => if Z.even f then f else (f + 1)%Z
  end.

(** [range(start, stop, step)] for a positive step. *)
Definition py_range (start stop step : nat) : list nat :=
  (λ q, start + q * step) <$> seq 0 ((stop - start + step - 1) / step).

(** [s.endswith(suffix)] *)
Definition endswith (s suffix : string) : bool :=
  let n := String.length s in
  let m := String.length suffix in
  bool_decide (m ≤ n ∧ String.substring (n - m) m s = suffix).

(** [s] without its prefix [pre], when it starts with it. *)
Fixpoint strip_prefix (pre s : string) : option string :=
  match pre, s with
  | EmptyString, _ => Some s
  | String a pre', String b s' => if decide (a = b) then strip_prefix pre' s' else None
  | String _ _, EmptyString => None
  end.

(** [c in s] *)
Fixpoint has_char (c : ascii) (s : string) : bool :=
  match s with
  | EmptyString => false
  | String a s' => bool_decide (a = c) || has_char c s'
  end.

(** The characters of a decimal numeral. *)
Definition is_digit (c : ascii) : Prop :=
  ∃ d : N, (d < 10)%N ∧ c = pretty_N_char d.

Definition all_digits (s : string) : Prop :=
  ∀ c, has_char c s = true → is_digit c.

(** [os.path.join(dir, name)] for a relative [name]. *)
Definition path_join (dir name : string) : string := dir +:+ "/" +:+ name.

End Py.
Export Py.

Declare Scope py_scope.
Delimit Scope py_scope with py.
Notation "'let*' x := m 'in' k" := (bind m (λ x, k))
  (at level 10, x name, m at level 100, k at level 200,
   format "'[v' 'let*'  x  :=  m  'in'  '/' k ']'") : py_scope.
Notation "'let*' ' pat := m 'in' k" := (bind m (λ x, match x with pat => k end))
  (at level 10, pat pattern, m at level 100, k at level 200,
   format "'[v' 'let*'  ' pat  :=  m  'in'  '/' k ']'") : py_scope.
Local Open Scope py_scope.

(** ** numpy arrays *)

Module Numpy.

(** An [ndarray] along its first axis: one flattened row per sample. *)
Abbreviation ndarray := (list (list Q)) (only parsing).

(** [a.size] *)
Definition size (a : ndarray) : nat := length (concat a).

Definition ambiguous_truth_value : exn :=
  ValueError "The truth value of an array with more than one element is ambiguous. Use a.any() or a.all()".

(** [bool(a)]: an empty array is falsy, a one-element array has the truth
    value of its element, any other array raises. *)
Definition ndarray_bool (a : ndarray) : result bool :=
  match concat a with
  | [] => Ok false
  | [x] => Ok (negb (Qeq_bool x 0))
  | _ :: _ :: _ => Raise ambiguous_truth_value
  end.

(** Truth value of an [Optional[ndarray]]. *)
Definition truthy_array (o : option ndarray) : result bool :=
  match o with
  | None => Ok false
  | Some a => ndarray_bool a
  end.

(** [a[idx]] for an integer index array [idx]. *)
Fixpoint take_rows (a : ndarray) (idx : list nat) : result ndarray :=
  match idx with
  | [] => Ok []
  | i :: idx' =>
      match a !! i with
      | None => Raise (IndexError "index is out of bounds for axis 0")
      | Some r =>
          match take_rows a idx' with
          | Ok rs => Ok (r :: rs)
          | Raise e => Raise e
          end
      end
  end.

(** [o[idx]] for an [Optional[ndarray]]. *)
Definition subscript (o : option ndarray) (idx : list nat) : result ndarray :=
  match o with
  | Some a => take_rows a idx
  | None => Raise (TypeError "'NoneType' object is not subscriptable")
  end.

End Numpy.
Export Numpy.

(** ** scikit-learn's [KFold] *)

Module Sklearn.

(** [RandomState(seed).shuffle]: the one source of randomness of [KFold],
    for a seed the generator accepts. *)
Class Shuffle := shuffle : option Z → list nat → list nat.

(** What is known of it: it permutes its argument. *)
Class ShufflePermutes `{Shuffle} :=
  shuffle_permutes : ∀ (random_state : option Z) (l : list nat),
    shuffle random_state l ≡ₚ l.

(** [fold_sizes = full(n_splits, n // n_splits); fold_sizes[:n % n_splits] += 1] *)
Definition fold_sizes (n_samples n_splits : nat) : list nat :=
  (λ i, n_samples / n_splits + (if decide (i < n_samples mod n_splits) then 1 else 0))
    <$> seq 0 n_splits.

(** [indices[current : current + fold_size]] for the successive folds. *)
Fixpoint test_chunks (indices : list nat) (sizes : list nat) : list (list nat) :=
  match sizes with
  | [] => []
  | sz :: sizes' => take sz indices :: test_chunks (drop sz indices) sizes'
  end.

(** From a test chunk to [(train_index, test_index)], both taken in
    increasing order out of [arange(n_samples)] by the test mask. *)
Definition fold_of_chunk (n_samples : nat) (chunk : list nat) : list nat * list nat :=
  (filter (λ i, i ∉ chunk) (seq 0 n_samples),
   filter (λ i, i ∈ chunk) (seq 0 n_samples)).

(** Modelled from the spec: the seeded, shuffled K-fold partitioner of the
    Fold Split (scikit-learn's [KFold], which is not part of this
    repository): [KFold(n_splits, shuffle=True, random_state).split(X)] as
    the list of the folds it yields, or the [ValueError] with which it
    refuses fewer than two splits or more splits than samples. *)
Definition KFold_split `{Shuffle} (n_splits : nat) (random_state : option Z)
    (n_samples : nat) : result (list (list nat * list nat)) :=
  if decide (n_splits ≤ 1) then
    Raise (ValueError "k-fold cross-validation requires at least one train/test split")
  else if decide (n_samples < n_splits) then
    Raise (ValueError "Cannot have number of splits greater than the number of samples")
  else
    Ok (fold_of_chunk n_samples
          <$> test_chunks (shuffle random_state (seq 0 n_samples))
                          (fold_sizes n_samples n_splits)).

End Sklearn.
Export Sklearn.

(** ** pandas frames *)

Module Pandas.

(** The distinct elements of [l] not in [seen], by first occurrence. *)
Fixpoint dedup (seen l : list string) : list string :=
  match l with
  | [] => []
  | x :: l' => if decide (x ∈ seen) then dedup seen l' else x :: dedup (x :: seen) l'
  end.

(** A [pd.DataFrame] built from records: the column labels, and the rows
    as the records they came from; a cell a record does not define is NaN. *)
Record DataFrame (V : Type) := {
  columns : list string;
  rows : list (Series V)
}.
Global Arguments columns {V} _.
Global Arguments rows {V} _.

(** [pd.DataFrame(records)] *)
Definition pd_DataFrame {V} (records : list (Series V)) : DataFrame V :=
  {| columns := dedup [] (concat (keys <$> records)); rows := records |}.

(** [df[c]]: the cells of column [c], [None] where NaN. *)
Definition column {V} (df : DataFrame V) (c : string) : list (option V) :=
  (λ r, getitem_opt r c) <$> rows df.

(** [Series.mean()] of a float column: the mean of the cells that are
    not NaN. *)
Definition nanmean (cells : list (option Q)) : Q := np_mean (omap id cells).

(** [df.mean()] of an all-numeric frame. *)
Definition df_mean (df : DataFrame Q) : Series Q :=
  (λ c, (c, nanmean (column df c))) <$> columns df.

(** [Series.mean()] of an object column: its cells must convert to numbers. *)
Fixpoint numeric_cells (cells : list (option value)) : result (list (option Q)) :=
  match cells with
  | [] => Ok []
  | None :: cells' =>
      match numeric_cells cells' with
      | Ok qs => Ok (None :: qs)
      | Raise e => Raise e
      end
  | Some v :: cells' =>
      match as_number v, numeric_cells cells' with
      | Ok q, Ok qs => Ok (Some q :: qs)
      | Raise e, _ => Raise e
      | _, Raise e => Raise e
      end
  end.

Definition series_mean (cells : list (option value)) : result Q :=
  match numeric_cells cells with
  | Ok qs => Ok (nanmean qs)
  | Raise e => Raise e
  end.

(** [df.iloc[ii]] for a list of row positions. *)
Fixpoint iloc_rows {V} (rs : list (Series V)) (ii : list nat) : result (list (Series V)) :=
  match ii with
  | [] => Ok []
  | i :: ii' =>
      match rs !! i with
      | None => Raise (IndexError "positional indexers are out-of-bounds")
      | Some r =>
          match iloc_rows rs ii' with
          | Ok out => Ok (r :: out)
          | Raise e => Raise e
          end
      end
  end.

Definition iloc {V} (df : DataFrame V) (ii : list nat) : result (DataFrame V) :=
  match iloc_rows (rows df) ii with
  | Ok rs => Ok {| columns := columns df; rows := rs |}
  | Raise e => Raise e
  end.

(** [pd.concat(dfs, ignore_index=True)] *)
Definition pd_concat {V} (dfs : list (DataFrame V)) : result (DataFrame V) :=
  match dfs with
  | [] => Raise (ValueError "No objects to concatenate")
  | _ :: _ =>
      Ok {| columns := dedup [] (concat (columns <$> dfs));
            rows := concat (rows <$> dfs) |}
  end.

End Pandas.
Export Pandas.

(** ** The external collaborators: the VaDER model and [ClusteringUtils] *)

Module Vader.

(** A fitted [VADER] object as far as the jobs read it: the per-epoch loss
    histories and the post-fit operations. *)
Record VADER := {
  reconstruction_loss : list Q;
  latent_loss : list Q;
  get_loss : ndarray → Series Q;
  cluster : ndarray → list Z
}.

(** What reaches a parameter annotated [Optional[ndarray]] at run time. *)
Inductive weights_arg :=
  | W_None
  | W_array (a : ndarray)
  | W_pair (a b : ndarray).

(** The arguments of [VADER(...)], [pre_fit] and [fit]. *)
Record VADER_args := {
  arg_X_train : ndarray;
  arg_W_train : weights_arg;
  arg_n_hidden : value;
  arg_k : value;
  arg_seed : option Z;
  arg_learning_rate : value;
  arg_batch_size : value;
  arg_alpha : value;
  arg_pre_fit_epoch : nat;
  arg_n_epoch : nat
}.

(** Constructing and training a model: it may fail, and it may draw on
    randomness of its own, the hidden state [World]. *)
Class Backend (World : Type) :=
  train : VADER_args → World → World * result VADER.

(** [vader.hp_opt.clustering_utils.ClusteringUtils] *)
Class ClusteringUtils (World : Type) := {
  calc_adj_rand_index : list Z → list Z → result Q;
  calc_rand_index : list Z → list Z → result Q;
  calc_prediction_strength : list Z → list Z → result Q;
  calc_permuted_clustering_evaluation_metrics :
    list Z → list Z → nat → World → World * result (Series Q);
  consensus_clustering : list (list Z) → Z → result (list Z)
}.

(** [seq[-1]] *)
Definition last_item {A} (l : list A) : result A :=
  match last l with
  | Some x => Ok x
  | None => Raise (IndexError "list index out of range")
  end.

(** [collections.Counter(labels)] *)
Definition Counter (labels : list Z) : gmap Z nat :=
  foldl (λ m x, <[x := S (default 0 (m !! x))]> m) ∅ labels.

(** [len(counter)] *)
Definition len (c : gmap Z nat) : nat := base.size c.

(** The count of distinct labels of a label vector, in the words of the
    specification. *)
Definition distinct_labels (labels : list Z) : nat :=
  base.size (list_to_set labels : gset Z).

(** A model configured with [K] clusters labels each sample with one of
    the ids [0, ..., K-1]. *)
Class ClusterWithinK {World} `{!Backend World} :=
  cluster_within_k : ∀ (args : VADER_args) (w w' : World) (v : VADER) (K : nat),
    train args w = (w', Ok v) →
    arg_k args = Num (inject_Z (Z.of_nat K)) →
    ∀ X, length (cluster v X) = length X ∧
         Forall (λ l, (0 ≤ l < Z.of_nat K)%Z) (cluster v X).

End Vader.
Export Vader.

(** ** [AbstractOptimizationJob] *)

Module AbstractOptimizationJob.

(** The attributes set by [__init__]. *)
Record Job := {
  data : ndarray;
  weights : option ndarray;
  params_dict : Series value;
  seed : option Z;
  n_consensus : nat;
  n_epoch : nat;
  n_splits : nat;
  n_perm : nat;
  verbose : bool;
  cv_id : string
}.

(** [self.seed = s] *)
Definition set_seed (s : option Z) (j : Job) : Job :=
  {| data := data j; weights := weights j; params_dict := params_dict j;
     seed := s; n_consensus := n_consensus j; n_epoch := n_epoch j;
     n_splits := n_splits j; n_perm := n_perm j; verbose := verbose j;
     cv_id := cv_id j |}.

(** What a run does that is observed from outside the job. *)
Inductive event :=
  | FoldStep (X_train X_val : ndarray) (W_train W_val : weights_arg)
  | Fit (X_train : ndarray) (W_train : weights_arg) (fit_seed : option Z).

(** The state a job runs in: the object itself, the collaborators' hidden
    state, and the events so far (oldest first). *)
Record State (World : Type) := {
  self : Job;
  world : World;
  trace : list event
}.
Global Arguments self {World} _.
Global Arguments world {World} _.
Global Arguments trace {World} _.

Definition assign_seed {World} (s : option Z) (st : State World) : State World :=
  {| self := set_seed s (self st); world := world st; trace := trace st |}.

Definition emit {World} (e : event) : M (State World) unit :=
  modify (λ st, {| self := self st; world := world st; trace := trace st ++ [e] |}).

(** A call of a collaborator that works on the hidden state. *)
Definition call {World A} (f : World → World * result A) : M (State World) A :=
  λ st, let '(w, r) := f (world st) in
        ({| self := self st; world := w; trace := trace st |}, r).

(** The abstract methods. *)
Class Methods (World : Type) := {
  _cv_fold_step : ndarray → ndarray → weights_arg → weights_arg →
                  M (State World) (Series Q);
  _fit_vader : ndarray → weights_arg → M (State World) VADER
}.

(** [(self.weights[train_index], self.weights[val_index]) if self.weights else None] *)
Definition weights_conditional {World} (w : option ndarray)
    (train_index val_index : list nat) : M (State World) weights_arg :=
  let* b := lift (truthy_array w) in
  if b : bool then
    let* w_train := lift (subscript w train_index) in
    let* w_val := lift (subscript w val_index) in
    ret (W_pair w_train w_val)
  else ret W_None.

(** One iteration of the loop over the folds. *)
Definition run_fold {World} {job_methods : Methods World} (fold : list nat * list nat)
  : M (State World) (Series Q) :=
  let '(train_index, val_index) := fold in
  let* st := get in
  let* X_train := lift (take_rows (data (self st)) train_index) in
  let* X_val := lift (take_rows (data (self st)) val_index) in
  (* W_train, W_val = (...) if self.weights else None, None
     is a two-place tuple: the conditional expression binds tighter than
     the comma, so its value goes to W_train and the literal None to W_val *)
  let* W_train := weights_conditional (weights (self st)) train_index val_index in
  let W_val := W_None in
  let* _ := emit (FoldStep X_train X_val W_train W_val) in
  _cv_fold_step X_train X_val W_train W_val.

(** [run(self)]; the two [logger.info] lines under [self.verbose] leave no
    mark on the state and are left out. *)
Definition run {World} `{!Shuffle} {job_methods : Methods World}
  : M (State World) (Series value) :=
  let* st := get in
  let* data_split :=
    lift (KFold_split (n_splits (self st)) (seed (self st)) (length (data (self st)))) in
  let* cv_folds_results_list := for_each data_split run_fold in
  let cv_folds_results_df := pd_DataFrame cv_folds_results_list in
  let cv_mean_results_series := df_mean cv_folds_results_df in
  let* st := get in
  let cv_params_series := params_dict (self st) in
  let cv_result_series :=
    cv_params_series ++ (prod_map id Num <$> cv_mean_results_series) in
  ret cv_result_series.

(** *** The discipline the methods of a job keep *)

Definition is_fit (e : event) : Prop :=
  match e with
  | Fit _ _ _ => True
  | FoldStep _ _ _ _ => False
  end.

(** A fit, or a fold step that was handed no validation weights. *)
Definition fit_or_unweighted_step (e : event) : Prop :=
  match e with
  | Fit _ _ _ => True
  | FoldStep _ _ _ W_val => W_val = W_None
  end.

(** [st'] is reached from [st] by reseeding the job at most, and by adding
    to the trace events that satisfy [P] only. *)
Definition steps {World} (P : event → Prop) (st st' : State World) : Prop :=
  set_seed None (self st') = set_seed None (self st) ∧
  ∃ evs, trace st' = trace st ++ evs ∧ Forall P evs.

(** A computation that takes such steps only. *)
Definition keeps {World A} (P : event → Prop) (m : M (State World) A) : Prop :=
  ∀ st, steps P st (m st).1.

(** The methods of a job reseed it at most, and of the events observed
    they cause model fits only. *)
Class Disciplined {World} (job_methods : Methods World) := {
  cv_fold_step_keeps : ∀ X_train X_val W_train W_val,
    keeps is_fit (_cv_fold_step X_train X_val W_train W_val);
  fit_vader_keeps : ∀ X_train W_train,
    keeps is_fit (_fit_vader X_train W_train)
}.

End AbstractOptimizationJob.
Export AbstractOptimizationJob.

(** ** [FullOptimizationJob] *)

Module FullOptimizationJob.

(** What [_single_clustering] and [_consensus_clustering] return:
    [(y_pred, effective_k, train_reconstruction_loss, train_latent_loss,
      test_reconstruction_loss, test_latent_loss)]. *)
Abbreviation clustering_tuple := (list Z * Q * Q * Q * Q * Q)%type (only parsing).

(** The six lists the consensus loop appends to. *)
Abbreviation repeats :=
  (list (list Z) * list Q * list Q * list Q * list Q * list Q)%type (only parsing).

Section methods.
Context {World : Type} `{!Backend World, !ClusteringUtils World}.

Definition tuple_y_pred (t : clustering_tuple) : list Z := t.1.1.1.1.1.
Definition tuple_effective_k (t : clustering_tuple) : Q := t.1.1.1.1.2.
Definition tuple_train_reconstruction_loss (t : clustering_tuple) : Q := t.1.1.1.2.
Definition tuple_train_latent_loss (t : clustering_tuple) : Q := t.1.1.2.
Definition tuple_test_reconstruction_loss (t : clustering_tuple) : Q := t.1.2.
Definition tuple_test_latent_loss (t : clustering_tuple) : Q := t.2.



Definition _fit_vader (X_train : ndarray) (W_train : weights_arg)
  : M (State World) VADER :=
  let* st := get in
  let* k := lift (getitem (params_dict (self st)) "k") in
  let* n_hidden := lift (getitem (params_dict (self st)) "n_hidden") in
  let* learning_rate := lift (getitem (params_dict (self st)) "learning_rate") in
  let* batch_size := lift (getitem (params_dict (self st)) "batch_size") in
  let* alpha := lift (getitem (params_dict (self st)) "alpha") in
  let* _ := emit (Fit X_train W_train (seed (self st))) in
  call (train {| arg_X_train := X_train; arg_W_train := W_train;
                 arg_n_hidden := n_hidden; arg_k := k; arg_seed := seed (self st);
                 arg_learning_rate := learning_rate; arg_batch_size := batch_size;
                 arg_alpha := alpha; arg_pre_fit_epoch := 10;
                 arg_n_epoch := n_epoch (self st) |}).

Definition _single_clustering (X_train X_val : ndarray) (W_train : weights_arg)
  : M (State World) clustering_tuple :=
  let* vader := _fit_vader X_train W_train in
  let test_loss_dict := get_loss vader X_val in
  let* train_reconstruction_loss := lift (last_item (reconstruction_loss vader)) in
  let* train_latent_loss := lift (last_item (latent_loss vader)) in
  let* test_reconstruction_loss := lift (getitem test_loss_dict "reconstruction_loss") in
  let* test_latent_loss := lift (getitem test_loss_dict "latent_loss") in
  let effective_k := len (Counter (cluster vader X_train)) in
  let y_pred := cluster vader X_val in
  ret (y_pred, inject_Z (Z.of_nat effective_k), train_reconstruction_loss,
       train_latent_loss, test_reconstruction_loss, test_latent_loss).

(** [self.seed = int(str(self.seed) + str(i)) if self.seed else None] *)
Definition reseed (i : nat) : M (State World) unit :=
  let* st := get in
  let* new_seed :=
    match seed (self st) with
    | Some z =>
        if truthy_int (Some z) then
          let* z' := lift (int_of_str (str_int z +:+ str_nat i)) in ret (Some z')
        else ret None
    | None => ret None
    end in
  modify (assign_seed new_seed).

Definition consensus_repeat (X_train X_val : ndarray) (W_train : weights_arg)
    (acc : repeats) (i : nat) : M (State World) repeats :=
  let '(y_pred_repeats, effective_k_repeats, train_reconstruction_loss_repeats,
        train_latent_loss_repeats, test_reconstruction_loss_repeats,
        test_latent_loss_repeats) := acc in
  let* _ := reseed i in
  let* '(y_pred, effective_k, train_reconstruction_loss, train_latent_loss,
         test_reconstruction_loss, test_latent_loss) :=
    _single_clustering X_train X_val W_train in
  ret (y_pred_repeats ++ [y_pred],
       effective_k_repeats ++ [effective_k],
       train_reconstruction_loss_repeats ++ [train_reconstruction_loss],
       train_latent_loss_repeats ++ [train_latent_loss],
       test_reconstruction_loss_repeats ++ [test_reconstruction_loss],
       test_latent_loss_repeats ++ [test_latent_loss]).

(** One repeat of the consensus loop by itself: reseed, then cluster. *)
Definition one_repeat (X_train X_val : ndarray) (W_train : weights_arg) (i : nat)
  : M (State World) clustering_tuple :=
  let* _ := reseed i in
  _single_clustering X_train X_val W_train.

(** The six lists after further repeats returned [rs]. *)
Definition extend_repeats (acc : repeats) (rs : list clustering_tuple) : repeats :=
  let '(y_pred_repeats, effective_k_repeats, train_reconstruction_loss_repeats,
        train_latent_loss_repeats, test_reconstruction_loss_repeats,
        test_latent_loss_repeats) := acc in
  (y_pred_repeats ++ (tuple_y_pred <$> rs),
   effective_k_repeats ++ (tuple_effective_k <$> rs),
   train_reconstruction_loss_repeats ++ (tuple_train_reconstruction_loss <$> rs),
   train_latent_loss_repeats ++ (tuple_train_latent_loss <$> rs),
   test_reconstruction_loss_repeats ++ (tuple_test_reconstruction_loss <$> rs),
   test_latent_loss_repeats ++ (tuple_test_latent_loss <$> rs)).

Definition _consensus_clustering (X_train X_val : ndarray) (W_train : weights_arg)
  : M (State World) clustering_tuple :=
  let* st := get in
  let* '(y_pred_repeats, effective_k_repeats, train_reconstruction_loss_repeats,
         train_latent_loss_repeats, test_reconstruction_loss_repeats,
         test_latent_loss_repeats) :=
    for_loop (seq 0 (n_consensus (self st))) ([], [], [], [], [], [])
             (consensus_repeat X_train X_val W_train) in
  let effective_k := np_mean effective_k_repeats in
  let* y_pred := lift (consensus_clustering y_pred_repeats (py_round effective_k)) in
  let train_reconstruction_loss := np_mean train_reconstruction_loss_repeats in
  let train_latent_loss := np_mean train_latent_loss_repeats in
  let test_reconstruction_loss := np_mean test_reconstruction_loss_repeats in
  let test_latent_loss := np_mean test_latent_loss_repeats in
  ret (y_pred, effective_k, train_reconstruction_loss, train_latent_loss,
       test_reconstruction_loss, test_latent_loss).

Definition _cv_fold_step (X_train X_val : ndarray) (W_train W_val : weights_arg)
  : M (State World) (Series Q) :=
  let* st := get in
  let clustering_func :=
    if decide (1 < n_consensus (self st)) then _consensus_clustering
    else _single_clustering in
  let* '(y_pred, effective_k, train_reconstruction_loss, train_latent_loss,
         test_reconstruction_loss, test_latent_loss) :=
    clustering_func X_train X_val W_train in
  (* calculate total loss *)
  let* st := get in
  let* alpha_v := lift (getitem (params_dict (self st)) "alpha") in
  let* alpha := lift (as_number alpha_v) in
  let train_total_loss := (train_reconstruction_loss + alpha * train_latent_loss)%Q in
  let test_total_loss := (test_reconstruction_loss + alpha * test_latent_loss)%Q in
  (* calculate y_true *)
  let* vader := _fit_vader X_val W_val in
  let y_true := cluster vader X_val in
  (* evaluate clustering *)
  let* adj_rand_index := lift (calc_adj_rand_index y_pred y_true) in
  let* rand_index := lift (calc_rand_index y_pred y_true) in
  let* prediction_strength := lift (calc_prediction_strength y_pred y_true) in
  let* st := get in
  let* permuted_clustering_evaluation_metrics :=
    call (calc_permuted_clustering_evaluation_metrics y_pred y_true (n_perm (self st))) in
  let* rand_index_null :=
    lift (getitem permuted_clustering_evaluation_metrics "rand_index") in
  let* adj_rand_index_null :=
    lift (getitem permuted_clustering_evaluation_metrics "adj_rand_index") in
  let* prediction_strength_null :=
    lift (getitem permuted_clustering_evaluation_metrics "prediction_strength") in
  ret [ ("train_reconstruction_loss", train_reconstruction_loss);
        ("train_latent_loss", train_latent_loss);
        ("train_total_loss", train_total_loss);
        ("test_reconstruction_loss", test_reconstruction_loss);
        ("test_latent_loss", test_latent_loss);
        ("test_total_loss", test_total_loss);
        ("effective_k", effective_k);
        ("rand_index", rand_index);
        ("rand_index_null", rand_index_null);
        ("adj_rand_index", adj_rand_index);
        ("adj_rand_index_null", adj_rand_index_null);
        ("prediction_strength", prediction_strength);
        ("prediction_strength_null", prediction_strength_null) ].

#[export] Instance methods : Methods World :=
  {| AbstractOptimizationJob._cv_fold_step := _cv_fold_step;
     AbstractOptimizationJob._fit_vader := _fit_vader |}.

End methods.

End FullOptimizationJob.

(** ** [VADERBayesianOptimizer] *)

Module VADERBayesianOptimizer.

(** The attributes set by [__init__] that the methods below read. *)
Record Optimizer := {
  n_trials : nat;
  n_proc : nat;
  n_repeats : nat;
  n_consensus : nat;
  n_epoch : nat;
  n_splits : nat;
  n_perm : nat;
  seed : option Z;
  output_folder : string
}.

Definition output_repeats_dir (self : Optimizer) : string :=
  path_join (output_folder self) "csv_repeats".
Definition output_trials_dir (self : Optimizer) : string :=
  path_join (output_folder self) "csv_trials".
Definition failed_jobs_dir (self : Optimizer) : string :=
  path_join (output_folder self) "failed_jobs".

(** What a file holds: a frame written by [to_csv(index=False)] (and read
    back by [read_csv]), or the message of a failed job, made of the job
    id, the job's parameters and [traceback.format_exc()]. *)
Inductive file :=
  | Csv (df : DataFrame value)
  | FailureLog (job_id : string) (job_params_dict : Series value) (traceback : exn).

(** [str(uuid.uuid4())] for the successive jobs of a process. *)
Class Uuid := uuid4 : nat → string.

(** Ids never repeat. *)
Class UuidUnique `{Uuid} := uuid4_inj : ∀ i j : nat, uuid4 i = uuid4 j → i = j.

(** The state the optimizer works on: the collaborators' hidden state, the
    file system, the number of jobs constructed so far, and a record of
    how each job ended (oldest first). *)
Record Env (World : Type) := {
  world : World;
  fs : gmap string file;
  jobs_started : nat;
  outcomes : list (string * result (Series value))
}.
Global Arguments world {World} _.
Global Arguments fs {World} _.
Global Arguments jobs_started {World} _.
Global Arguments outcomes {World} _.

(** An optuna trial: its number and what it suggests. *)
Record Trial := {
  number : nat;
  suggest_loguniform : string → Q → Q → Q;
  suggest_int : string → Z → Z → Z
}.

Section optimizer.
(** The job class is [FullOptimizationJob]; what follows reads it through
    the methods of the abstract job only.  The repeats of a trial share one
    [params_dict]; the jobs read it and never update it in place, so it is
    passed by value. *)
Context {World : Type} `{!Shuffle, !Uuid} {job_methods : Methods World}.

(** [with open(path, "w") as f: f.write(...)], and [to_csv(path)]. *)
Definition write_file (path : string) (content : file) : M (Env World) unit :=
  modify (λ env, {| world := world env; fs := <[path := content]> (fs env);
                    jobs_started := jobs_started env; outcomes := outcomes env |}).

(** [FullOptimizationJob(...)]: each job draws a fresh [cv_id]. *)
Definition new_job (self : Optimizer) (input_data : ndarray)
    (input_weights : option ndarray) (params_dict : Series value)
    (seed : option Z) : M (Env World) Job :=
  let* env := get in
  let* _ := modify (λ env, {| world := world env; fs := fs env;
                            jobs_started := S (jobs_started env);
                            outcomes := outcomes env |}) in
  ret {| AbstractOptimizationJob.data := input_data;
         AbstractOptimizationJob.weights := input_weights;
         AbstractOptimizationJob.params_dict := params_dict;
         AbstractOptimizationJob.seed := seed;
         AbstractOptimizationJob.n_consensus := n_consensus self;
         AbstractOptimizationJob.n_epoch := n_epoch self;
         AbstractOptimizationJob.n_splits := n_splits self;
         AbstractOptimizationJob.n_perm := n_perm self;
         AbstractOptimizationJob.verbose := false;
         AbstractOptimizationJob.cv_id := uuid4 (jobs_started env) |}.

(** [job.run()], seen from the optimizer: the job works on the hidden
    state, and how it ended is recorded. *)
Definition job_run (job : Job) : M (Env World) (Series value) :=
  λ env,
    let '(st, r) :=
      AbstractOptimizationJob.run (job_methods := job_methods)
        {| self := job; AbstractOptimizationJob.world := world env; trace := [] |} in
    ({| world := AbstractOptimizationJob.world st; fs := fs env;
        jobs_started := jobs_started env;
        outcomes := outcomes env ++ [(cv_id job, r)] |}, r).

Definition failure_log_file (self : Optimizer) (job_id : string) : string :=
  path_join (failed_jobs_dir self) (job_id +:+ ".log").

Definition run_cv_single_job (self : Optimizer) (input_data : ndarray)
    (input_weights : option ndarray) (params_dict : Series value)
    (seed : option Z) : M (Env World) (Series value) :=
  let* job := new_job self input_data input_weights params_dict seed in
  try_except
    (job_run job)
    (λ e,
       let log_file := failure_log_file self (cv_id job) in
       let* _ := write_file log_file (FailureLog (cv_id job) params_dict e) in
       ret params_dict).

(** ["k{k}_trial{trial.number}"] *)
Definition trial_id (k number : nat) : string :=
  "k" +:+ str_nat k +:+ "_trial" +:+ str_nat number.

Definition trial_file (self : Optimizer) (k number : nat) : string :=
  path_join (output_trials_dir self) (trial_id k number +:+ ".csv").

(** [str(x)] for an [Optional[int]]. *)
Definition str_optional_int (o : option Z) : string :=
  match o with
  | Some z => str_int z
  | None => "None"
  end.

(** [int(str(self.seed) + str(k) + str(trial.number) + str(i)) if self.seed else None] *)
Definition repeat_seed (self : Optimizer) (k number i : nat) : result (option Z) :=
  if truthy_int (seed self) then
    match int_of_str (str_optional_int (seed self) +:+ str_nat k
                      +:+ str_nat number +:+ str_nat i) with
    | Ok z => Ok (Some z)
    | Raise e => Raise e
    end
  else Ok None.

Definition trial_params (trial : Trial) (k : nat) : Series value :=
  let learning_rate := suggest_loguniform trial "learning_rate" (1 # 10000) (1 # 100) in
  let batch_size := suggest_int trial "batch_size" 8 128 in
  let n_hidden_1 := suggest_int trial "n_hidden_1" 8 128 in
  let n_hidden_2 := suggest_int trial "n_hidden_2" 1 n_hidden_1 in
  let n_hidden := Tup [n_hidden_1; n_hidden_2] in
  [ ("k", Num (inject_Z (Z.of_nat k)));
    ("n_hidden", n_hidden);
    ("learning_rate", Num learning_rate);
    ("batch_size", Num (inject_Z batch_size));
    ("alpha", Num 1) ].

(** The scoring column. *)
Definition score_column : string := "prediction_strength_diff".

(** [results_df[c].mean() if c in results_df.columns else None] *)
Definition score_of (results_df : DataFrame value) : result (option Q) :=
  if decide (score_column ∈ columns results_df) then
    match series_mean (column results_df score_column) with
    | Ok m => Ok (Some m)
    | Raise e => Raise e
    end
  else Ok None.

Definition objective (self : Optimizer) (trial : Trial) (k : nat)
    (input_data : ndarray) (input_weights : option ndarray)
  : M (Env World) (option Q) :=
  let params_dict := trial_params trial k in
  let* repeats_results :=
    for_each (seq 0 (n_repeats self)) (λ i,
      let* seed := lift (repeat_seed self k (number trial) i) in
      run_cv_single_job self input_data input_weights params_dict seed) in
  let results_df := pd_DataFrame repeats_results in
  let* _ := write_file (trial_file self k (number trial)) (Csv results_df) in
  let* score := lift (score_of results_df) in
  ret score.

End optimizer.

(** Whether [path] names an entry directly in [dir]. *)
Definition in_directory (dir path : string) : bool :=
  match strip_prefix (dir +:+ "/") path with
  | Some name => negb (has_char "/" name)
  | None => false
  end.

(** [os.scandir(dir)]: the files directly in [dir], in the order the file
    system lists them. *)
Definition scandir (files : gmap string file) (dir : string) : list (string * file) :=
  filter (λ entry, in_directory dir entry.1 = true) (map_to_list files).

(** [pd.read_csv(path)] of what [scandir] found. *)
Definition read_csv (content : file) : result (DataFrame value) :=
  match content with
  | Csv df => Ok df
  | FailureLog _ _ _ => Raise (ValueError "Error tokenizing data")
  end.

Definition repeat_file (self : Optimizer) (i : nat) : string :=
  path_join (output_repeats_dir self) ("repeat_" +:+ str_nat i +:+ ".csv").

(** The rows of a table whose position [j] satisfies [j mod N = r], in the
    order of the table (the words of the specification). *)
Definition rows_of_repeat {V} (N r : nat) (rs : list (Series V)) : list (Series V) :=
  (filter (λ jr, jr.1 mod N = r) (zip (seq 0 (length rs)) rs)).*2.

Section regroup.
Context {World : Type}.

(** The first loop of [__gen_repeats_files_from_trials_files]. *)
Definition read_trials_files (self : Optimizer)
  : M (Env World) (list (DataFrame value)) :=
  let* env := get in
  for_loop (scandir (fs env) (output_trials_dir self)) []
    (λ df_trials_list entry,
       if endswith entry.1 ".csv" then
         let* df := lift (read_csv entry.2) in
         ret (df_trials_list ++ [df])
       else ret df_trials_list).

(** Its second loop, over the concatenated frame [df]. *)
Definition write_repeats_files (self : Optimizer) (df : DataFrame value)
  : M (Env World) unit :=
  for_loop (seq 0 (n_repeats self)) tt
    (λ _ i,
       let ii := py_range i (length (rows df)) (n_repeats self) in
       let* df_i := lift (iloc df ii) in
       write_file (repeat_file self i) (Csv df_i)).

(** [__gen_repeats_files_from_trials_files(self)] *)
Definition gen_repeats_files_from_trials_files (self : Optimizer)
  : M (Env World) unit :=
  let* df_trials_list := read_trials_files self in
  let* df := lift (pd_concat df_trials_list) in
  write_repeats_files self df.

End regroup.

End VADERBayesianOptimizer.

(** ** A small instance to run the definitions on *)

Module Demo.

(** A shuffle: reversal, whatever the seed. *)
Definition demo_shuffle : Shuffle := λ _ l, reverse l.

(** A model configured with [K] clusters: it labels a sample by the sign
    of its first feature, within the ids it was configured with. *)
Definition toy_model (K : Z) : VADER :=
  {| reconstruction_loss := [3; 2]%Q;
     latent_loss := [1; 1 # 2]%Q;
     get_loss := λ _, [("reconstruction_loss", 5 # 2); ("latent_loss", 3 # 4)]%Q;
     cluster := λ X,
       (λ row : list Q,
          match row with
          | x :: _ => if (Qle_bool x 0 || (K <=? 1)%Z)%bool then 0%Z else 1%Z
          | [] => 0%Z
          end) <$> X |}.

(** A backend whose hidden state counts the fits so far; it fails at the
    fits listed in [failing], and on a configuration without clusters. *)
Definition demo_backend (failing : list nat) : Backend nat :=
  λ args n,
    (S n,
     match arg_k args with
     | Num q =>
         if decide (Qfloor q < 1)%Z then Raise (ValueError "k must be positive")
         else if decide (n ∈ failing) then Raise (RuntimeError "loss is NaN")
         else Ok (toy_model (Qfloor q))
     | Tup _ => Raise (TypeError "k must be an int")
     end).

Definition demo_clustering_utils : ClusteringUtils nat :=
  {| calc_adj_rand_index := λ _ _, Ok 1%Q;
     calc_rand_index := λ _ _, Ok 1%Q;
     calc_prediction_strength := λ _ _, Ok 1%Q;
     calc_permuted_clustering_evaluation_metrics := λ _ _ n_perm n,
       (n, if decide (n_perm = 0) then Raise (ValueError "n_perm must be positive")
           else Ok [("rand_index", 1 # 2); ("adj_rand_index", 0);
                    ("prediction_strength", 1 # 4)]%Q);
     consensus_clustering := λ label_vectors _,
       match label_vectors with
       | y :: _ => Ok y
       | [] => Raise (ValueError "no label vectors")
       end |}.

Definition demo_uuid : VADERBayesianOptimizer.Uuid := λ i, "job-" +:+ str_nat i.

(** Four samples of one feature. *)
Definition demo_data : ndarray := [[-1]; [1]; [-2]; [2]]%Q.

Definition demo_params : Series value :=
  [("k", Num 2); ("n_hidden", Tup [8; 2]%Z); ("learning_rate", Num (1 # 1000));
   ("batch_size", Num 16); ("alpha", Num 1)].

Definition demo_job (weights : option ndarray) (seed : option Z) (n_consensus : nat)
  : Job :=
  {| data := demo_data; weights := weights; params_dict := demo_params;
     seed := seed; n_consensus := n_consensus; n_epoch := 10; n_splits := 2;
     n_perm := 10; verbose := false; cv_id := "job-0" |}.

Definition demo_state (weights : option ndarray) (seed : option Z) (n_consensus : nat)
  : State nat :=
  {| self := demo_job weights seed n_consensus; world := 0; trace := [] |}.

(** The full job over the demo collaborators, the fits listed in
    [failing] failing. *)
Definition demo_job_methods (failing : list nat) : Methods nat :=
  FullOptimizationJob.methods (Backend0 := demo_backend failing)
                              (ClusteringUtils0 := demo_clustering_utils).

Definition demo_methods : Methods nat := demo_job_methods [].

(** The seeds of the model fits of a trace, in order. *)
Definition fit_seeds (tr : list event) : list (option Z) :=
  omap (λ e, match e with Fit _ _ s => Some s | FoldStep _ _ _ _ => None end) tr.

Definition demo_optimizer (n_repeats : nat) : VADERBayesianOptimizer.Optimizer :=
  {| VADERBayesianOptimizer.n_trials := 1;
     VADERBayesianOptimizer.n_proc := 1;
     VADERBayesianOptimizer.n_repeats := n_repeats;
     VADERBayesianOptimizer.n_consensus := 1;
     VADERBayesianOptimizer.n_epoch := 10;
     VADERBayesianOptimizer.n_splits := 2;
     VADERBayesianOptimizer.n_perm := 10;
     VADERBayesianOptimizer.seed := Some 42%Z;
     VADERBayesianOptimizer.output_folder := "out" |}.

Definition demo_trial : VADERBayesianOptimizer.Trial :=
  {| VADERBayesianOptimizer.number := 3;
     VADERBayesianOptimizer.suggest_loguniform := λ _ low _, low;
     VADERBayesianOptimizer.suggest_int := λ _ low _, low |}.

Definition demo_env (files : gmap string VADERBayesianOptimizer.file)
  : VADERBayesianOptimizer.Env nat :=
  {| VADERBayesianOptimizer.world := 0;
     VADERBayesianOptimizer.fs := files;
     VADERBayesianOptimizer.jobs_started := 0;
     VADERBayesianOptimizer.outcomes := [] |}.

(** Ten persisted trial rows in two trial files. *)
Definition demo_rows (first : Z) : list (Series value) :=
  (λ i, [("k", Num 2); ("row", Num (inject_Z i))]) <$> seqZ first 5.

Definition demo_trial_files : gmap string VADERBayesianOptimizer.file :=
  <["out/csv_trials/k2_trial0.csv" :=
      VADERBayesianOptimizer.Csv (pd_DataFrame (demo_rows 0))]>
  (<["out/csv_trials/k2_trial1.csv" :=
      VADERBayesianOptimizer.Csv (pd_DataFrame (demo_rows 5))]> ∅).

(** The rows of the frame a file holds. *)
Definition csv_rows (content : option VADERBayesianOptimizer.file)
  : option (list (Series value)) :=
  match content with
  | Some (VADERBayesianOptimizer.Csv df) => Some (rows df)
  | _ => None
  end.

(** One trial of the optimizer over these jobs, on an empty file system. *)
Definition demo_objective (failing : list nat) (n_repeats : nat)
  : VADERBayesianOptimizer.Env nat * result (option Q) :=
  VADERBayesianOptimizer.objective
    (H := demo_shuffle) (H0 := demo_uuid) (job_methods := demo_job_methods failing)
    (demo_optimizer n_repeats) demo_trial 2 demo_data None (demo_env ∅).

(** A backend whose models use one cluster more at each fit, up to the
    configured number: at its first fit every sample falls into one
    cluster. *)
Definition demo_growing_backend : Backend nat :=
  λ args n,
    (S n,
     match arg_k args with
     | Num q =>
         if decide (Qfloor q < 1)%Z then Raise (ValueError "k must be positive")
         else Ok (toy_model (Z.min (Qfloor q) (Z.of_nat (S n))))
     | Tup _ => Raise (TypeError "k must be an int")
     end).

(** A job class whose fold step reports the scoring column: the score of
    a fold is the seed the job holds (0 without one).  The hidden state
    counts the fold steps, and the steps listed in [failing] fail. *)
Definition demo_scoring_methods (failing : list nat) : Methods nat :=
  {| AbstractOptimizationJob._cv_fold_step := λ _ _ _ _,
       let* st := get in
       let* _ := call (λ n, (S n, if decide (n ∈ failing)
                                  then Raise (RuntimeError "loss is NaN")
                                  else Ok tt)) in
       ret [("prediction_strength_diff", inject_Z (default 0%Z (seed (self st))))];
     AbstractOptimizationJob._fit_vader :=
       FullOptimizationJob._fit_vader (Backend0 := demo_backend []) |}.

(** One trial of the optimizer over jobs of that class. *)
Definition demo_scoring_objective (failing : list nat) (n_repeats : nat)
  : VADERBayesianOptimizer.Env nat * result (option Q) :=
  VADERBayesianOptimizer.objective
    (H := demo_shuffle) (H0 := demo_uuid) (job_methods := demo_scoring_methods failing)
    (demo_optimizer n_repeats) demo_trial 2 demo_data None (demo_env ∅).

End Demo.

(** ** Readings of seeds, rows and traces

    The vocabulary in which the further properties of the jobs and of the
    optimizer are stated. *)

Module Observations.

(** The seed [s] followed by the decimal digits of [i]; an unset seed, and
    the seed 0, stay unset. *)
Definition seed_followed_by (s : option Z) (i : nat) : option Z :=
  match s with
  | Some z =>
      if (z =? 0)%Z then None
      else Some (Z.sgn z * (Z.abs z * 10 ^ Z.of_nat (String.length (str_nat i))
                            + Z.of_nat i))%Z
  | None => None
  end.

(** The seeds of successive consensus repeats: each is the one before it
    followed by the digits of the repeat's index. *)
Fixpoint seeds_after (s : option Z) (repeats : list nat) : list (option Z) :=
  match repeats with
  | [] => []
  | i :: repeats' =>
      seed_followed_by s i :: seeds_after (seed_followed_by s i) repeats'
  end.

(** The keys of the dict [_cv_fold_step] returns, in order. *)
Definition fold_result_keys : list string :=
  [ "train_reconstruction_loss"; "train_latent_loss"; "train_total_loss";
    "test_reconstruction_loss"; "test_latent_loss"; "test_total_loss";
    "effective_k"; "rand_index"; "rand_index_null"; "adj_rand_index";
    "adj_rand_index_null"; "prediction_strength"; "prediction_strength_null" ].

(** The keys [_fit_vader] reads from [params_dict], in order. *)
Definition hyperparameter_keys : list string :=
  ["k"; "n_hidden"; "learning_rate"; "batch_size"; "alpha"].

(** The rows of a numpy array have one length. *)
Definition rectangular (a : ndarray) : Prop :=
  Forall (λ r, length r = length (default [] (head a))) a.

(** The fold steps of a trace, as [(X_train, X_val, W_train, W_val)], and
    its model fits, as [(X_train, W_train, seed)], in order. *)
Definition fold_steps (tr : list event)
  : list (ndarray * ndarray * weights_arg * weights_arg) :=
  omap (λ e, match e with
             | FoldStep X_train X_val W_train W_val =>
                 Some (X_train, X_val, W_train, W_val)
             | Fit _ _ _ => None
             end) tr.

Definition fits (tr : list event) : list (ndarray * weights_arg * option Z) :=
  omap (λ e, match e with
             | Fit X_train W_train fit_seed => Some (X_train, W_train, fit_seed)
             | FoldStep _ _ _ _ => None
             end) tr.

(** A computation that leaves the job object as it is, [j]. *)
Definition keeps_job {World A} (j : Job) (m : M (State World) A) : Prop :=
  ∀ st, self st = j → self (m st).1 = j.

Section trial_jobs.
Context {World : Type} `{!Shuffle, !VADERBayesianOptimizer.Uuid}
  {job_methods : Methods World}.

(** The job the optimizer constructs for one repeat of a trial, holding
    the id it drew. *)
Definition job_of (self : VADERBayesianOptimizer.Optimizer) (input_data : ndarray)
    (input_weights : option ndarray) (params_dict : Series value)
    (seed : option Z) (cv_id : string) : Job :=
  {| AbstractOptimizationJob.data := input_data;
     AbstractOptimizationJob.weights := input_weights;
     AbstractOptimizationJob.params_dict := params_dict;
     AbstractOptimizationJob.seed := seed;
     AbstractOptimizationJob.n_consensus := VADERBayesianOptimizer.n_consensus self;
     AbstractOptimizationJob.n_epoch := VADERBayesianOptimizer.n_epoch self;
     AbstractOptimizationJob.n_splits := VADERBayesianOptimizer.n_splits self;
     AbstractOptimizationJob.n_perm := VADERBayesianOptimizer.n_perm self;
     AbstractOptimizationJob.verbose := false;
     AbstractOptimizationJob.cv_id := cv_id |}.

(** The jobs of a trial, one per seed, when [started] jobs were
    constructed before them: each holds the next id. *)
Fixpoint trial_jobs (self : VADERBayesianOptimizer.Optimizer) (input_data : ndarray)
    (input_weights : option ndarray) (params_dict : Series value)
    (seeds : list (option Z)) (started : nat) : list Job :=
  match seeds with
  | [] => []
  | seed :: seeds' =>
      job_of self input_data input_weights params_dict seed
             (VADERBayesianOptimizer.uuid4 started)
      :: trial_jobs self input_data input_weights params_dict seeds' (S started)
  end.

(** Jobs run one after the other, each with a trace of its own and on the
    hidden state the job before it left, whether that one returned or
    raised: every job with what its [run] gave, and the hidden state
    after the last. *)
Fixpoint run_jobs (jobs : list Job) (w : World)
  : list (Job * result (Series value)) * World :=
  match jobs with
  | [] => ([], w)
  | job :: jobs' =>
      let '(st, r) :=
        run (job_methods := job_methods) {| self := job; world := w; trace := [] |} in
      let '(outs, w') := run_jobs jobs' (world st) in
      ((job, r) :: outs, w')
  end.

(** The row a job contributes to the results of its trial: the row its
    [run] returned, or the bare configuration when it raised. *)
Definition job_row (params_dict : Series value) (out : Job * result (Series value))
  : Series value :=
  match out.2 with
  | Ok row => row
  | Raise _ => params_dict
  end.

(** The scores among the rows of a trial: the cells of the scoring column
    that are not NaN. *)
Definition scores_of (results : list (Series value)) : list value :=
  omap (λ row, getitem_opt row VADERBayesianOptimizer.score_column) results.

(** Those of them that are numbers. *)
Definition score_values (results : list (Series value)) : list Q :=
  omap (λ v, match v with Num q => Some q | Tup _ => None end) (scores_of results).

End trial_jobs.

End Observations.
Export Observations.

(** * Properties *)

(** ** Strings: decimal numerals and file names *)

Section strings.

Lemma pretty_N_char_digit (x : N) : is_digit (pretty_N_char x).
Proof.
  destruct (decide (x < 10)%N) as [Hlt|Hge]; [by exists x|].
  exists 9%N. split; [lia|].
  unfold pretty_N_char. repeat case_match; try done; lia.
Qed.

Lemma append_cons (a : ascii) (s t : string) :
  String a s +:+ t = String a (s +:+ t).
Proof. reflexivity. Qed.

Lemma append_nil (t : string) : "" +:+ t = t.
Proof. reflexivity. Qed.

Lemma has_char_app (c : ascii) (s t : string) :
  has_char c (s +:+ t) = has_char c s || has_char c t.
Proof.
  induction s as [|a s IH]; [done|].
  rewrite append_cons. simpl. by rewrite IH, orb_assoc.
Qed.

Lemma pretty_N_go_chars (c : ascii) (x : N) (s : string) :
  has_char c (pretty_N_go x s) = true → is_digit c ∨ has_char c s = true.
Proof.
  revert s. induction (N.lt_wf_0 x) as [x _ IH]; intros s Hc.
  destruct (decide (x = 0)%N) as [->|Hx].
  - rewrite pretty_N_go_0 in Hc. by right.
  - rewrite pretty_N_go_step in Hc by lia.
    apply IH in Hc; [|apply N.div_lt; lia].
    destruct Hc as [Hd|Hc]; [by left|].
    simpl in Hc. apply orb_true_iff in Hc as [Hc|Hc]; [|by right].
    apply bool_decide_eq_true in Hc as <-. left. apply pretty_N_char_digit.
Qed.

Lemma str_nat_digits (c : ascii) (n : nat) :
  has_char c (str_nat n) = true → is_digit c.
Proof.
  unfold str_nat, pretty, pretty_nat, pretty, pretty_N.
  case_decide.
  - simpl. rewrite orb_false_r. intros Hc%bool_decide_eq_true. subst c.
    by exists 0%N.
  - intros [Hd|Hc]%pretty_N_go_chars; [done|discriminate].
Qed.

Lemma underscore_not_digit : ¬ is_digit "_".
Proof.
  intros (d & Hd & Hc).
  assert (d ∈ [0; 1; 2; 3; 4; 5; 6; 7; 8; 9]%N) as Hin.
  { rewrite !elem_of_cons. lia. }
  rewrite !elem_of_cons, elem_of_nil in Hin.
  destruct Hin as [->|[->|[->|[->|[->|[->|[->|[->|[->|[->|[]]]]]]]]]]];
    discriminate Hc.
Qed.

Lemma str_nat_no_underscore (n : nat) : has_char "_" (str_nat n) = false.
Proof.
  destruct (has_char "_" (str_nat n)) eqn:Hc; [|done].
  by apply str_nat_digits, underscore_not_digit in Hc.
Qed.

Lemma str_nat_inj (m n : nat) : str_nat m = str_nat n → m = n.
Proof. apply (inj pretty). Qed.

Lemma append_assoc (s t u : string) : (s +:+ t) +:+ u = s +:+ (t +:+ u).
Proof.
  induction s as [|a s IH]; [done|]. rewrite !append_cons. by f_equal.
Qed.

Lemma append_length (s t : string) :
  String.length (s +:+ t) = String.length s + String.length t.
Proof.
  induction s as [|a s IH]; [done|]. rewrite append_cons. simpl. by f_equal.
Qed.

(** Cancelling a common suffix. *)
Lemma append_inj_r (s1 s2 t : string) : s1 +:+ t = s2 +:+ t → s1 = s2.
Proof.
  revert s2. induction s1 as [|a s1 IH]; intros [|b s2] Heq;
    rewrite ?append_cons, ?append_nil in Heq.
  - done.
  - apply (f_equal String.length) in Heq. simpl in Heq.
    rewrite append_length in Heq. lia.
  - apply (f_equal String.length) in Heq. simpl in Heq.
    rewrite append_length in Heq. lia.
  - injection Heq as -> Heq. f_equal. by apply IH.
Qed.

(** Two strings that agree up to the first occurrence of a separator. *)
Lemma append_sep_inj (c : ascii) (s1 s2 t1 t2 : string) :
  has_char c s1 = false → has_char c s2 = false →
  s1 +:+ String c t1 = s2 +:+ String c t2 → s1 = s2 ∧ t1 = t2.
Proof.
  revert s2. induction s1 as [|a s1 IH]; intros [|b s2] H1 H2 Heq;
    rewrite ?append_cons, ?append_nil in Heq; simpl in H1, H2.
  - by injection Heq.
  - injection Heq as <- _. by rewrite bool_decide_eq_true_2 in H2.
  - injection Heq as -> _. by rewrite bool_decide_eq_true_2 in H1.
  - injection Heq as -> Heq.
    apply orb_false_iff in H1 as [_ H1]. apply orb_false_iff in H2 as [_ H2].
    destruct (IH s2 H1 H2 Heq) as [-> ->]. done.
Qed.

Lemma trial_id_inj (k1 n1 k2 n2 : nat) :
  VADERBayesianOptimizer.trial_id k1 n1 = VADERBayesianOptimizer.trial_id k2 n2 →
  k1 = k2 ∧ n1 = n2.
Proof.
  unfold VADERBayesianOptimizer.trial_id. intros Heq.
  apply (inj (String.append "k")) in Heq.
  change ("_trial" +:+ ?s) with (String "_" ("trial" +:+ s)) in Heq.
  apply append_sep_inj in Heq as [Hk Hn]; [|apply str_nat_no_underscore..].
  apply str_nat_inj in Hk. apply (inj (String.append "trial")) in Hn.
  by apply str_nat_inj in Hn.
Qed.

End strings.

(** ** The K-fold split *)

Section kfold.
Context `{!Shuffle, !ShufflePermutes}.

Lemma sum_list_append (l k : list nat) :
  sum_list (l ++ k) = sum_list l + sum_list k.
Proof. induction l as [|x l IH]; simpl; lia. Qed.

Lemma sum_fold_sizes_aux (q r m : nat) :
  sum_list ((λ i, q + (if decide (i < r) then 1 else 0)) <$> seq 0 m)
  = m * q + (r `min` m).
Proof.
  induction m as [|m IH]; [simpl; lia|].
  rewrite seq_S, fmap_app, sum_list_append, IH. simpl.
  case_decide; lia.
Qed.

Lemma sum_fold_sizes (n k : nat) : 0 < k → sum_list (fold_sizes n k) = n.
Proof.
  intros Hk. unfold fold_sizes. rewrite sum_fold_sizes_aux.
  pose proof (Nat.mod_upper_bound n k). pose proof (Nat.div_mod_eq n k). lia.
Qed.

Lemma length_fold_sizes (n k : nat) : length (fold_sizes n k) = k.
Proof. unfold fold_sizes. by rewrite length_fmap, length_seq. Qed.

Lemma length_test_chunks (l sizes : list nat) :
  length (test_chunks l sizes) = length sizes.
Proof. revert l. induction sizes as [|sz sizes IH]; intros l; simpl; [done|]. by rewrite IH. Qed.

Lemma concat_test_chunks (l sizes : list nat) :
  concat (test_chunks l sizes) = take (sum_list sizes) l.
Proof.
  revert l. induction sizes as [|sz sizes IH]; intros l; simpl.
  - by rewrite take_0.
  - by rewrite IH, take_take_drop.
Qed.

Lemma test_chunks_sublist (l sizes chunk : list nat) :
  chunk ∈ test_chunks l sizes → chunk `sublist_of` l.
Proof.
  revert l. induction sizes as [|sz sizes IH]; intros l; simpl.
  - by intros ?%elem_of_nil.
  - intros [->|Hin]%elem_of_cons.
    + apply sublist_take.
    + etrans; [by apply IH|]. apply sublist_drop.
Qed.

(** A chunk of distinct indices below [n] and the test indices read off
    its mask hold the same elements. *)
Lemma test_index_permutation (n : nat) (chunk : list nat) :
  NoDup chunk → (∀ i, i ∈ chunk → i < n) →
  (fold_of_chunk n chunk).2 ≡ₚ chunk.
Proof.
  intros Hnd Hlt. apply NoDup_Permutation; [|done|].
  - apply NoDup_filter, NoDup_seq.
  - intros i. simpl. rewrite list_elem_of_filter, elem_of_seq.
    split; [by intros [? _]|]. intros Hi. split; [done|]. apply Hlt in Hi. lia.
Qed.

Lemma concat_test_index_permutation (n : nat) (chunks : list (list nat)) :
  Forall (λ chunk, NoDup chunk ∧ ∀ i, i ∈ chunk → i < n) chunks →
  concat ((fold_of_chunk n <$> chunks).*2) ≡ₚ concat chunks.
Proof.
  induction 1 as [|chunk chunks [Hnd Hlt] _ IH]; [done|].
  rewrite !fmap_cons. simpl concat.
  rewrite IH. f_equiv. by apply test_index_permutation.
Qed.

Lemma fold_of_chunk_disjoint (n : nat) (chunk : list nat) (i : nat) :
  ¬ (i ∈ (fold_of_chunk n chunk).1 ∧ i ∈ (fold_of_chunk n chunk).2).
Proof. simpl. rewrite !list_elem_of_filter. tauto. Qed.

Lemma fold_of_chunk_cover (n : nat) (chunk : list nat) (i : nat) :
  i < n ↔ i ∈ (fold_of_chunk n chunk).1 ∨ i ∈ (fold_of_chunk n chunk).2.
Proof.
  simpl. rewrite !list_elem_of_filter, !elem_of_seq.
  destruct (decide (i ∈ chunk)); split; intros; try lia; tauto || (intuition lia).
Qed.

Lemma KFold_split_ok (n_splits n : nat) (random_state : option Z) :
  2 ≤ n_splits ≤ n →
  KFold_split n_splits random_state n
  = Ok (fold_of_chunk n <$> test_chunks (shuffle random_state (seq 0 n))
                                         (fold_sizes n n_splits)).
Proof.
  intros [H2 Hn]. unfold KFold_split.
  rewrite decide_False by lia. by rewrite decide_False by lia.
Qed.


Lemma KFold_chunks_wf (n_splits n : nat) (random_state : option Z) :
  Forall (λ chunk, NoDup chunk ∧ ∀ i, i ∈ chunk → i < n)
         (test_chunks (shuffle random_state (seq 0 n)) (fold_sizes n n_splits)).
Proof.
  apply Forall_forall. intros chunk Hsub%test_chunks_sublist.
  pose proof (shuffle_permutes random_state (seq 0 n)) as Hperm.
  split.
  - eapply sublist_NoDup; [|done]. rewrite Hperm. apply NoDup_seq.
  - intros i Hi. eapply elem_of_sublist in Hi; [|done].
    rewrite Hperm in Hi. apply elem_of_seq in Hi. lia.
Qed.

Lemma elem_of_concat (x : nat) (ls : list (list nat)) :
  x ∈ concat ls ↔ ∃ l, x ∈ l ∧ l ∈ ls.
Proof.
  induction ls as [|l0 ls IH]; simpl.
  - split; [by intros ?%elem_of_nil|]. by intros (l & _ & ?%elem_of_nil).
  - rewrite elem_of_app, IH. split.
    + intros [Hx0|(l & Hx & Hl)]; [exists l0|exists l]; split; try done.
      * left.
      * by right.
    + intros (l & Hx & [->|Hl]%elem_of_cons); [by left|right; eauto].
Qed.

Lemma NoDup_concat_lookup (ls : list (list nat)) (j1 j2 : nat) (a b : list nat) (x : nat) :
  NoDup (concat ls) → ls !! j1 = Some a → ls !! j2 = Some b →
  x ∈ a → x ∈ b → j1 = j2.
Proof.
  revert j1 j2. induction ls as [|a0 ls IH]; intros j1 j2 Hnd H1 H2 Ha Hb.
  { by rewrite lookup_nil in H1. }
  simpl in Hnd. apply NoDup_app in Hnd as (_ & Hdisj & Hnd).
  assert (∀ j c, ls !! j = Some c → x ∈ c → x ∈ concat ls) as Hin.
  { intros j c Hj Hc. apply elem_of_concat. exists c. split; [done|].
    by eapply list_elem_of_lookup_2. }
  destruct j1 as [|j1], j2 as [|j2]; simpl in H1, H2; simplify_eq.
  - done.
  - exfalso. eapply Hdisj; [done|]. by eapply Hin.
  - exfalso. eapply Hdisj; [done|]. by eapply Hin.
  - f_equal. by eapply IH.
Qed.

(** C7: for [2 <= n_splits <= n] the seeded K-fold split of [run] yields
    [n_splits] folds; in each fold the train and validation index sets are
    disjoint and together hold exactly the indices below [n]; and the
    validation sets partition the indices: their concatenation is a
    permutation of [0, ..., n-1], so every index lies in exactly one of
    them. *)
Theorem KFold_split_partitions (n n_splits : nat) (random_state : option Z) :
  2 ≤ n_splits ≤ n →
  ∃ folds,
    KFold_split n_splits random_state n = Ok folds ∧
    length folds = n_splits ∧
    Forall (λ fold, (∀ i, ¬ (i ∈ fold.1 ∧ i ∈ fold.2)) ∧
                    (∀ i, i < n ↔ i ∈ fold.1 ∨ i ∈ fold.2)) folds ∧
    concat (folds.*2) ≡ₚ seq 0 n ∧
    (∀ i, i < n →
       ∃ j val, folds.*2 !! j = Some val ∧ i ∈ val ∧
         ∀ j' val', folds.*2 !! j' = Some val' → i ∈ val' → j' = j).
Proof.
  intros Hk. eexists. split; [by apply KFold_split_ok|].
  set (chunks := test_chunks _ _).
  assert (concat ((fold_of_chunk n <$> chunks).*2) ≡ₚ seq 0 n) as Hperm.
  { rewrite concat_test_index_permutation by apply KFold_chunks_wf.
    unfold chunks. rewrite concat_test_chunks, sum_fold_sizes by lia.
    rewrite take_ge.
    - apply shuffle_permutes.
    - by rewrite shuffle_permutes, length_seq. }
  split_and!.
  - unfold chunks. by rewrite length_fmap, length_test_chunks, length_fold_sizes.
  - apply Forall_fmap, Forall_forall. intros chunk _. split.
    + apply fold_of_chunk_disjoint.
    + apply fold_of_chunk_cover.
  - done.
  - intros i Hi.
    assert (i ∈ concat ((fold_of_chunk n <$> chunks).*2)) as Hin.
    { rewrite Hperm. apply elem_of_seq. lia. }
    apply elem_of_concat in Hin as (val & Hval & Hin).
    apply list_elem_of_lookup in Hin as [j Hj].
    exists j, val. split_and!; [done..|].
    intros j' val' Hj' Hval'.
    eapply NoDup_concat_lookup; [|done..].
    rewrite Hperm. apply NoDup_seq.
Qed.

End kfold.

(** ** Reasoning about computations *)

Section monad_rules.
Context {S : Type}.

Lemma bind_Ok {A B} (m : M S A) (k : A → M S B) (s s' : S) (a : A) :
  m s = (s', Ok a) → bind m k s = k a s'.
Proof. unfold bind. by intros ->. Qed.

Lemma bind_Raise {A B} (m : M S A) (k : A → M S B) (s s' : S) (e : exn) :
  m s = (s', Raise e) → bind m k s = (s', Raise e).
Proof. unfold bind. by intros ->. Qed.

Lemma bind_inv_Ok {A B} (m : M S A) (k : A → M S B) (s s' : S) (b : B) :
  bind m k s = (s', Ok b) → ∃ s1 a, m s = (s1, Ok a) ∧ k a s1 = (s', Ok b).
Proof. unfold bind. destruct (m s) as [s1 [a|e]]; [eauto|done]. Qed.

Lemma lift_Ok {A} (r : result A) (s s' : S) (a : A) :
  lift r s = (s', Ok a) → s' = s ∧ r = Ok a.
Proof. unfold lift. by intros [= -> ->]. Qed.

Lemma for_each_length {A B} (xs : list A) (body : A → M S B) (s s' : S) (bs : list B) :
  for_each xs body s = (s', Ok bs) → length bs = length xs.
Proof.
  revert s bs. induction xs as [|x xs IH]; intros s bs; simpl.
  - unfold ret. by intros [= _ <-].
  - intros H. apply bind_inv_Ok in H as (s1 & b & _ & H).
    apply bind_inv_Ok in H as (s2 & bs' & Hxs & Hret).
    unfold ret in Hret. injection Hret as -> <-.
    simpl. f_equal. by eapply IH.
Qed.

End monad_rules.

(** ** Steps of a job *)

Section job_steps.
Context {World : Type}.
Implicit Types (st : State World) (P : event → Prop).

Lemma steps_refl P st : steps P st st.
Proof. split; [done|]. exists []. by rewrite app_nil_r. Qed.

Lemma steps_trans P st1 st2 st3 :
  steps P st1 st2 → steps P st2 st3 → steps P st1 st3.
Proof.
  intros [Hs1 (evs1 & Ht1 & Hf1)] [Hs2 (evs2 & Ht2 & Hf2)]. split; [congruence|].
  exists (evs1 ++ evs2). rewrite Ht2, Ht1, app_assoc. split; [done|].
  by apply Forall_app.
Qed.

Lemma steps_mono P (Q : event → Prop) st st' :
  (∀ e, P e → Q e) → steps P st st' → steps Q st st'.
Proof.
  intros HPQ [Hs (evs & Ht & Hf)]. split; [done|]. exists evs. split; [done|].
  eapply Forall_impl; eauto.
Qed.

Lemma keeps_mono {A} P (Q : event → Prop) (m : M (State World) A) :
  (∀ e, P e → Q e) → keeps P m → keeps Q m.
Proof. intros HPQ Hm st. eapply steps_mono; eauto. Qed.

Lemma keeps_ret {A} P (a : A) : keeps P (ret a : M (State World) A).
Proof. intros st. apply steps_refl. Qed.

Lemma keeps_raise {A} P (e : exn) : keeps P (raise e : M (State World) A).
Proof. intros st. apply steps_refl. Qed.

Lemma keeps_lift {A} P (r : result A) : keeps P (lift r : M (State World) A).
Proof. intros st. apply steps_refl. Qed.

Lemma keeps_get P : keeps P (get : M (State World) _).
Proof. intros st. apply steps_refl. Qed.

Lemma keeps_bind {A B} P (m : M (State World) A) (k : A → M (State World) B) :
  keeps P m → (∀ a, keeps P (k a)) → keeps P (bind m k).
Proof.
  intros Hm Hk st. unfold bind. specialize (Hm st).
  destruct (m st) as [st1 [a|e]]; [|done].
  eapply steps_trans; [done|]. apply Hk.
Qed.

Lemma keeps_emit P (e : event) : P e → keeps P (emit e : M (State World) unit).
Proof.
  intros He st. split; [done|]. exists [e]. split; [done|]. by apply Forall_singleton.
Qed.

Lemma keeps_call {A} P (f : World → World * result A) : keeps P (call f).
Proof.
  intros st. unfold call. destruct (f (world st)) as [w r].
  split; [done|]. exists []. by rewrite app_nil_r.
Qed.

Lemma keeps_assign_seed P (s : option Z) :
  keeps P (modify (assign_seed s) : M (State World) unit).
Proof. intros st. split; [done|]. exists []. by rewrite app_nil_r. Qed.

Lemma keeps_for_each {A B} P (xs : list A) (body : A → M (State World) B) :
  (∀ x, keeps P (body x)) → keeps P (for_each xs body).
Proof.
  intros Hbody. induction xs as [|x xs IH]; simpl; [apply keeps_ret|].
  apply keeps_bind; [done|]. intros b.
  apply keeps_bind; [done|]. intros bs. apply keeps_ret.
Qed.

Lemma keeps_for_loop {A Acc} P (xs : list A) (acc : Acc)
    (body : Acc → A → M (State World) Acc) :
  (∀ acc x, keeps P (body acc x)) → keeps P (for_loop xs acc body).
Proof.
  intros Hbody. revert acc. induction xs as [|x xs IH]; intros acc; simpl.
  - apply keeps_ret.
  - apply keeps_bind; [done|]. intros acc'. apply IH.
Qed.

End job_steps.

Ltac keeps_intros :=
  intros;
  repeat match goal with x : (_ * _)%type |- _ => destruct x end;
  cbv beta iota.

Ltac keeps_step :=
  first
    [ apply keeps_ret | apply keeps_raise | apply keeps_lift | apply keeps_get
    | apply keeps_call | apply keeps_assign_seed
    | apply keeps_emit; done
    | apply keeps_for_each; keeps_intros
    | apply keeps_for_loop; keeps_intros
    | apply keeps_bind; [|keeps_intros] ].

(** ** [AbstractOptimizationJob.run] *)

Section abstract_job.
Context {World : Type} `{!Shuffle} {job_methods : Methods World}.
Implicit Types (st : State World).





Lemma keeps_weights_conditional P (w : option ndarray) (train_index val_index : list nat) :
  keeps P (weights_conditional (World := World) w train_index val_index).
Proof.
  unfold weights_conditional. keeps_step; [keeps_step|].
  destruct a; repeat keeps_step.
Qed.

Lemma keeps_run_fold `{!Disciplined job_methods} (fold : list nat * list nat) :
  keeps fit_or_unweighted_step (run_fold fold).
Proof.
  destruct fold as [train_index val_index]. unfold run_fold.
  do 3 (keeps_step; [keeps_step|]).
  keeps_step; [apply keeps_weights_conditional|].
  keeps_step; [keeps_step|].
  eapply keeps_mono; [|apply cv_fold_step_keeps]. by intros [].
Qed.

Lemma keeps_run `{!Disciplined job_methods} : keeps fit_or_unweighted_step run.
Proof.
  unfold run. do 2 (keeps_step; [keeps_step|]).
  keeps_step; [keeps_step; apply keeps_run_fold|].
  repeat keeps_step.
Qed.


Lemma KFold_split_inv (k n : nat) (random_state : option Z) folds :
  KFold_split k random_state n = Ok folds → 2 ≤ k ≤ n ∧ length folds = k.
Proof.
  unfold KFold_split. repeat case_decide; try done. intros [= <-].
  split; [lia|]. by rewrite length_fmap, length_test_chunks, length_fold_sizes.
Qed.

Lemma elem_of_dedup (x : string) (seen l : list string) :
  x ∈ dedup seen l ↔ x ∈ l ∧ x ∉ seen.
Proof.
  revert seen. induction l as [|y l IH]; intros seen; simpl.
  - rewrite elem_of_nil. tauto.
  - case_decide as Hy.
    + rewrite IH, elem_of_cons. split; [tauto|].
      intros [[->|?] ?]; tauto.
    + rewrite elem_of_cons, IH, !elem_of_cons. split.
      * intros [->|[? ?]]; [tauto|]. split; [tauto|]. tauto.
      * intros [[->|?] ?]; [tauto|]. destruct (decide (x = y)); tauto.
Qed.

Lemma getitem_opt_keys {V} (r : Series V) (key : string) (v : V) :
  getitem_opt r key = Some v → key ∈ keys r.
Proof.
  induction r as [|[k0 v0] r IH]; simpl; [done|].
  case_decide as Hk; [subst; intros _; left|]. intros ?%IH. by right.
Qed.

Lemma elem_of_columns {V} (records : list (Series V)) (c : string) :
  c ∈ columns (pd_DataFrame records) ↔ ∃ r, r ∈ records ∧ c ∈ keys r.
Proof.
  simpl. rewrite elem_of_dedup. split.
  - intros [Hc _]. revert Hc. induction records as [|r records IH]; simpl.
    + by intros ?%elem_of_nil.
    + rewrite elem_of_app. intros [Hc|Hc].
      * exists r. split; [left|done].
      * destruct (IH Hc) as (r' & ? & ?). exists r'. split; [by right|done].
  - intros (r & Hr & Hc). split; [|by intros ?%elem_of_nil].
    induction records as [|r0 records IH]; [by apply elem_of_nil in Hr|].
    simpl. rewrite elem_of_app.
    apply elem_of_cons in Hr as [->|Hr]; [by left|right; auto].
Qed.

Lemma getitem_opt_tabulate {V} (f : string → V) (cs : list string) (c : string) :
  c ∈ cs → getitem_opt ((λ c, (c, f c)) <$> cs) c = Some (f c).
Proof.
  induction cs as [|c0 cs IH]; [by intros ?%elem_of_nil|].
  intros Hc. simpl. case_decide as Hc0; [by subst|].
  apply elem_of_cons in Hc as [->|Hc]; [done|auto].
Qed.

(** A column every record defines has for mean the plain mean. *)
Lemma nanmean_column_defined (records : list (Series Q)) (c : string) (values : list Q) :
  Forall2 (λ r v, getitem_opt r c = Some v) records values →
  nanmean (column (pd_DataFrame records) c) = np_mean values.
Proof.
  intros Hall. unfold nanmean, column. simpl. f_equal.
  induction Hall as [|r v records values Hr _ IH]; [done|].
  csimpl. rewrite Hr. csimpl. by f_equal.
Qed.

Lemma df_mean_defined (records : list (Series Q)) (c : string) (values : list Q) :
  records ≠ [] →
  Forall2 (λ r v, getitem_opt r c = Some v) records values →
  getitem_opt (df_mean (pd_DataFrame records)) c = Some (np_mean values).
Proof.
  intros Hne Hall. unfold df_mean.
  rewrite (getitem_opt_tabulate (λ c, nanmean (column (pd_DataFrame records) c))).
  - f_equal. by apply nanmean_column_defined.
  - apply elem_of_columns. destruct Hall as [|r v records values Hr _]; [done|].
    exists r. split; [left|]. by eapply getitem_opt_keys.
Qed.

Lemma steps_params_dict P st st' :
  steps P st st' → params_dict (self st') = params_dict (self st).
Proof. intros [Hs _]. by apply (f_equal params_dict) in Hs. Qed.

(** When its fold loop completes, [run] returns. *)
Lemma run_returns `{!Disciplined job_methods} st st' folds fold_results :
  KFold_split (n_splits (self st)) (seed (self st)) (length (data (self st))) = Ok folds →
  for_each folds run_fold st = (st', Ok fold_results) →
  run st = (st', Ok (params_dict (self st)
                     ++ (prod_map id Num <$> df_mean (pd_DataFrame fold_results)))).
Proof.
  intros Hsplit Hloop. unfold run.
  erewrite bind_Ok by done. erewrite bind_Ok by (unfold lift; by rewrite Hsplit).
  erewrite bind_Ok by done. erewrite bind_Ok by done.
  unfold ret. do 3 f_equal. apply (steps_params_dict fit_or_unweighted_step).
  pose proof (keeps_for_each fit_or_unweighted_step folds run_fold
                (λ fold, keeps_run_fold fold) st) as Hkeeps.
  by rewrite Hloop in Hkeeps.
Qed.

(** C8: the row [run] returns is the hyperparameter configuration of the
    job followed by the column means of the frame of the [n_splits] fold
    results; a metric that every fold result reports is there with the
    arithmetic mean of its [n_splits] values. *)
Theorem run_job_result_row `{!Disciplined job_methods} st st' row :
  run st = (st', Ok row) →
  ∃ fold_results : list (Series Q),
    (∃ folds,
       KFold_split (n_splits (self st)) (seed (self st)) (length (data (self st)))
       = Ok folds ∧
       for_each folds run_fold st = (st', Ok fold_results)) ∧
    length fold_results = n_splits (self st) ∧
    row = params_dict (self st)
          ++ (prod_map id Num <$> df_mean (pd_DataFrame fold_results)) ∧
    ∀ (metric : string) (values : list Q),
      Forall2 (λ r v, getitem_opt r metric = Some v) fold_results values →
      getitem_opt (df_mean (pd_DataFrame fold_results)) metric
      = Some (Qred (np_sum values / inject_Z (Z.of_nat (n_splits (self st))))).
Proof.
  intros Hrun. unfold run in Hrun.
  apply bind_inv_Ok in Hrun as (st0 & st0' & [= -> ->] & Hrun).
  apply bind_inv_Ok in Hrun as (st1 & folds & [-> Hsplit]%lift_Ok & Hrun).
  apply bind_inv_Ok in Hrun as (st2 & fold_results & Hloop & Hrun).
  apply bind_inv_Ok in Hrun as (st3 & st3' & [= -> ->] & [= -> <-]).
  apply KFold_split_inv in Hsplit as Hk. destruct Hk as [Hk Hlen].
  apply for_each_length in Hloop as Hlen'.
  exists fold_results. split_and!; [by eauto|lia| |].
  - f_equal. apply (steps_params_dict fit_or_unweighted_step).
    pose proof (keeps_for_each fit_or_unweighted_step folds run_fold
                  (λ fold, keeps_run_fold fold) st0') as Hkeeps.
    by rewrite Hloop in Hkeeps.
  - intros metric values Hall.
    rewrite (df_mean_defined _ _ values); [|intros ->; simpl in *; lia|done].
    unfold np_mean. apply Forall2_length in Hall. by rewrite <-Hall, Hlen', Hlen.
Qed.

End abstract_job.

(** ** [FullOptimizationJob] *)

Section full_job.
Context {World : Type} `{!Shuffle, !Backend World, !ClusteringUtils World}.
Implicit Types (st : State World).

Import FullOptimizationJob.

Lemma keeps_fit_vader (X_train : ndarray) (W_train : weights_arg) :
  keeps is_fit (_fit_vader X_train W_train).
Proof. unfold _fit_vader. repeat keeps_step. Qed.

Lemma keeps_single_clustering (X_train X_val : ndarray) (W_train : weights_arg) :
  keeps is_fit (_single_clustering X_train X_val W_train).
Proof.
  unfold _single_clustering. keeps_step; [apply keeps_fit_vader|].
  repeat keeps_step.
Qed.

Lemma keeps_reseed (i : nat) : keeps is_fit (reseed (World := World) i).
Proof.
  unfold reseed. keeps_step; [keeps_step|]. keeps_step; [|keeps_step].
  destruct (seed (self _)) as [z|]; [|keeps_step].
  destruct (truthy_int (Some z)); repeat keeps_step.
Qed.

Lemma keeps_consensus_clustering (X_train X_val : ndarray) (W_train : weights_arg) :
  keeps is_fit (_consensus_clustering X_train X_val W_train).
Proof.
  unfold _consensus_clustering. keeps_step; [keeps_step|].
  keeps_step; [|repeat keeps_step].
  keeps_step. unfold consensus_repeat.
  keeps_step; [apply keeps_reseed|].
  keeps_step; [apply keeps_single_clustering|].
  keeps_step.
Qed.

Lemma keeps_cv_fold_step (X_train X_val : ndarray) (W_train W_val : weights_arg) :
  keeps is_fit (_cv_fold_step X_train X_val W_train W_val).
Proof.
  unfold _cv_fold_step. keeps_step; [keeps_step|].
  keeps_step.
  - case_decide; [apply keeps_consensus_clustering|apply keeps_single_clustering].
  - do 3 (keeps_step; [keeps_step|]).
    keeps_step; [apply keeps_fit_vader|].
    repeat keeps_step.
Qed.

#[global] Instance full_job_disciplined : Disciplined FullOptimizationJob.methods.
Proof. split; [apply keeps_cv_fold_step|apply keeps_fit_vader]. Qed.

End full_job.

(** ** The fold runner and the consensus aggregator *)

Section fold_runner.
Context {World : Type} `{!Backend World, !ClusteringUtils World}.
Implicit Types (st : State World).

Import FullOptimizationJob.

Lemma dom_Counter_aux (labels : list Z) (m : gmap Z nat) :
  dom (foldl (λ m x, <[x := S (default 0 (m !! x))]> m) m labels)
  = dom m ∪ list_to_set labels.
Proof.
  revert m. induction labels as [|x labels IH]; intros m; simpl.
  - by rewrite union_empty_r_L.
  - rewrite IH, dom_insert_L.
    by rewrite (union_comm_L {[x]} (dom m)), union_assoc_L.
Qed.

(** [len(Counter(labels))] counts the distinct labels. *)
Lemma len_Counter (labels : list Z) : len (Counter labels) = distinct_labels labels.
Proof.
  unfold len, Counter, distinct_labels. rewrite <-size_dom, dom_Counter_aux.
  by rewrite dom_empty_L, union_empty_l_L.
Qed.

Lemma distinct_labels_bounds (labels : list Z) (K : nat) :
  labels ≠ [] → Forall (λ l, (0 ≤ l < Z.of_nat K)%Z) labels →
  1 ≤ distinct_labels labels ≤ K.
Proof.
  intros Hne Hall. unfold distinct_labels. split.
  - destruct labels as [|l labels]; [done|].
    assert (base.size (list_to_set (l :: labels) : gset Z) ≠ 0) as Hpos; [|lia].
    apply size_non_empty_iff. intros Hempty.
    assert (l ∈ (list_to_set (l :: labels) : gset Z)) as Hin by (simpl; set_solver).
    rewrite Hempty in Hin. by apply not_elem_of_empty in Hin.
  - trans (base.size (list_to_set (seqZ 0 (Z.of_nat K)) : gset Z)).
    + apply subseteq_size. intros l Hl%elem_of_list_to_set.
      apply elem_of_list_to_set, elem_of_seqZ.
      rewrite Forall_forall in Hall. apply Hall in Hl. lia.
    + rewrite size_list_to_set by apply NoDup_seqZ. rewrite length_seqZ. lia.
Qed.

(** What a fit that returned was given. *)
Lemma fit_vader_inv st st' (X_train : ndarray) (W_train : weights_arg) (vader : VADER) :
  _fit_vader X_train W_train st = (st', Ok vader) →
  ∃ args w',
    train args (world st) = (w', Ok vader) ∧
    getitem (params_dict (self st)) "k" = Ok (arg_k args) ∧
    arg_seed args = seed (self st) ∧
    arg_X_train args = X_train ∧ arg_W_train args = W_train ∧
    self st' = self st ∧
    trace st' = trace st ++ [Fit X_train W_train (seed (self st))].
Proof.
  unfold _fit_vader. intros Hfit.
  apply bind_inv_Ok in Hfit as (? & st0 & [= -> ->] & Hfit).
  apply bind_inv_Ok in Hfit as (? & k & [-> Hk]%lift_Ok & Hfit).
  apply bind_inv_Ok in Hfit as (? & n_hidden & [-> _]%lift_Ok & Hfit).
  apply bind_inv_Ok in Hfit as (? & learning_rate & [-> _]%lift_Ok & Hfit).
  apply bind_inv_Ok in Hfit as (? & batch_size & [-> _]%lift_Ok & Hfit).
  apply bind_inv_Ok in Hfit as (? & alpha & [-> _]%lift_Ok & Hfit).
  apply bind_inv_Ok in Hfit as (st1 & [] & [= <-] & Hfit).
  unfold call in Hfit. simpl in Hfit.
  destruct (train _ (world st0)) as [w' r] eqn:Htrain.
  injection Hfit as <- ->. eexists _, w'. split; [exact Htrain|]. done.
Qed.

Lemma single_clustering_inv st st' (X_train X_val : ndarray) (W_train : weights_arg)
    (out : clustering_tuple) :
  _single_clustering X_train X_val W_train st = (st', Ok out) →
  ∃ vader,
    _fit_vader X_train W_train st = (st', Ok vader) ∧
    tuple_y_pred out = cluster vader X_val ∧
    tuple_effective_k out
    = inject_Z (Z.of_nat (distinct_labels (cluster vader X_train))).
Proof.
  unfold _single_clustering. intros Hrun.
  apply bind_inv_Ok in Hrun as (st1 & vader & Hfit & Hrun).
  apply bind_inv_Ok in Hrun as (? & ? & [-> _]%lift_Ok & Hrun).
  apply bind_inv_Ok in Hrun as (? & ? & [-> _]%lift_Ok & Hrun).
  apply bind_inv_Ok in Hrun as (? & ? & [-> _]%lift_Ok & Hrun).
  apply bind_inv_Ok in Hrun as (? & ? & [-> _]%lift_Ok & Hrun).
  injection Hrun as -> <-. exists vader. split_and!; [done..|].
  unfold tuple_effective_k. simpl. by rewrite len_Counter.
Qed.

(** On the direct path (one fitted model per fold) the [effective_k] of
    the Fold Result is the count of distinct labels the fitted model gives
    the training samples, at least 1 and at most [K]. *)
Lemma direct_fold_result_effective_k `{!ClusterWithinK} st st'
    (X_train X_val : ndarray) (W_train W_val : weights_arg) (K : nat)
    (fold_result : Series Q) :
  X_train ≠ [] →
  n_consensus (self st) ≤ 1 →
  getitem (params_dict (self st)) "k" = Ok (Num (inject_Z (Z.of_nat K))) →
  _cv_fold_step X_train X_val W_train W_val st = (st', Ok fold_result) →
  ∃ st1 vader,
    _fit_vader X_train W_train st = (st1, Ok vader) ∧
    getitem_opt fold_result "effective_k"
    = Some (inject_Z (Z.of_nat (distinct_labels (cluster vader X_train)))) ∧
    1 ≤ distinct_labels (cluster vader X_train) ≤ K.
Proof.
  intros Hne Hn HK Hstep. unfold _cv_fold_step in Hstep.
  apply bind_inv_Ok in Hstep as (? & st0 & [= -> ->] & Hstep).
  rewrite decide_False in Hstep by lia.
  apply bind_inv_Ok in Hstep as (st1 & out & Hsingle & Hstep).
  apply single_clustering_inv in Hsingle as (vader & Hfit & _ & Hek).
  exists st1, vader. split; [done|split].
  - destruct out as [[[[[y_pred effective_k] ?] ?] ?] ?].
    unfold tuple_effective_k in Hek. simpl in Hek. subst effective_k.
    repeat (apply bind_inv_Ok in Hstep as (? & ? & _ & Hstep)).
    by injection Hstep as _ <-.
  - apply fit_vader_inv in Hfit as (args & w' & Htrain & Hk & _).
    rewrite HK in Hk. injection Hk as Hk.
    destruct (cluster_within_k args _ _ _ K Htrain (eq_sym Hk) X_train) as [Hlen Hall].
    apply distinct_labels_bounds; [|done].
    intros Hnil. rewrite Hnil in Hlen. by destruct X_train.
Qed.

End fold_runner.

Section consensus.
Context {World : Type} `{!Backend World, !ClusteringUtils World}.
Implicit Types (st : State World).

Import FullOptimizationJob.

Lemma extend_repeats_nil (acc : repeats) : extend_repeats acc [] = acc.
Proof.
  destruct acc as [[[[[? ?] ?] ?] ?] ?]. unfold extend_repeats. simpl.
  by rewrite !app_nil_r.
Qed.

Lemma extend_repeats_cons (acc : repeats) (r : clustering_tuple)
    (rs : list clustering_tuple) :
  extend_repeats acc (r :: rs)
  = extend_repeats (extend_repeats acc [r]) rs.
Proof.
  destruct acc as [[[[[? ?] ?] ?] ?] ?]. unfold extend_repeats. simpl.
  by rewrite <-!app_assoc.
Qed.

(** The consensus loop, appending to its six lists, collects what the
    repeats return one after the other. *)
Lemma consensus_loop_collects (X_train X_val : ndarray) (W_train : weights_arg)
    (xs : list nat) (acc : repeats) st :
  for_loop xs acc (consensus_repeat X_train X_val W_train) st
  = bind (for_each xs (one_repeat X_train X_val W_train))
         (λ rs, ret (extend_repeats acc rs)) st.
Proof.
  revert acc st. induction xs as [|x xs IH]; intros acc st.
  - simpl. unfold bind, ret. by rewrite extend_repeats_nil.
  - cbn [for_loop for_each].
    assert (∀ st, consensus_repeat X_train X_val W_train acc x st
                  = bind (one_repeat X_train X_val W_train x)
                         (λ r, ret (extend_repeats acc [r])) st) as Hbody.
    { intros st0. destruct acc as [[[[[? ?] ?] ?] ?] ?].
      unfold consensus_repeat, one_repeat, bind.
      destruct (reseed x st0) as [st1 [[]|e]]; [|done].
      destruct (_single_clustering _ _ _ st1) as [st2 [out|e]]; [|done].
      destruct out as [[[[[? ?] ?] ?] ?] ?]. reflexivity. }
    unfold bind. rewrite Hbody. unfold bind.
    destruct (one_repeat _ _ _ x st) as [st1 [r|e]]; [|done].
    unfold ret at 1. rewrite IH. unfold bind.
    destruct (for_each xs _ st1) as [st2 [rs|e]]; [|done].
    unfold ret. by rewrite (extend_repeats_cons acc r rs).
Qed.

(** C6: a consensus run that returns went through [n_consensus] repeats;
    the effective K and the four losses it returns are the arithmetic
    means of what the repeats returned, and the labels it returns are
    [consensus_clustering] of the repeats' label vectors with
    [target_k = round(mean effective K)], in the six-place tuple of a
    single run. *)
Theorem consensus_clustering_aggregates st st'
    (X_train X_val : ndarray) (W_train : weights_arg) (out : clustering_tuple) :
  1 < n_consensus (self st) →
  _consensus_clustering X_train X_val W_train st = (st', Ok out) →
  ∃ per_repeat : list clustering_tuple,
    for_each (seq 0 (n_consensus (self st))) (one_repeat X_train X_val W_train) st
    = (st', Ok per_repeat) ∧
    length per_repeat = n_consensus (self st) ∧
    let mean (f : clustering_tuple → Q) :=
      Qred (np_sum (f <$> per_repeat)
            / inject_Z (Z.of_nat (n_consensus (self st)))) in
    tuple_effective_k out = mean tuple_effective_k ∧
    tuple_train_reconstruction_loss out = mean tuple_train_reconstruction_loss ∧
    tuple_train_latent_loss out = mean tuple_train_latent_loss ∧
    tuple_test_reconstruction_loss out = mean tuple_test_reconstruction_loss ∧
    tuple_test_latent_loss out = mean tuple_test_latent_loss ∧
    consensus_clustering (tuple_y_pred <$> per_repeat)
                         (py_round (mean tuple_effective_k))
    = Ok (tuple_y_pred out).
Proof.
  intros Hn Hrun. unfold _consensus_clustering in Hrun.
  apply bind_inv_Ok in Hrun as (? & st0 & [= -> ->] & Hrun).
  apply bind_inv_Ok in Hrun as (st1 & acc & Hloop & Hrun).
  rewrite consensus_loop_collects in Hloop.
  apply bind_inv_Ok in Hloop as (st2 & per_repeat & Heach & [= -> <-]).
  apply for_each_length in Heach as Hlen. rewrite length_seq in Hlen.
  simpl in Hrun.
  apply bind_inv_Ok in Hrun as (? & y_pred & [-> Hcons]%lift_Ok & [= -> <-]).
  exists per_repeat. split; [done|]. split; [done|].
  unfold np_mean in *. rewrite !length_fmap, Hlen in *. by split_and!.
Qed.

(** When all repeats and the label fusion succeed, the consensus run
    returns. *)
Lemma consensus_clustering_returns st st' (X_train X_val : ndarray)
    (W_train : weights_arg) (per_repeat : list clustering_tuple) (y_pred : list Z) :
  for_each (seq 0 (n_consensus (self st))) (one_repeat X_train X_val W_train) st
  = (st', Ok per_repeat) →
  consensus_clustering (tuple_y_pred <$> per_repeat)
    (py_round (np_mean (tuple_effective_k <$> per_repeat))) = Ok y_pred →
  ∃ out, _consensus_clustering X_train X_val W_train st = (st', Ok out).
Proof.
  intros Heach Hcons. unfold _consensus_clustering.
  erewrite bind_Ok by done.
  erewrite bind_Ok;
    [|rewrite consensus_loop_collects; erewrite bind_Ok by done; done].
  simpl. unfold bind, lift. rewrite Hcons. by eexists.
Qed.

Lemma np_sum_bounds (l : list Q) (lo hi : Q) :
  Forall (λ x, (lo <= x <= hi)%Q) l →
  (inject_Z (Z.of_nat (length l)) * lo <= np_sum l
   <= inject_Z (Z.of_nat (length l)) * hi)%Q.
Proof.
  induction 1 as [|x l [Hlo Hhi] _ [IHlo IHhi]]; simpl length.
  - change (inject_Z (Z.of_nat 0)) with 0%Q. change (np_sum []) with 0%Q. lra.
  - rewrite Nat2Z.inj_succ, <-Z.add_1_r, inject_Z_plus.
    change (np_sum (x :: l)) with (x + np_sum l)%Q.
    change (inject_Z 1) with 1%Q. split; nra.
Qed.

(** The mean of values between two bounds lies between them. *)
Lemma np_mean_bounds (l : list Q) (lo hi : Q) :
  l ≠ [] → Forall (λ x, (lo <= x <= hi)%Q) l → (lo <= np_mean l <= hi)%Q.
Proof.
  intros Hne Hall. destruct (np_sum_bounds l lo hi Hall) as [Hlo Hhi].
  unfold np_mean. rewrite Qred_correct.
  assert (0 < inject_Z (Z.of_nat (length l)))%Q as Hpos.
  { destruct l; [done|]. rewrite <-(Zlt_Qlt 0). simpl length. lia. }
  split.
  - apply Qle_shift_div_l; [done|]. by rewrite Qmult_comm.
  - apply Qle_shift_div_r; [done|]. by rewrite Qmult_comm.
Qed.

(** Every repeat of a consensus run reports an effective K between 1 and
    the configured [K]. *)
Lemma repeats_effective_k_bounds `{!ClusterWithinK} (X_train X_val : ndarray)
    (W_train : weights_arg) (K : nat) (repeats : list nat) st st'
    (per_repeat : list clustering_tuple) :
  X_train ≠ [] →
  getitem (params_dict (self st)) "k" = Ok (Num (inject_Z (Z.of_nat K))) →
  for_each repeats (one_repeat X_train X_val W_train) st = (st', Ok per_repeat) →
  Forall (λ t, (1 <= tuple_effective_k t <= inject_Z (Z.of_nat K))%Q) per_repeat.
Proof.
  intros Hne. revert st per_repeat.
  induction repeats as [|i repeats IH]; intros st per_repeat HK Hrun.
  - injection Hrun as _ <-. constructor.
  - cbn [for_each] in Hrun.
    apply bind_inv_Ok in Hrun as (st2 & t & Hone & Hrun).
    apply bind_inv_Ok in Hrun as (st3 & ts & Hrest & [= -> <-]).
    unfold one_repeat in Hone.
    apply bind_inv_Ok in Hone as (st1 & [] & Hreseed & Hsingle).
    pose proof (keeps_reseed i st) as Hst1. rewrite Hreseed in Hst1.
    simpl in Hst1. apply steps_params_dict in Hst1.
    pose proof (keeps_single_clustering X_train X_val W_train st1) as Hst2.
    rewrite Hsingle in Hst2. simpl in Hst2. apply steps_params_dict in Hst2.
    apply single_clustering_inv in Hsingle as (vader & Hfit & _ & Hek).
    apply fit_vader_inv in Hfit as (args & w' & Htrain & Hk & _).
    rewrite Hst1, HK in Hk. injection Hk as Hk.
    destruct (cluster_within_k args _ _ _ K Htrain (eq_sym Hk) X_train)
      as [Hlen Hall].
    destruct (distinct_labels_bounds (cluster vader X_train) K) as [Hlo Hhi];
      [|done|].
    { intros Hnil. rewrite Hnil in Hlen. by destruct X_train. }
    constructor.
    + rewrite Hek. split; [change 1%Q with (inject_Z 1)|];
        rewrite <-Zle_Qle; lia.
    + eapply IH; [|done]. by rewrite Hst2, Hst1.
Qed.

(** On the consensus path the [effective_k] of the Fold Result, the mean
    of the repeats' counts, also lies between 1 and the configured [K]. *)
Lemma consensus_fold_result_effective_k `{!ClusterWithinK} st st'
    (X_train X_val : ndarray) (W_train W_val : weights_arg) (K : nat)
    (fold_result : Series Q) :
  X_train ≠ [] →
  1 < n_consensus (self st) →
  getitem (params_dict (self st)) "k" = Ok (Num (inject_Z (Z.of_nat K))) →
  _cv_fold_step X_train X_val W_train W_val st = (st', Ok fold_result) →
  ∃ effective_k,
    getitem_opt fold_result "effective_k" = Some effective_k ∧
    (1 <= effective_k <= inject_Z (Z.of_nat K))%Q.
Proof.
  intros Hne Hn HK Hstep. unfold _cv_fold_step in Hstep.
  apply bind_inv_Ok in Hstep as (? & st0 & [= -> ->] & Hstep).
  rewrite decide_True in Hstep by done.
  apply bind_inv_Ok in Hstep as (st1 & out & Hcons & Hstep).
  unfold _consensus_clustering in Hcons.
  apply bind_inv_Ok in Hcons as (? & st2 & [= -> ->] & Hcons).
  apply bind_inv_Ok in Hcons as (st3 & acc & Hloop & Hcons).
  rewrite consensus_loop_collects in Hloop.
  apply bind_inv_Ok in Hloop as (st4 & per_repeat & Heach & [= -> <-]).
  apply for_each_length in Heach as Hlen. rewrite length_seq in Hlen.
  apply (repeats_effective_k_bounds _ _ _ K) in Heach as Hall; [|done..].
  simpl in Hcons.
  apply bind_inv_Ok in Hcons as (? & y_pred & _ & [= -> <-]).
  exists (np_mean (tuple_effective_k <$> per_repeat)). split.
  - repeat (apply bind_inv_Ok in Hstep as (? & ? & _ & Hstep)).
    by injection Hstep as _ <-.
  - apply np_mean_bounds.
    + intros Hnil%fmap_nil_inv. subst per_repeat. simpl in Hlen. lia.
    + by apply Forall_fmap.
Qed.

(** Every repeat of a consensus run reports the count of distinct labels
    of its own fit, between 1 and the configured [K]. *)
Lemma repeats_effective_k_counts `{!ClusterWithinK} (X_train X_val : ndarray)
    (W_train : weights_arg) (K : nat) (repeats : list nat) st st'
    (per_repeat : list clustering_tuple) :
  X_train ≠ [] →
  getitem (params_dict (self st)) "k" = Ok (Num (inject_Z (Z.of_nat K))) →
  for_each repeats (one_repeat X_train X_val W_train) st = (st', Ok per_repeat) →
  Forall (λ t, ∃ st1 st2 vader,
            _fit_vader X_train W_train st1 = (st2, Ok vader) ∧
            tuple_effective_k t
            = inject_Z (Z.of_nat (distinct_labels (cluster vader X_train))) ∧
            1 ≤ distinct_labels (cluster vader X_train) ≤ K) per_repeat.
Proof.
  intros Hne. revert st per_repeat.
  induction repeats as [|i repeats IH]; intros st per_repeat HK Hrun.
  - injection Hrun as _ <-. constructor.
  - cbn [for_each] in Hrun.
    apply bind_inv_Ok in Hrun as (st2 & t & Hone & Hrun).
    apply bind_inv_Ok in Hrun as (st3 & ts & Hrest & [= -> <-]).
    unfold one_repeat in Hone.
    apply bind_inv_Ok in Hone as (st1 & [] & Hreseed & Hsingle).
    pose proof (keeps_reseed i st) as Hst1. rewrite Hreseed in Hst1.
    simpl in Hst1. apply steps_params_dict in Hst1.
    pose proof (keeps_single_clustering X_train X_val W_train st1) as Hst2.
    rewrite Hsingle in Hst2. simpl in Hst2. apply steps_params_dict in Hst2.
    apply single_clustering_inv in Hsingle as (vader & Hfit & _ & Hek).
    pose proof Hfit as Hfit'.
    apply fit_vader_inv in Hfit' as (args & w' & Htrain & Hk & _).
    rewrite Hst1, HK in Hk. injection Hk as Hk.
    destruct (cluster_within_k args _ _ _ K Htrain (eq_sym Hk) X_train)
      as [Hlen Hall].
    constructor.
    + exists st1, st2, vader. split; [done|]. split; [done|].
      apply distinct_labels_bounds; [|done].
      intros Hnil. rewrite Hnil in Hlen. by destruct X_train.
    + eapply IH; [|done]. by rewrite Hst2, Hst1.
Qed.

(** On the consensus path the [effective_k] of the Fold Result is the
    mean of what the repeats report. *)
Lemma consensus_fold_result_mean st st' (X_train X_val : ndarray)
    (W_train W_val : weights_arg) (fold_result : Series Q) :
  1 < n_consensus (self st) →
  _cv_fold_step X_train X_val W_train W_val st = (st', Ok fold_result) →
  ∃ st1 per_repeat,
    for_each (seq 0 (n_consensus (self st))) (one_repeat X_train X_val W_train) st
    = (st1, Ok per_repeat) ∧
    length per_repeat = n_consensus (self st) ∧
    getitem_opt fold_result "effective_k"
    = Some (np_mean (tuple_effective_k <$> per_repeat)).
Proof.
  intros Hn Hstep. unfold _cv_fold_step in Hstep.
  apply bind_inv_Ok in Hstep as (? & st0 & [= -> ->] & Hstep).
  rewrite decide_True in Hstep by done.
  apply bind_inv_Ok in Hstep as (st1 & out & Hcons & Hstep).
  unfold _consensus_clustering in Hcons.
  apply bind_inv_Ok in Hcons as (? & st2 & [= -> ->] & Hcons).
  apply bind_inv_Ok in Hcons as (st3 & acc & Hloop & Hcons).
  rewrite consensus_loop_collects in Hloop.
  apply bind_inv_Ok in Hloop as (st4 & per_repeat & Heach & [= -> <-]).
  apply for_each_length in Heach as Hlen. rewrite length_seq in Hlen.
  simpl in Hcons.
  apply bind_inv_Ok in Hcons as (? & y_pred & _ & [= -> <-]).
  exists st3, per_repeat. split; [done|]. split; [done|].
  repeat (apply bind_inv_Ok in Hstep as (? & ? & _ & Hstep)).
  by injection Hstep as _ <-.
Qed.

(** C9: for a fold with a non-empty training set, and models that label
    within their [K] configured ids, the [effective_k] of the Fold Result
    is at least 1 and at most [K].  Where the fold fits one model for its
    prediction (no consensus repeats), it is the count of distinct labels
    that model gives the training samples.  With consensus repeats it is
    the arithmetic mean of the repeats' counts, each the count of distinct
    labels of the repeat's own fit. *)
Theorem fold_result_effective_k `{!ClusterWithinK} st st'
    (X_train X_val : ndarray) (W_train W_val : weights_arg) (K : nat)
    (fold_result : Series Q) :
  X_train ≠ [] →
  getitem (params_dict (self st)) "k" = Ok (Num (inject_Z (Z.of_nat K))) →
  _cv_fold_step X_train X_val W_train W_val st = (st', Ok fold_result) →
  ∃ effective_k,
    getitem_opt fold_result "effective_k" = Some effective_k ∧
    (1 <= effective_k <= inject_Z (Z.of_nat K))%Q ∧
    (n_consensus (self st) ≤ 1 →
     ∃ st1 vader,
       _fit_vader X_train W_train st = (st1, Ok vader) ∧
       effective_k = inject_Z (Z.of_nat (distinct_labels (cluster vader X_train))) ∧
       1 ≤ distinct_labels (cluster vader X_train) ≤ K) ∧
    (1 < n_consensus (self st) →
     ∃ st1 per_repeat,
       for_each (seq 0 (n_consensus (self st))) (one_repeat X_train X_val W_train) st
       = (st1, Ok per_repeat) ∧
       length per_repeat = n_consensus (self st) ∧
       effective_k = np_mean (tuple_effective_k <$> per_repeat) ∧
       Forall (λ t, ∃ st2 st3 vader,
                 _fit_vader X_train W_train st2 = (st3, Ok vader) ∧
                 tuple_effective_k t
                 = inject_Z (Z.of_nat (distinct_labels (cluster vader X_train))) ∧
                 1 ≤ distinct_labels (cluster vader X_train) ≤ K) per_repeat).
Proof.
  intros Hne HK Hstep.
  destruct (decide (n_consensus (self st) ≤ 1)) as [Hn|Hn].
  - destruct (direct_fold_result_effective_k st st' X_train X_val W_train W_val K
                fold_result Hne Hn HK Hstep)
      as (st1 & vader & Hfit & Hek & Hlo & Hhi).
    eexists. split; [exact Hek|]. split_and!.
    + change 1%Q with (inject_Z 1). rewrite <-Zle_Qle. lia.
    + rewrite <-Zle_Qle. lia.
    + intros _. exists st1, vader. done.
    + lia.
  - destruct (consensus_fold_result_effective_k st st' X_train X_val W_train W_val K
                fold_result Hne ltac:(lia) HK Hstep)
      as (effective_k & Hek & Hbounds).
    exists effective_k. split; [done|]. split; [done|]. split; [lia|].
    intros Hcons.
    destruct (consensus_fold_result_mean st st' X_train X_val W_train W_val
                fold_result Hcons Hstep) as (st1 & per_repeat & Heach & Hlen & Hmean).
    rewrite Hek in Hmean. injection Hmean as ->.
    exists st1, per_repeat. split_and!; [done..|].
    by eapply repeats_effective_k_counts.
Qed.

End consensus.

(** ** Regrouping the trial rows by repeat *)

Section regroup.
Context {World : Type}.
Implicit Types (env : VADERBayesianOptimizer.Env World).

Import VADERBayesianOptimizer.

Lemma div_between (a N q : nat) : q * N ≤ a < (q + 1) * N → a / N = q.
Proof.
  intros [Hlo Hhi]. symmetry. apply (Nat.div_unique a N q (a - q * N)); lia.
Qed.

(** [range(r, M, N)] lists the positions below [M] that are [r] modulo [N]. *)
Lemma py_range_mod (r M N : nat) :
  r < N → py_range r M N = filter (λ j, j mod N = r) (seq 0 M).
Proof.
  intros Hr. unfold py_range. induction M as [|M IH].
  - simpl. rewrite (div_between _ N 0) by lia. done.
  - rewrite seq_S, filter_app, <-IH. simpl. clear IH.
    pose proof (Nat.div_mod_eq M N) as HM.
    pose proof (Nat.mod_upper_bound M N) as HMlt.
    rewrite filter_cons, filter_nil. case_decide as Hmod.
    + rewrite (div_between (S M - r + N - 1) N (S (M / N))) by nia.
      rewrite (div_between (M - r + N - 1) N (M / N)) by nia.
      rewrite seq_S, fmap_app. simpl. do 2 f_equal. nia.
    + rewrite app_nil_r. do 2 f_equal.
      destruct (decide (M < r)) as [Hlt|Hge].
      * by replace (S M - r) with (M - r) by lia.
      * pose proof (Nat.div_mod_eq (M - r) N) as Hd.
        pose proof (Nat.mod_upper_bound (M - r) N) as Hdlt.
        assert ((M - r) mod N ≠ 0) as Hne.
        { intros Hz. apply Hmod.
          replace M with (r + (M - r) / N * N) by nia.
          rewrite Nat.Div0.mod_add. apply Nat.mod_small. lia. }
        rewrite (div_between (S M - r + N - 1) N (S ((M - r) / N))) by nia.
        rewrite (div_between (M - r + N - 1) N (S ((M - r) / N))) by nia.
        done.
Qed.

Lemma iloc_rows_filter_from {V} (P : nat → Prop) `{!∀ j, Decision (P j)}
    (pre rs : list (Series V)) :
  iloc_rows (pre ++ rs) (filter P (seq (length pre) (length rs)))
  = Ok ((filter (λ jr, P jr.1) (zip (seq (length pre) (length rs)) rs)).*2).
Proof.
  revert pre. induction rs as [|r rs IH]; intros pre; [done|].
  simpl. specialize (IH (pre ++ [r])).
  rewrite <-app_assoc, length_app in IH. simpl in IH.
  rewrite Nat.add_1_r in IH.
  rewrite !filter_cons. simpl. case_decide.
  - cbn [iloc_rows]. rewrite list_lookup_middle by done. by rewrite IH.
  - done.
Qed.

Lemma iloc_mod (df : DataFrame value) (N r : nat) :
  r < N →
  iloc df (py_range r (length (rows df)) N)
  = Ok {| columns := columns df; rows := rows_of_repeat N r (rows df) |}.
Proof.
  intros Hr. unfold iloc, rows_of_repeat. rewrite py_range_mod by done.
  by rewrite (iloc_rows_filter_from (λ j, j mod N = r) [] (rows df)).
Qed.

Lemma repeat_file_inj (self : Optimizer) (i j : nat) :
  repeat_file self i = repeat_file self j → i = j.
Proof.
  unfold repeat_file, path_join. intros Heq.
  do 2 apply (inj (String.append _)) in Heq.
  apply (inj (String.append "repeat_")) in Heq.
  by apply append_inj_r, str_nat_inj in Heq.
Qed.

Lemma write_repeats_loop (self : Optimizer) (df : DataFrame value)
    (positions : list nat) env :
  NoDup positions → (∀ i, i ∈ positions → i < n_repeats self) →
  ∃ env',
    for_loop positions tt
      (λ _ i,
         let ii := py_range i (length (rows df)) (n_repeats self) in
         let* df_i := lift (iloc df ii) in
         write_file (repeat_file self i) (Csv df_i)) env = (env', Ok tt) ∧
    (∀ i, i ∈ positions →
       fs env' !! repeat_file self i
       = Some (Csv {| columns := columns df;
                      rows := rows_of_repeat (n_repeats self) i (rows df) |})) ∧
    (∀ path, (∀ i, i ∈ positions → path ≠ repeat_file self i) →
       fs env' !! path = fs env !! path).
Proof.
  revert env. induction positions as [|i positions IH]; intros env Hnd Hlt.
  - exists env. split; [done|]. split; [by intros i ?%elem_of_nil|done].
  - apply NoDup_cons in Hnd as [Hi Hnd].
    cbn [for_loop]. unfold bind at 1. unfold bind at 1. unfold lift.
    rewrite iloc_mod by (apply Hlt; left).
    unfold write_file at 1, modify at 1.
    edestruct IH as (env' & -> & Hin & Hout); [done|by intros; apply Hlt; right|].
    exists env'. split; [done|]. split.
    + intros j [->|Hj]%elem_of_cons; [|by apply Hin].
      rewrite Hout; [by apply lookup_insert_eq|].
      intros j Hj ->%repeat_file_inj. done.
    + intros path Hpath. rewrite Hout by (intros; apply Hpath; by right).
      simpl. apply lookup_insert_ne. intros Heq. by eapply Hpath; [left|].
Qed.

Lemma for_loop_pure {A Acc} (xs : list A) (acc : Acc)
    (body : Acc → A → M (Env World) Acc) env :
  (∀ acc x env, (body acc x env).1 = env) →
  (for_loop xs acc body env).1 = env.
Proof.
  intros Hbody. revert acc. induction xs as [|x xs IH]; intros acc; [done|].
  cbn [for_loop]. unfold bind. specialize (Hbody acc x env).
  destruct (body acc x env) as [env1 [acc'|e]]; simpl in Hbody; subst; [apply IH|done].
Qed.

(** Reading the trial files leaves the state as it is. *)
Lemma read_trials_files_pure (self : Optimizer) env :
  (read_trials_files self env).1 = env.
Proof.
  unfold read_trials_files. unfold bind, get.
  apply for_loop_pure. intros acc entry env0.
  destruct (endswith _ _); [|done].
  unfold bind, lift. by destruct (read_csv _).
Qed.

(** The row at position [j] of the table is row [j / N] of repeat file
    [j mod N]. *)
Lemma rows_of_repeat_lookup {V} (N j : nat) (rs : list (Series V)) (row : Series V) :
  0 < N → rs !! j = Some row →
  rows_of_repeat N (j mod N) rs !! (j / N) = Some row.
Proof.
  intros HN Hj.
  pose proof (Nat.mod_upper_bound j N) as Hr.
  pose proof (Nat.div_mod_eq j N) as Hdiv.
  apply lookup_lt_Some in Hj as Hlt.
  assert (iloc_rows rs (py_range (j mod N) (length rs) N)
          = Ok (rows_of_repeat N (j mod N) rs)) as Hiloc.
  { rewrite py_range_mod by lia.
    by rewrite (iloc_rows_filter_from (λ i, i mod N = j mod N) [] rs). }
  assert (py_range (j mod N) (length rs) N !! (j / N) = Some j) as Hpos.
  { unfold py_range. rewrite list_lookup_fmap, lookup_seq_lt.
    - simpl. f_equal. lia.
    - pose proof (Nat.div_mod_eq (length rs - j mod N + N - 1) N) as Hc.
      pose proof (Nat.mod_upper_bound (length rs - j mod N + N - 1) N) as Hclt.
      nia. }
  revert Hiloc Hpos. generalize (py_range (j mod N) (length rs) N).
  generalize (rows_of_repeat N (j mod N) rs). generalize (j / N).
  intros q out ii. revert q out. induction ii as [|i ii IH]; intros q out; [done|].
  cbn [iloc_rows]. destruct (rs !! i) as [r|] eqn:Hi; [|done].
  destruct (iloc_rows rs ii) as [out'|e]; [|done]. intros [= <-].
  destruct q as [|q]; simpl.
  - intros [= ->]. congruence.
  - intros Hq. by eapply IH.
Qed.

(** C5: once the trial files are read and concatenated into a table [df]
    of [M] rows, the regrouping step with [n_repeats = N > 0] writes the
    [N] distinct files [repeat_0.csv], ..., [repeat_{N-1}.csv] and nothing
    else; file [r] holds, under the columns of [df], exactly the rows of
    [df] whose position is [r] modulo [N], in their order; and the row at
    position [j] is found in file [j mod N], as its row [j / N]. *)
Theorem gen_repeats_files_regroups (self : Optimizer) env
    (dfs : list (DataFrame value)) (df : DataFrame value) :
  0 < n_repeats self →
  (read_trials_files self env).2 = Ok dfs →
  pd_concat dfs = Ok df →
  ∃ env',
    gen_repeats_files_from_trials_files self env = (env', Ok tt) ∧
    (∀ r, r < n_repeats self →
       fs env' !! repeat_file self r
       = Some (Csv {| columns := columns df;
                      rows := rows_of_repeat (n_repeats self) r (rows df) |})) ∧
    (∀ r1 r2, repeat_file self r1 = repeat_file self r2 → r1 = r2) ∧
    (∀ path, (∀ r, r < n_repeats self → path ≠ repeat_file self r) →
       fs env' !! path = fs env !! path) ∧
    (∀ j row, rows df !! j = Some row →
       rows_of_repeat (n_repeats self) (j mod n_repeats self) (rows df)
         !! (j / n_repeats self) = Some row).
Proof.
  intros HN Hread Hconcat.
  pose proof (read_trials_files_pure self env) as Hpure.
  destruct (read_trials_files self env) as [env0 r] eqn:Hrun.
  simpl in Hread, Hpure. subst env0 r.
  destruct (write_repeats_loop self df (seq 0 (n_repeats self)) env)
    as (env' & Hloop & Hin & Hout).
  { apply NoDup_seq. }
  { intros i Hi%elem_of_seq. lia. }
  exists env'. split_and!.
  - unfold gen_repeats_files_from_trials_files.
    erewrite bind_Ok by done.
    erewrite bind_Ok by (unfold lift; by rewrite Hconcat). done.
  - intros r Hr. apply Hin, elem_of_seq. lia.
  - apply repeat_file_inj.
  - intros path Hpath. apply Hout. intros i Hi%elem_of_seq. apply Hpath. lia.
  - intros j row Hj. by apply rows_of_repeat_lookup.
Qed.

End regroup.

(** ** Seeds spelled in decimal *)

Section numerals.

Lemma is_digit_cases (c : ascii) :
  is_digit c →
  c ∈ ["0"; "1"; "2"; "3"; "4"; "5"; "6"; "7"; "8"; "9"]%char.
Proof.
  intros (d & Hd & ->).
  assert (d ∈ [0; 1; 2; 3; 4; 5; 6; 7; 8; 9]%N) as Hin.
  { rewrite !elem_of_cons. lia. }
  rewrite !elem_of_cons, elem_of_nil in Hin. rewrite !elem_of_cons.
  destruct Hin as [->|[->|[->|[->|[->|[->|[->|[->|[->|[->|[]]]]]]]]]]]; tauto.
Qed.

Lemma digit_of_ascii_digit (c : ascii) :
  is_digit c → ∃ d, digit_of_ascii c = Some d.
Proof.
  intros Hc%is_digit_cases. rewrite !elem_of_cons, elem_of_nil in Hc.
  destruct Hc as [->|[->|[->|[->|[->|[->|[->|[->|[->|[->|[]]]]]]]]]]];
    by eexists.
Qed.

Lemma dash_not_digit : ¬ is_digit "-".
Proof.
  intros Hc%is_digit_cases. rewrite !elem_of_cons, elem_of_nil in Hc.
  destruct Hc as [?|[?|[?|[?|[?|[?|[?|[?|[?|[?|[]]]]]]]]]]]; discriminate.
Qed.

Lemma all_digits_app (s t : string) :
  all_digits s → all_digits t → all_digits (s +:+ t).
Proof.
  intros Hs Ht c. rewrite has_char_app. intros [?|?]%orb_true_iff; auto.
Qed.

Lemma all_digits_str_nat (n : nat) : all_digits (str_nat n).
Proof. intros c. apply str_nat_digits. Qed.

Lemma int_of_digits_total (s : string) (acc : Z) :
  all_digits s → ∃ z, int_of_digits acc s = Some z.
Proof.
  revert acc. induction s as [|c s IH]; intros acc Hs; simpl; [eauto|].
  destruct (digit_of_ascii_digit c) as [d ->].
  { apply Hs. simpl. by rewrite bool_decide_eq_true_2. }
  apply IH. intros c' Hc'. apply Hs. simpl. by rewrite Hc', orb_true_r.
Qed.

Lemma pretty_N_go_length (x : N) (s : string) :
  String.length s ≤ String.length (pretty_N_go x s).
Proof.
  revert s. induction (N.lt_wf_0 x) as [x _ IH]; intros s.
  destruct (decide (x = 0)%N) as [->|Hx]; [by rewrite pretty_N_go_0|].
  rewrite pretty_N_go_step by lia.
  etrans; [|apply IH, N.div_lt; lia]. simpl. lia.
Qed.

(** The numeral of a positive number: digits, and at least one. *)
Lemma pretty_positive_digits (p : positive) :
  all_digits (pretty (Npos p)) ∧ pretty (Npos p) ≠ "".
Proof.
  unfold pretty, pretty_N. rewrite decide_False by done. split.
  - intros c [Hd|Hc]%pretty_N_go_chars; [done|discriminate].
  - rewrite pretty_N_go_step by lia. intros Heq.
    pose proof (pretty_N_go_length (N.pos p `div` 10)
                  (String (pretty_N_char (N.pos p `mod` 10)) "")) as Hlen.
    rewrite Heq in Hlen. simpl in Hlen. lia.
Qed.

(** [int(str(z) + digits)] is defined for every non-zero [z]. *)
Lemma int_of_str_numeral (z : Z) (rest : string) :
  z ≠ 0%Z → all_digits rest → ∃ z', int_of_str (str_int z +:+ rest) = Ok z'.
Proof.
  intros Hz Hrest. unfold str_int, pretty, pretty_Z.
  destruct z as [|p|p]; [done| |].
  - destruct (pretty_positive_digits p) as [Hdig Hne].
    change (pretty p) with (pretty (Npos p)).
    destruct (pretty (N.pos p)) as [|c s] eqn:Hp; [done|].
    rewrite append_cons. unfold int_of_str.
    rewrite decide_False.
    + destruct (int_of_digits_total (String c (s +:+ rest)) 0) as [z' ->]; [|eauto].
      rewrite <-append_cons. by apply all_digits_app.
    + intros ->. by apply dash_not_digit, Hdig.
  - destruct (pretty_positive_digits p) as [Hdig Hne].
    change (pretty p) with (pretty (Npos p)).
    rewrite append_assoc. change ("-" +:+ ?s) with (String "-" s).
    unfold int_of_str. rewrite decide_True by done.
    destruct (pretty (N.pos p)) as [|c s] eqn:Hp; [done|].
    rewrite append_cons.
    destruct (int_of_digits_total (String c (s +:+ rest)) 0) as [z' ->]; [|eauto].
    rewrite <-append_cons. by apply all_digits_app.
Qed.

End numerals.

(** ** The objective of a trial *)

Section objective.
Import VADERBayesianOptimizer.
Context {World : Type} `{!Shuffle} {uuid_supply : Uuid} {uuid_unique : UuidUnique}
  {job_methods : Methods World}.
Implicit Types (env : Env World).

Lemma repeat_seed_total (self : Optimizer) (k number i : nat) :
  ∃ seed, repeat_seed self k number i = Ok seed.
Proof.
  unfold repeat_seed. destruct (seed self) as [z|]; simpl; [|eauto].
  destruct (Z.eqb_spec z 0) as [->|Hz]; simpl; [eauto|].
  destruct (int_of_str_numeral z (str_nat k +:+ str_nat number +:+ str_nat i))
    as [z' ->]; [done| |eauto].
  repeat apply all_digits_app; apply all_digits_str_nat.
Qed.

Lemma failure_log_file_inj (self : Optimizer) (id1 id2 : string) :
  failure_log_file self id1 = failure_log_file self id2 → id1 = id2.
Proof.
  unfold failure_log_file, path_join. intros Heq.
  do 2 apply (inj (String.append _)) in Heq. by apply append_inj_r in Heq.
Qed.

Lemma failure_log_file_ne_trial_file (self : Optimizer) (id : string) (k number : nat) :
  failure_log_file self id ≠ trial_file self k number.
Proof.
  unfold failure_log_file, trial_file, failed_jobs_dir, output_trials_dir, path_join.
  rewrite !append_assoc. intros Heq.
  apply (inj (String.append _)) in Heq. discriminate Heq.
Qed.

(** One job of a trial: it draws the next id, and either returns its row,
    or has its failure logged under its id and yields the bare
    parameters. *)
Lemma run_cv_single_job_spec (self : Optimizer) (input_data : ndarray)
    (input_weights : option ndarray) (params_dict : Series value)
    (seed : option Z) env :
  ∃ env' row r,
    run_cv_single_job self input_data input_weights params_dict seed env
    = (env', Ok row) ∧
    jobs_started env' = S (jobs_started env) ∧
    outcomes env' = outcomes env ++ [(uuid4 (jobs_started env), r)] ∧
    match r with
    | Ok job_row => row = job_row ∧ fs env' = fs env
    | Raise e =>
        row = params_dict ∧
        fs env' = <[failure_log_file self (uuid4 (jobs_started env))
                    := FailureLog (uuid4 (jobs_started env)) params_dict e]> (fs env)
    end.
Proof.
  unfold run_cv_single_job, new_job.
  unfold bind at 1. unfold bind at 1. unfold get. unfold bind at 1.
  unfold modify at 1. unfold ret at 1. unfold try_except, job_run. simpl.
  destruct (run _) as [st [job_row|e]].
  - eexists _, job_row, (Ok job_row). by split_and!.
  - eexists _, params_dict, (Raise e). unfold bind, write_file, modify, ret. simpl.
    by split_and!.
Qed.

(** The loop over the repeats of a trial never raises: it yields one row
    per repeat. *)
Lemma objective_loop_total (self : Optimizer) (k number : nat) (input_data : ndarray)
    (input_weights : option ndarray) (params_dict : Series value)
    (repeats : list nat) env :
  ∃ env' results,
    for_each repeats (λ i,
      let* seed := lift (repeat_seed self k number i) in
      run_cv_single_job self input_data input_weights params_dict seed) env
    = (env', Ok results) ∧
    length results = length repeats.
Proof.
  revert env. induction repeats as [|x repeats IH]; intros env.
  - by exists env, [].
  - destruct (repeat_seed_total self k number x) as [seed Hseed].
    destruct (run_cv_single_job_spec self input_data input_weights params_dict seed env)
      as (env1 & row & r & Hjob & _).
    destruct (IH env1) as (env' & results & Hloop & Hlen).
    exists env', (row :: results). split; [|simpl; by rewrite Hlen].
    cbn [for_each]. erewrite bind_Ok; [|erewrite bind_Ok; [exact Hjob|]].
    + erewrite bind_Ok by done. done.
    + unfold lift. by rewrite Hseed.
Qed.

(** The loop over the repeats of a trial runs every job, whatever the
    earlier ones did. *)
Lemma objective_loop (self : Optimizer) (k number : nat) (input_data : ndarray)
    (input_weights : option ndarray) (params_dict : Series value)
    (repeats : list nat) env :
  ∃ env' results outs,
    for_each repeats (λ i,
      let* seed := lift (repeat_seed self k number i) in
      run_cv_single_job self input_data input_weights params_dict seed) env
    = (env', Ok results) ∧
    jobs_started env' = jobs_started env + length repeats ∧
    outcomes env' = outcomes env ++ outs ∧
    length results = length repeats ∧
    length outs = length repeats ∧
    (∀ i id r, outs !! i = Some (id, r) →
       id = uuid4 (jobs_started env + i) ∧
       match r with
       | Ok job_row => results !! i = Some job_row
       | Raise e =>
           results !! i = Some params_dict ∧
           fs env' !! failure_log_file self id = Some (FailureLog id params_dict e)
       end) ∧
    (∀ path,
       (∀ i id e, outs !! i = Some (id, Raise e) → path ≠ failure_log_file self id) →
       fs env' !! path = fs env !! path).
Proof.
  revert env. induction repeats as [|x repeats IH]; intros env.
  - exists env, [], []. split_and!; try done. by rewrite app_nil_r.
  - destruct (repeat_seed_total self k number x) as [seed Hseed].
    destruct (run_cv_single_job_spec self input_data input_weights params_dict seed env)
      as (env1 & row & r & Hjob & Hstarted & Houts & Hr).
    destruct (IH env1) as (env' & results & outs & Hloop & Hstarted' & Houts' &
                           Hlen & Hlen' & Hin & Hframe).
    exists env', (row :: results), ((uuid4 (jobs_started env), r) :: outs).
    split_and!.
    + cbn [for_each]. erewrite bind_Ok; [|erewrite bind_Ok; [exact Hjob|]].
      * erewrite bind_Ok by done. done.
      * unfold lift. by rewrite Hseed.
    + rewrite Hstarted', Hstarted. simpl. lia.
    + rewrite Houts', Houts, <-app_assoc. done.
    + simpl. by rewrite Hlen.
    + simpl. by rewrite Hlen'.
    + intros [|i] id r' Hi; simpl in Hi.
      * injection Hi as <- <-. rewrite Nat.add_0_r. split; [done|].
        destruct r as [job_row|e]; [by destruct Hr as [-> _]|].
        destruct Hr as [-> Hfs]. split; [done|].
        rewrite Hframe; [rewrite Hfs; apply lookup_insert_eq|].
        intros j id' e' Hj Heq%failure_log_file_inj.
        apply Hin in Hj as [-> _]. apply uuid4_inj in Heq. lia.
      * apply Hin in Hi as [-> Hi]. split; [f_equal; lia|]. done.
    + intros path Hpath. rewrite Hframe.
      * destruct r as [job_row|e]; [by destruct Hr as [_ ->]|].
        destruct Hr as [_ ->]. apply lookup_insert_ne.
        intros Heq. by eapply (Hpath 0 _ e).
      * intros i id e Hi. by apply (Hpath (S i) id e).
Qed.

(** What [objective] does as a whole: all repeats run, their rows are
    persisted as the trial file, and the score is read off that frame. *)
Lemma objective_spec (self : Optimizer) (trial : Trial) (k : nat)
    (input_data : ndarray) (input_weights : option ndarray) env :
  ∃ env' results outs,
    objective self trial k input_data input_weights env
    = (env', score_of (pd_DataFrame results)) ∧
    outcomes env' = outcomes env ++ outs ∧
    length results = n_repeats self ∧
    length outs = n_repeats self ∧
    fs env' !! trial_file self k (number trial) = Some (Csv (pd_DataFrame results)) ∧
    (∀ i id r, outs !! i = Some (id, r) →
       id = uuid4 (jobs_started env + i) ∧
       match r with
       | Ok job_row => results !! i = Some job_row
       | Raise e =>
           results !! i = Some (trial_params trial k) ∧
           fs env' !! failure_log_file self id
           = Some (FailureLog id (trial_params trial k) e)
       end) ∧
    (∀ path,
       path ≠ trial_file self k (number trial) →
       (∀ i id e, outs !! i = Some (id, Raise e) → path ≠ failure_log_file self id) →
       fs env' !! path = fs env !! path).
Proof.
  destruct (objective_loop self k (number trial) input_data input_weights
              (trial_params trial k) (seq 0 (n_repeats self)) env)
    as (env1 & results & outs & Hloop & _ & Houts & Hlen & Hlen' & Hin & Hframe).
  rewrite length_seq in Hlen, Hlen'.
  eexists _, results, outs. split_and!.
  - unfold objective. erewrite bind_Ok by exact Hloop.
    unfold bind at 1. unfold write_file at 1, modify at 1.
    unfold bind, lift, ret. by destruct (score_of _).
  - done.
  - done.
  - done.
  - simpl. apply lookup_insert_eq.
  - intros i id r Hi. apply Hin in Hi as [-> Hi]. split; [done|].
    destruct r as [job_row|e]; [done|]. destruct Hi as [Hrow Hlog].
    split; [done|]. simpl. rewrite lookup_insert_ne; [done|].
    intros Heq. symmetry in Heq. by apply failure_log_file_ne_trial_file in Heq.
  - intros path Hne Hpath. simpl. rewrite lookup_insert_ne by done. by apply Hframe.
Qed.

Lemma numeric_cells_all (scores : list Q) :
  numeric_cells ((λ q, Some (Num q)) <$> scores) = Ok (Some <$> scores).
Proof.
  induction scores as [|q scores IH]; [done|].
  rewrite !fmap_cons. cbn [numeric_cells as_number]. by rewrite IH.
Qed.

Lemma omap_id_Some {A} (l : list A) : omap id (Some <$> l) = l.
Proof. induction l as [|x l IH]; csimpl; [done|]. by f_equal. Qed.

End objective.

(** ** The demo instance: its collaborators keep their contracts *)

Section demo_facts.
Import Demo.

Lemma demo_shuffle_permutes : ShufflePermutes (H := demo_shuffle).
Proof. intros random_state l. apply reverse_Permutation. Qed.

Lemma demo_uuid_unique : VADERBayesianOptimizer.UuidUnique (H := demo_uuid).
Proof.
  intros i j Heq. unfold VADERBayesianOptimizer.uuid4, demo_uuid in Heq.
  apply (inj (String.append "job-")) in Heq. by apply str_nat_inj.
Qed.

Lemma demo_cluster_within_k (failing : list nat) :
  ClusterWithinK (Backend0 := demo_backend failing).
Proof.
  intros args w w' v K Htrain HK X. unfold train, demo_backend in Htrain.
  rewrite HK, Qfloor_Z in Htrain.
  repeat case_decide; try done. injection Htrain as _ <-.
  cbn [cluster toy_model]. split; [by rewrite length_fmap|].
  apply Forall_fmap, Forall_forall. intros row _. simpl.
  destruct row as [|x row]; [lia|].
  destruct (Qle_bool x 0); simpl; [lia|].
  destruct (Z.leb_spec (Z.of_nat K) 1); lia.
Qed.

End demo_facts.

(** ** The seeds of the consensus repeats *)

Section consensus_seeds.
Import Demo.

(** Reseeding derives the new seed from the seed the job holds at that
    moment, which earlier repeats have already replaced. *)
Lemma reseed_from_current_seed {World} (st : State World) (i : nat) (z : Z) :
  seed (self st) = Some z → z ≠ 0%Z →
  ∃ z', int_of_str (str_int z +:+ str_nat i) = Ok z' ∧
        FullOptimizationJob.reseed i st = (assign_seed (Some z') st, Ok tt).
Proof.
  intros Hseed Hz.
  destruct (int_of_str_numeral z (str_nat i) Hz (all_digits_str_nat i)) as [z' Hz'].
  exists z'. split; [done|].
  unfold FullOptimizationJob.reseed. unfold bind at 1. unfold get.
  rewrite Hseed. simpl. rewrite (proj2 (Z.eqb_neq z 0)) by done. simpl.
  unfold bind, lift, ret, modify. by rewrite Hz'.
Qed.

(** C2 (the code departs from it): a job with base seed 7, two consensus
    repeats and two folds fits the repeats of its first fold with the
    seeds 70 and 701, those of its second fold with 7010 and 70101 (the
    third fit of each fold is the reference model), and is left with the
    seed 70101: the seed of repeat [i] is not a function of the base seed
    and [i].  With no base seed every fit is unseeded; so is it with the
    base seed 0. *)
Theorem consensus_seed_drifts :
  let run_trace seed :=
    (run (H := demo_shuffle) (job_methods := demo_methods)
         (demo_state None seed 2)).1 in
  fit_seeds (trace (run_trace (Some 7%Z)))
  = [Some 70; Some 701; Some 701; Some 7010; Some 70101; Some 70101]%Z ∧
  seed (self (run_trace (Some 7%Z))) = Some 70101%Z ∧
  fit_seeds (trace (run_trace None)) = [None; None; None; None; None; None] ∧
  fit_seeds (trace (run_trace (Some 0%Z))) = [None; None; None; None; None; None].
Proof. vm_compute. done. Qed.

(** The sibling derivation in [objective] starts from the optimizer's own
    seed each time. *)
Lemma repeat_seed_from_base_seed :
  VADERBayesianOptimizer.repeat_seed (demo_optimizer 3) 2 3 0 = Ok (Some 42230%Z) ∧
  VADERBayesianOptimizer.repeat_seed (demo_optimizer 3) 2 3 1 = Ok (Some 42231%Z) ∧
  VADERBayesianOptimizer.repeat_seed (demo_optimizer 3) 2 3 2 = Ok (Some 42232%Z).
Proof. vm_compute. done. Qed.

End consensus_seeds.

(** ** Trial files *)

Section trial_files.
Import VADERBayesianOptimizer.

(** C10: distinct pairs of candidate K and trial number have distinct
    trial ids, and distinct per-trial files. *)
Theorem trial_file_injective (self : Optimizer) (k1 number1 k2 number2 : nat) :
  (k1, number1) ≠ (k2, number2) →
  trial_id k1 number1 ≠ trial_id k2 number2 ∧
  trial_file self k1 number1 ≠ trial_file self k2 number2.
Proof.
  intros Hne. assert (trial_id k1 number1 ≠ trial_id k2 number2) as Hid.
  { intros [-> ->]%trial_id_inj. done. }
  split; [done|]. unfold trial_file, path_join. intros Heq.
  do 2 apply (inj (String.append _)) in Heq. by apply append_inj_r in Heq.
Qed.

End trial_files.

(** ** The theorems at the demo instance *)

Section witnesses.
Import Demo VADERBayesianOptimizer.


Lemma KFold_split_partitions_witness :
  ∃ folds,
    KFold_split (H := demo_shuffle) 5 (Some 7%Z) 100 = Ok folds ∧
    length folds = 5 ∧
    concat (folds.*2) ≡ₚ seq 0 100.
Proof.
  destruct (@KFold_split_partitions demo_shuffle demo_shuffle_permutes
              100 5 (Some 7%Z)) as (folds & Hsplit & Hlen & _ & Hperm & _).
  - lia.
  - exists folds. by split_and!.
Defined.

Lemma run_job_result_row_witness :
  ∃ row fold_results,
    (run (H := demo_shuffle) (job_methods := demo_methods)
         (demo_state None (Some 7%Z) 1)).2 = Ok row ∧
    length fold_results = 2 ∧
    row = demo_params
          ++ (prod_map id Num <$> df_mean (pd_DataFrame fold_results)).
Proof.
  destruct (run (H := demo_shuffle) (job_methods := demo_methods)
                (demo_state None (Some 7%Z) 1)) as [st' [row|e]] eqn:Hrun.
  - destruct (@run_job_result_row nat demo_shuffle demo_methods
                full_job_disciplined _ st' row Hrun)
      as (fold_results & _ & Hlen & Hrow & _).
    exists row, fold_results. by split_and!.
  - exfalso. vm_compute in Hrun. discriminate Hrun.
Defined.

Lemma consensus_clustering_aggregates_witness :
  ∃ out per_repeat,
    (FullOptimizationJob._consensus_clustering
       (Backend0 := demo_backend []) (ClusteringUtils0 := demo_clustering_utils)
       [[-1]; [1]]%Q [[-2]; [2]]%Q W_None
       (demo_state None (Some 7%Z) 2)).2 = Ok out ∧
    length per_repeat = 2 ∧
    FullOptimizationJob.tuple_effective_k out
    = Qred (np_sum (FullOptimizationJob.tuple_effective_k <$> per_repeat)
            / inject_Z 2).
Proof.
  destruct (FullOptimizationJob._consensus_clustering
              (Backend0 := demo_backend []) (ClusteringUtils0 := demo_clustering_utils)
              [[-1]; [1]]%Q [[-2]; [2]]%Q W_None
              (demo_state None (Some 7%Z) 2)) as [st' [out|e]] eqn:Hrun.
  - assert (1 < AbstractOptimizationJob.n_consensus
                  (self (demo_state None (Some 7%Z) 2))) as Hn by (simpl; lia).
    destruct (@consensus_clustering_aggregates nat (demo_backend [])
                demo_clustering_utils (demo_state None (Some 7%Z) 2) st'
                [[-1]; [1]]%Q [[-2]; [2]]%Q W_None out Hn Hrun)
      as (per_repeat & _ & Hlen & Hek & _).
    exists out, per_repeat.
    split; [reflexivity|]. split; [exact Hlen|exact Hek].
  - exfalso. vm_compute in Hrun. discriminate Hrun.
Defined.

Lemma gen_repeats_files_regroups_witness :
  ∃ env' df,
    gen_repeats_files_from_trials_files (demo_optimizer 5) (demo_env demo_trial_files)
    = (env', Ok tt) ∧
    length (rows df) = 10 ∧
    fs env' !! repeat_file (demo_optimizer 5) 3
    = Some (Csv {| columns := columns df;
                   rows := rows_of_repeat 5 3 (rows df) |}).
Proof.
  destruct (read_trials_files (demo_optimizer 5) (demo_env demo_trial_files)).2
    as [dfs|e] eqn:Hread; [|exfalso; vm_compute in Hread; discriminate Hread].
  destruct (pd_concat dfs) as [df|e] eqn:Hconcat.
  - assert (0 < n_repeats (demo_optimizer 5)) as HN by (simpl; lia).
    destruct (@gen_repeats_files_regroups nat (demo_optimizer 5)
                (demo_env demo_trial_files) dfs df HN Hread Hconcat)
      as (env' & Hgen & Hfiles & _).
    exists env', df. split; [exact Hgen|]. split.
    + vm_compute in Hread. injection Hread as <-.
      vm_compute in Hconcat. injection Hconcat as <-. reflexivity.
    + apply Hfiles. simpl. lia.
  - exfalso. vm_compute in Hread. injection Hread as <-.
    vm_compute in Hconcat. discriminate Hconcat.
Defined.

(** Ten persisted rows and [n_repeats = 5]: five repeat files of two rows
    each, file [r] holding the rows at positions [r] and [r + 5] of the
    concatenated table (the directory lists the second trial file first). *)
Example regroup_ten_rows :
  (λ r, csv_rows
          (fs (gen_repeats_files_from_trials_files
                 (demo_optimizer 5) (demo_env demo_trial_files)).1
           !! repeat_file (demo_optimizer 5) r)) <$> seq 0 5
  = (λ r, Some [ [("k", Num 2); ("row", Num (inject_Z (r + 5)))];
                 [("k", Num 2); ("row", Num (inject_Z r))] ])
      <$> seqZ 0 5.
Proof. vm_compute. reflexivity. Qed.

(** One of three jobs fails (its second model fit does): the trial file
    still holds three rows, the second the bare configuration, and the
    one other file written is the failure log of the second job. *)
Example one_failed_job_of_three :
  let env' := (demo_objective [5] 3).1 in
  (length <$> csv_rows (fs env' !! trial_file (demo_optimizer 3) 2 3)) = Some 3 ∧
  ((λ rs, rs !! 1) <$> csv_rows (fs env' !! trial_file (demo_optimizer 3) 2 3))
  = Some (Some (trial_params demo_trial 2)) ∧
  (outcomes env').*1 = ["job-0"; "job-1"; "job-2"] ∧
  fs env' !! failure_log_file (demo_optimizer 3) "job-1"
  = Some (FailureLog "job-1" (trial_params demo_trial 2) (RuntimeError "loss is NaN")) ∧
  (map_to_list (fs env')).*1
  ≡ₚ [trial_file (demo_optimizer 3) 2 3; failure_log_file (demo_optimizer 3) "job-1"] ∧
  (demo_objective [5] 3).2 = Ok None.
Proof. vm_compute. split_and!; reflexivity. Qed.

Lemma trial_file_injective_witness :
  trial_id 2 13 ≠ trial_id 21 3 ∧
  trial_file (demo_optimizer 3) 2 13 ≠ trial_file (demo_optimizer 3) 21 3.
Proof.
  apply (trial_file_injective (demo_optimizer 3) 2 13 21 3).
  intros Heq. discriminate Heq.
Defined.

End witnesses.

(** ** Seeds as decimal numerals *)

Section numeral_values.

Lemma digit_of_pretty_N_char (d : N) :
  (d < 10)%N → digit_of_ascii (pretty_N_char d) = Some (Z.of_N d).
Proof.
  intros Hd.
  assert (d ∈ [0; 1; 2; 3; 4; 5; 6; 7; 8; 9]%N) as Hin.
  { rewrite !elem_of_cons. lia. }
  rewrite !elem_of_cons, elem_of_nil in Hin.
  destruct Hin as [->|[->|[->|[->|[->|[->|[->|[->|[->|[->|[]]]]]]]]]]]; reflexivity.
Qed.

Lemma digit_of_ascii_range (c : ascii) (d : Z) :
  digit_of_ascii c = Some d → (0 ≤ d ≤ 9)%Z.
Proof. unfold digit_of_ascii. case_decide; [|done]. intros [= <-]. lia. Qed.

Lemma digit_of_ascii_inj (c1 c2 : ascii) (d : Z) :
  digit_of_ascii c1 = Some d → digit_of_ascii c2 = Some d → c1 = c2.
Proof.
  unfold digit_of_ascii. repeat case_decide; try done. intros [= <-] [= Heq].
  rewrite <-(ascii_nat_embedding c1), <-(ascii_nat_embedding c2). f_equal. lia.
Qed.

Lemma int_of_digits_None (s : string) (a b : Z) :
  int_of_digits a s = None → int_of_digits b s = None.
Proof.
  revert a b. induction s as [|c s IH]; intros a b; simpl; [done|].
  destruct (digit_of_ascii c); [apply IH|done].
Qed.

(** Reading digits onto an accumulator shifts it by their number. *)
Lemma int_of_digits_acc (s : string) (acc v : Z) :
  int_of_digits 0 s = Some v →
  int_of_digits acc s = Some (acc * 10 ^ Z.of_nat (String.length s) + v)%Z ∧
  (0 ≤ v < 10 ^ Z.of_nat (String.length s))%Z.
Proof.
  revert acc v. induction s as [|c s IH]; intros acc v; simpl int_of_digits.
  - intros [= <-]. simpl. split; [f_equal; lia|lia].
  - destruct (digit_of_ascii c) as [d|] eqn:Hd; [|done]. intros Hv.
    apply digit_of_ascii_range in Hd.
    destruct (int_of_digits 0 s) as [v'|] eqn:Hv'.
    + destruct (IH (10 * 0 + d)%Z v' eq_refl) as [Hacc Hrange].
      rewrite Hacc in Hv. injection Hv as <-.
      destruct (IH (10 * acc + d)%Z v' eq_refl) as [-> _].
      cbn [String.length]. rewrite Nat2Z.inj_succ, Z.pow_succ_r by lia.
      split; [f_equal; lia|nia].
    + by rewrite (int_of_digits_None s 0 (10 * 0 + d)) in Hv.
Qed.

Lemma int_of_digits_app (s t : string) (acc : Z) :
  int_of_digits acc (s +:+ t)
  = match int_of_digits acc s with
    | Some a => int_of_digits a t
    | None => None
    end.
Proof.
  revert acc. induction s as [|c s IH]; intros acc.
  - by rewrite append_nil.
  - rewrite append_cons. simpl. destruct (digit_of_ascii c); [apply IH|done].
Qed.

(** Digit strings of one length with one value are one string. *)
Lemma int_of_digits_inj (s t : string) (v : Z) :
  String.length s = String.length t →
  int_of_digits 0 s = Some v → int_of_digits 0 t = Some v → s = t.
Proof.
  revert t v. induction s as [|c s IH]; intros [|c' t] v Hlen; try done.
  simpl int_of_digits. injection Hlen as Hlen.
  destruct (digit_of_ascii c) as [d|] eqn:Hd; [|done].
  destruct (digit_of_ascii c') as [d'|] eqn:Hd'; [|done].
  intros Hs Ht.
  destruct (int_of_digits 0 s) as [vs|] eqn:Hvs.
  2:{ by rewrite (int_of_digits_None s 0 (10 * 0 + d)) in Hs. }
  destruct (int_of_digits 0 t) as [vt|] eqn:Hvt.
  2:{ by rewrite (int_of_digits_None t 0 (10 * 0 + d')) in Ht. }
  destruct (int_of_digits_acc s (10 * 0 + d) vs Hvs) as [Hs' Hrs].
  destruct (int_of_digits_acc t (10 * 0 + d') vt Hvt) as [Ht' Hrt].
  rewrite Hs' in Hs. rewrite Ht' in Ht. injection Hs as Hs. injection Ht as Ht.
  rewrite <-Hlen in *.
  apply digit_of_ascii_range in Hd as Hdr. apply digit_of_ascii_range in Hd' as Hdr'.
  assert (d = d' ∧ vs = vt) as [<- <-].
  { revert Hs Ht Hrs Hrt. generalize (10 ^ Z.of_nat (String.length s))%Z.
    intros P Hs Ht Hrs Hrt. assert (d = d') as <- by nia. split; [done|lia]. }
  f_equal; [by eapply digit_of_ascii_inj|by eapply IH].
Qed.

(** The digits [pretty_N_go] puts in front of [s] read as [x]. *)
Lemma int_of_digits_pretty_N_go (x : N) (s : string) :
  ∃ d : nat,
    String.length (pretty_N_go x s) = d + String.length s ∧
    (Z.of_N x < 10 ^ Z.of_nat d)%Z ∧
    ∀ acc, int_of_digits acc (pretty_N_go x s)
           = int_of_digits (acc * 10 ^ Z.of_nat d + Z.of_N x)%Z s.
Proof.
  revert s. induction (N.lt_wf_0 x) as [x _ IH]; intros s.
  destruct (decide (x = 0)%N) as [->|Hx].
  - exists 0. rewrite pretty_N_go_0. split; [done|]. split; [simpl; lia|].
    intros acc. f_equal. simpl. lia.
  - rewrite pretty_N_go_step by lia.
    destruct (IH (x `div` 10)%N ltac:(apply N.div_lt; lia)
                 (String (pretty_N_char (x `mod` 10)) s)) as (d & Hlen & Hlt & Hval).
    exists (S d). split; [rewrite Hlen; simpl; lia|].
    pose proof (N.div_mod x 10 ltac:(lia)) as Hdm.
    pose proof (N.mod_lt x 10 ltac:(lia)) as Hmod.
    rewrite Nat2Z.inj_succ, Z.pow_succ_r by lia. split; [lia|].
    intros acc. rewrite Hval. simpl int_of_digits.
    rewrite digit_of_pretty_N_char by done. f_equal. lia.
Qed.

(** [str(n)] read back, onto an accumulator. *)
Lemma int_of_digits_str_nat (n : nat) :
  int_of_digits 0 (str_nat n) = Some (Z.of_nat n).
Proof.
  unfold str_nat, pretty, pretty_nat, pretty, pretty_N. case_decide as Hn.
  - replace n with 0 by lia. reflexivity.
  - destruct (int_of_digits_pretty_N_go (N.of_nat n) "") as (d & _ & _ & ->).
    simpl. f_equal. lia.
Qed.

(** [int(str(z) + digits)] for a non-zero [z]: the digits of [z] followed
    by [digits]. *)
Lemma int_of_str_numeral_value (z : Z) (rest : string) (v : Z) :
  z ≠ 0%Z → int_of_digits 0 rest = Some v →
  int_of_str (str_int z +:+ rest)
  = Ok (Z.sgn z * (Z.abs z * 10 ^ Z.of_nat (String.length rest) + v))%Z.
Proof.
  intros Hz Hrest. unfold str_int, pretty, pretty_Z.
  destruct (int_of_digits_acc rest 0 v Hrest) as [_ Hrange].
  destruct z as [|p|p]; [done| |].
  - destruct (pretty_positive_digits p) as [Hdig Hne].
    change (pretty p) with (pretty (Npos p)).
    assert (int_of_digits 0 (pretty (N.pos p) +:+ rest)
            = Some (Z.pos p * 10 ^ Z.of_nat (String.length rest) + v)%Z) as Hval.
    { rewrite int_of_digits_app. unfold pretty, pretty_N.
      rewrite decide_False by done.
      destruct (int_of_digits_pretty_N_go (N.pos p) "") as (d & _ & _ & ->).
      cbn [int_of_digits]. cbv beta iota.
      rewrite (proj1 (int_of_digits_acc rest _ v Hrest)). f_equal; lia. }
    destruct (pretty (N.pos p)) as [|c s] eqn:Hp; [done|].
    rewrite append_cons in *. unfold int_of_str.
    rewrite decide_False.
    + rewrite Hval. change (Z.sgn (Z.pos p)) with 1%Z.
      change (Z.abs (Z.pos p)) with (Z.pos p). f_equal; lia.
    + intros ->. by apply dash_not_digit, Hdig.
  - destruct (pretty_positive_digits p) as [Hdig Hne].
    change (pretty p) with (pretty (Npos p)).
    rewrite append_assoc. change ("-" +:+ ?s) with (String "-" s).
    unfold int_of_str. rewrite decide_True by done.
    assert (int_of_digits 0 (pretty (N.pos p) +:+ rest)
            = Some (Z.pos p * 10 ^ Z.of_nat (String.length rest) + v)%Z) as Hval.
    { rewrite int_of_digits_app. unfold pretty, pretty_N.
      rewrite decide_False by done.
      destruct (int_of_digits_pretty_N_go (N.pos p) "") as (d & _ & _ & ->).
      cbn [int_of_digits]. cbv beta iota.
      rewrite (proj1 (int_of_digits_acc rest _ v Hrest)). f_equal; lia. }
    destruct (pretty (N.pos p)) as [|c s] eqn:Hp; [done|].
    rewrite append_cons in *. rewrite Hval.
    change (Z.sgn (Z.neg p)) with (-1)%Z.
    change (Z.abs (Z.neg p)) with (Z.pos p). f_equal; lia.
Qed.

(** Distinct digit strings after one non-zero numeral read as distinct
    numbers. *)
Lemma int_of_str_numeral_inj (z : Z) (r1 r2 : string) :
  z ≠ 0%Z → all_digits r1 → all_digits r2 →
  int_of_str (str_int z +:+ r1) = int_of_str (str_int z +:+ r2) → r1 = r2.
Proof.
  intros Hz H1 H2.
  destruct (int_of_digits_total r1 0 H1) as [v1 Hv1].
  destruct (int_of_digits_total r2 0 H2) as [v2 Hv2].
  rewrite (int_of_str_numeral_value z r1 v1), (int_of_str_numeral_value z r2 v2)
    by done.
  destruct (int_of_digits_acc r1 0 v1 Hv1) as [_ Hr1].
  destruct (int_of_digits_acc r2 0 v2 Hv2) as [_ Hr2].
  intros [= Heq].
  assert (Z.abs z * 10 ^ Z.of_nat (String.length r1) + v1
          = Z.abs z * 10 ^ Z.of_nat (String.length r2) + v2)%Z as Heq' by nia.
  clear Heq.
  assert (∀ a b : nat, a < b → ∀ va vb,
            (0 ≤ va < 10 ^ Z.of_nat a)%Z → (0 ≤ vb)%Z →
            (Z.abs z * 10 ^ Z.of_nat a + va ≠ Z.abs z * 10 ^ Z.of_nat b + vb)%Z)
    as Hlt.
  { intros a b Hab va vb Hva Hvb.
    replace (Z.of_nat b) with (Z.of_nat a + Z.of_nat (b - a))%Z by lia.
    rewrite Z.pow_add_r by lia.
    assert (10 ≤ 10 ^ Z.of_nat (b - a))%Z as Hpow.
    { replace (Z.of_nat (b - a)) with (Z.succ (Z.of_nat (b - a - 1))) by lia.
      rewrite Z.pow_succ_r by lia.
      pose proof (Z.pow_pos_nonneg 10 (Z.of_nat (b - a - 1)) ltac:(lia) ltac:(lia)).
      lia. }
    nia. }
  assert (String.length r1 = String.length r2) as Hlen.
  { destruct (Nat.lt_total (String.length r1) (String.length r2)) as [Hl|[Hl|Hl]];
      [|done|].
    - exfalso. eapply (Hlt _ _ Hl v1 v2); [lia..|done].
    - exfalso. eapply (Hlt _ _ Hl v2 v1); [lia..|done]. }
  rewrite Hlen in Heq'. apply (int_of_digits_inj r1 r2 v1); [done..|].
  rewrite Hv2. f_equal. lia.
Qed.

End numeral_values.

Section seeds.

Lemma str_nat_nonempty (n : nat) : 1 ≤ String.length (str_nat n).
Proof.
  unfold str_nat, pretty, pretty_nat. destruct (N.of_nat n) as [|p] eqn:Hn.
  - simpl. lia.
  - destruct (pretty_positive_digits p) as [_ Hne].
    destruct (pretty (N.pos p)); [done|simpl; lia].
Qed.

Lemma str_nat_below_ten (n : nat) : n < 10 → String.length (str_nat n) = 1.
Proof.
  intros Hn.
  assert (n ∈ [0; 1; 2; 3; 4; 5; 6; 7; 8; 9]) as Hin.
  { rewrite !elem_of_cons. lia. }
  rewrite !elem_of_cons, elem_of_nil in Hin.
  destruct Hin as [->|[->|[->|[->|[->|[->|[->|[->|[->|[->|[]]]]]]]]]]]; reflexivity.
Qed.

Lemma append_inj_length (s1 s2 t1 t2 : string) :
  String.length s1 = String.length s2 →
  s1 +:+ t1 = s2 +:+ t2 → s1 = s2 ∧ t1 = t2.
Proof.
  revert s2. induction s1 as [|a s1 IH]; intros [|b s2] Hlen; try done.
  rewrite !append_cons. injection Hlen as Hlen. intros [= -> Heq].
  by destruct (IH s2 Hlen Heq) as [-> ->].
Qed.

(** Reseeding replaces the seed the job holds by that seed followed by
    the digits of the repeat index; it never raises. *)
Lemma reseed_value {World} (st : State World) (i : nat) :
  FullOptimizationJob.reseed i st
  = (assign_seed (seed_followed_by (seed (self st)) i) st, Ok tt).
Proof.
  unfold FullOptimizationJob.reseed. unfold bind at 1. unfold get.
  destruct (seed (self st)) as [z|] eqn:Hseed; [|reflexivity].
  unfold seed_followed_by, truthy_int.
  destruct (Z.eqb_spec z 0) as [->|Hz]; [reflexivity|]. simpl negb. cbv iota.
  unfold bind, lift, ret, modify.
  by rewrite (int_of_str_numeral_value z (str_nat i) (Z.of_nat i) Hz
                (int_of_digits_str_nat i)).
Qed.

(** X1: reseeding never raises; it replaces the seed the job holds by that
    seed followed by the decimal digits of the repeat index [i] (a
    non-zero seed [z] becomes [z * 10^d + i], with the sign of [z], for the
    [d >= 1] digits of [i]), and turns the seed 0 into no seed. *)
Theorem reseed_appends_digits {World} (st : State World) (i : nat) :
  FullOptimizationJob.reseed i st
  = (assign_seed (seed_followed_by (seed (self st)) i) st, Ok tt) ∧
  (Z.of_nat i < 10 ^ Z.of_nat (String.length (str_nat i)))%Z ∧
  1 ≤ String.length (str_nat i).
Proof.
  split; [apply reseed_value|]. split; [|apply str_nat_nonempty].
  by destruct (int_of_digits_acc (str_nat i) 0 (Z.of_nat i)
                 (int_of_digits_str_nat i)) as [_ [_ ?]].
Qed.

End seeds.

Section optimizer_seeds.
Import VADERBayesianOptimizer.

(** X2: with a seed set, two jobs of the optimizer get the same derived
    seed only if they are the same job, within one trial, and across
    trials and candidate K when K and the repeat index are single digits
    (K is one of 2..6, and the repeat index is below 10 for up to ten
    repeats). *)
Theorem repeat_seed_injective (self : Optimizer) (k1 n1 i1 k2 n2 i2 : nat) :
  truthy_int (seed self) = true →
  (k1 = k2 ∧ n1 = n2) ∨ (k1 < 10 ∧ k2 < 10 ∧ i1 < 10 ∧ i2 < 10) →
  repeat_seed self k1 n1 i1 = repeat_seed self k2 n2 i2 →
  (k1, n1, i1) = (k2, n2, i2).
Proof.
  intros Htruthy Hcase. unfold repeat_seed. rewrite Htruthy.
  destruct (seed self) as [z|]; [|done]. simpl in Htruthy.
  assert (z ≠ 0%Z) as Hz by (intros ->; done). simpl str_optional_int.
  assert (∀ k n i, all_digits (str_nat k +:+ str_nat n +:+ str_nat i)) as Hdig.
  { intros. repeat apply all_digits_app; apply all_digits_str_nat. }
  destruct (int_of_str_numeral z _ Hz (Hdig k1 n1 i1)) as [z1 Hz1].
  destruct (int_of_str_numeral z _ Hz (Hdig k2 n2 i2)) as [z2 Hz2].
  rewrite Hz1, Hz2. intros [= <-]. rewrite <-Hz2 in Hz1.
  apply int_of_str_numeral_inj in Hz1; [|done..].
  destruct Hcase as [[<- <-]|(Hk1 & Hk2 & Hi1 & Hi2)].
  - do 2 apply (inj (String.append _)) in Hz1. by apply str_nat_inj in Hz1 as <-.
  - apply append_inj_length in Hz1 as [Hk Hrest];
      [|by rewrite !str_nat_below_ten].
    apply str_nat_inj in Hk as <-.
    pose proof (f_equal String.length Hrest) as Hlen.
    rewrite !append_length, !(str_nat_below_ten i1), !(str_nat_below_ten i2)
      in Hlen by done.
    apply append_inj_length in Hrest as [Hn Hi]; [|lia].
    by apply str_nat_inj in Hn as <-; apply str_nat_inj in Hi as <-.
Qed.

(** X3: beyond ten repeats the derived seeds can coincide across trials:
    repeat 10 of trial 1 and repeat 0 of trial 11 get one seed, whatever
    the base seed and the candidate K (a number, when a seed is set). *)
Theorem repeat_seed_collision (self : Optimizer) (k : nat) :
  repeat_seed self k 1 10 = repeat_seed self k 11 0 ∧
  (truthy_int (seed self) = true →
   ∃ z, repeat_seed self k 1 10 = Ok (Some z)).
Proof.
  split.
  - unfold repeat_seed.
    assert (str_nat 1 +:+ str_nat 10 = str_nat 11 +:+ str_nat 0) as ->
      by (vm_compute; reflexivity).
    reflexivity.
  - intros Htruthy. unfold repeat_seed. rewrite Htruthy.
    destruct (seed self) as [z|]; [|done]. simpl in Htruthy.
    assert (z ≠ 0%Z) as Hz by (intros ->; done). simpl str_optional_int.
    destruct (int_of_str_numeral z (str_nat k +:+ str_nat 1 +:+ str_nat 10) Hz)
      as [z' ->]; [|by eexists].
    repeat apply all_digits_app; apply all_digits_str_nat.
Qed.

End optimizer_seeds.

(** ** The model fits of a fold step *)

Section full_job_traces.
Context {World : Type} `{!Backend World, !ClusteringUtils World}.
Implicit Types (st : State World).

Import FullOptimizationJob.

Lemma set_seed_seed (j : Job) : set_seed (seed j) j = j.
Proof. by destruct j. Qed.

Lemma job_eq (j j' : Job) :
  set_seed None j = set_seed None j' → seed j = seed j' → j = j'.
Proof. destruct j, j'. simpl. intros [= -> -> -> -> -> -> -> -> ->] ->. done. Qed.

(** A repeat that returned: the job was reseeded, one model was fitted
    with the new seed. *)
Lemma one_repeat_inv st st' (X_train X_val : ndarray) (W_train : weights_arg)
    (i : nat) (out : clustering_tuple) :
  one_repeat X_train X_val W_train i st = (st', Ok out) →
  self st' = set_seed (seed_followed_by (seed (self st)) i) (self st) ∧
  trace st' = trace st ++ [Fit X_train W_train (seed_followed_by (seed (self st)) i)].
Proof.
  unfold one_repeat. intros Hrun.
  apply bind_inv_Ok in Hrun as (st1 & [] & Hreseed & Hsingle).
  rewrite reseed_value in Hreseed. injection Hreseed as <-.
  apply single_clustering_inv in Hsingle as (vader & Hfit & _).
  apply fit_vader_inv in Hfit as (_ & _ & _ & _ & _ & _ & _ & -> & ->). done.
Qed.

Lemma repeats_inv st st' (X_train X_val : ndarray) (W_train : weights_arg)
    (repeats : list nat) (outs : list clustering_tuple) :
  for_each repeats (one_repeat X_train X_val W_train) st = (st', Ok outs) →
  self st' = set_seed (foldl seed_followed_by (seed (self st)) repeats) (self st) ∧
  trace st'
  = trace st ++ (Fit X_train W_train <$> seeds_after (seed (self st)) repeats).
Proof.
  revert st outs. induction repeats as [|i repeats IH]; intros st outs Hrun.
  - injection Hrun as <- _. simpl. by rewrite set_seed_seed, app_nil_r.
  - cbn [for_each] in Hrun.
    apply bind_inv_Ok in Hrun as (st1 & out & Hone & Hrun).
    apply bind_inv_Ok in Hrun as (st2 & outs' & Hrest & [= -> _]).
    apply one_repeat_inv in Hone as [Hself Htrace].
    apply IH in Hrest as [-> ->]. rewrite Hself, Htrace. simpl.
    by rewrite <-app_assoc.
Qed.

Lemma consensus_clustering_inv st st' (X_train X_val : ndarray)
    (W_train : weights_arg) (out : clustering_tuple) :
  _consensus_clustering X_train X_val W_train st = (st', Ok out) →
  self st'
  = set_seed (foldl seed_followed_by (seed (self st)) (seq 0 (n_consensus (self st))))
             (self st) ∧
  trace st'
  = trace st ++ (Fit X_train W_train
                   <$> seeds_after (seed (self st)) (seq 0 (n_consensus (self st)))).
Proof.
  intros Hrun. unfold _consensus_clustering in Hrun.
  apply bind_inv_Ok in Hrun as (? & st0 & [= -> ->] & Hrun).
  apply bind_inv_Ok in Hrun as (st1 & acc & Hloop & Hrun).
  rewrite consensus_loop_collects in Hloop.
  apply bind_inv_Ok in Hloop as (st2 & per_repeat & Heach & [= -> <-]).
  simpl in Hrun.
  apply bind_inv_Ok in Hrun as (? & y_pred & [-> Hcons]%lift_Ok & [= -> <-]).
  by apply repeats_inv in Heach.
Qed.

Lemma seed_followed_by_grows (z : Z) (i : nat) :
  (0 < z)%Z → ∃ z', seed_followed_by (Some z) i = Some z' ∧ (10 * z ≤ z')%Z.
Proof.
  intros Hz. unfold seed_followed_by. rewrite (proj2 (Z.eqb_neq z 0)) by lia.
  eexists. split; [done|].
  pose proof (str_nat_nonempty i) as Hlen.
  replace (Z.of_nat (String.length (str_nat i)))
    with (Z.succ (Z.of_nat (String.length (str_nat i) - 1))) by lia.
  rewrite Z.pow_succ_r by lia.
  pose proof (Z.pow_pos_nonneg 10 (Z.of_nat (String.length (str_nat i) - 1))
                ltac:(lia) ltac:(lia)).
  rewrite Z.sgn_pos, Z.abs_eq by lia. nia.
Qed.

Lemma foldl_seed_followed_by_grows (z : Z) (repeats : list nat) :
  (0 < z)%Z →
  ∃ z', foldl seed_followed_by (Some z) repeats = Some z' ∧
        (z * 10 ^ Z.of_nat (length repeats) ≤ z')%Z.
Proof.
  revert z. induction repeats as [|i repeats IH]; intros z Hz.
  - exists z. simpl. split; [done|lia].
  - destruct (seed_followed_by_grows z i Hz) as (z1 & Hz1 & Hle).
    destruct (IH z1 ltac:(lia)) as (z' & Hz' & Hle').
    exists z'. cbn [foldl]. rewrite Hz1. split; [done|].
    cbn [length]. rewrite Nat2Z.inj_succ, Z.pow_succ_r by lia.
    pose proof (Z.pow_pos_nonneg 10 (Z.of_nat (length repeats))
                  ltac:(lia) ltac:(lia)).
    nia.
Qed.

(** X4: a consensus run that returns has fitted one model per repeat, all
    on the training data, repeat [i] with the seed of the repeat before it
    (the job's seed, for the first) followed by the digits of [i]; the job
    is left holding the seed of the last repeat, not the one it was
    constructed with: a positive seed [z] has grown to [z * 10^n_consensus]
    at least. *)
Theorem consensus_seeds_chain st st' (X_train X_val : ndarray)
    (W_train : weights_arg) (out : clustering_tuple) :
  _consensus_clustering X_train X_val W_train st = (st', Ok out) →
  trace st'
  = trace st ++ (Fit X_train W_train
                   <$> seeds_after (seed (self st)) (seq 0 (n_consensus (self st)))) ∧
  seed (self st')
  = foldl seed_followed_by (seed (self st)) (seq 0 (n_consensus (self st))) ∧
  set_seed None (self st') = set_seed None (self st) ∧
  ∀ z, seed (self st) = Some z → (0 < z)%Z →
       ∃ z', seed (self st') = Some z' ∧
             (z * 10 ^ Z.of_nat (n_consensus (self st)) ≤ z')%Z.
Proof.
  intros [Hself Htrace]%consensus_clustering_inv.
  split; [done|]. rewrite Hself. split; [done|]. split; [done|].
  intros z Hz Hpos. simpl. rewrite Hz.
  destruct (foldl_seed_followed_by_grows z (seq 0 (n_consensus (self st))) Hpos)
    as (z' & Hz' & Hle).
  exists z'. split; [done|]. by rewrite length_seq in Hle.
Qed.

Lemma call_inv {A} (f : World → World * result A) st st' (r : result A) :
  call f st = (st', r) → self st' = self st ∧ trace st' = trace st.
Proof. unfold call. destruct (f (world st)). by intros [= <- _]. Qed.

(** The fits of a fold step that returned. *)
Lemma cv_fold_step_inv st st' (X_train X_val : ndarray) (W_train W_val : weights_arg)
    (fold_result : Series Q) :
  _cv_fold_step X_train X_val W_train W_val st = (st', Ok fold_result) →
  let repeats :=
    if decide (1 < n_consensus (self st))
    then seeds_after (seed (self st)) (seq 0 (n_consensus (self st)))
    else [seed (self st)] in
  trace st'
  = trace st ++ (Fit X_train W_train <$> repeats) ++ [Fit X_val W_val (seed (self st'))] ∧
  seed (self st') = default (seed (self st)) (last repeats) ∧
  set_seed None (self st') = set_seed None (self st) ∧
  length repeats = n_consensus (self st) `max` 1.
Proof.
  intros Hstep. unfold _cv_fold_step in Hstep.
  apply bind_inv_Ok in Hstep as (? & st0 & [= -> ->] & Hstep).
  apply bind_inv_Ok in Hstep as (st1 & out & Hcluster & Hstep).
  destruct out as [[[[[y_pred effective_k] trl] tll] tel] tell].
  apply bind_inv_Ok in Hstep as (? & ? & [= <- <-] & Hstep).
  apply bind_inv_Ok in Hstep as (? & alpha_v & [-> _]%lift_Ok & Hstep).
  apply bind_inv_Ok in Hstep as (? & alpha & [-> _]%lift_Ok & Hstep).
  apply bind_inv_Ok in Hstep as (st2 & vader & Hfit & Hstep).
  apply fit_vader_inv in Hfit as (_ & _ & _ & _ & _ & _ & _ & Hself2 & Htrace2).
  do 3 (apply bind_inv_Ok in Hstep as (? & ? & [-> _]%lift_Ok & Hstep)).
  apply bind_inv_Ok in Hstep as (? & ? & [= <- <-] & Hstep).
  apply bind_inv_Ok in Hstep as (st3 & metrics & [Hself3 Htrace3]%call_inv & Hstep).
  do 3 (apply bind_inv_Ok in Hstep as (? & ? & [-> _]%lift_Ok & Hstep)).
  injection Hstep as <- _. rewrite Hself3, Htrace3, Hself2, Htrace2.
  assert (self st1 = set_seed (default (seed (self st0)) (last
            (if decide (1 < n_consensus (self st0))
             then seeds_after (seed (self st0)) (seq 0 (n_consensus (self st0)))
             else [seed (self st0)]))) (self st0) ∧
          trace st1 = trace st0 ++ (Fit X_train W_train <$>
            (if decide (1 < n_consensus (self st0))
             then seeds_after (seed (self st0)) (seq 0 (n_consensus (self st0)))
             else [seed (self st0)]))) as [Hself1 Htrace1].
  { case_decide as Hn.
    - apply consensus_clustering_inv in Hcluster as [-> ->]. split; [|done].
      f_equal. generalize (seed (self st0)).
      induction (seq 0 (n_consensus (self st0))) as [|i l IH] using rev_ind;
        intros s; [done|].
      rewrite foldl_app. simpl.
      assert (∀ s l i, seeds_after s (l ++ [i])
                       = seeds_after s l ++ [seed_followed_by (foldl seed_followed_by s l) i])
        as Happ.
      { clear. intros s l i. revert s. induction l as [|j l IH]; intros s; [done|].
        simpl. by rewrite IH. }
      by rewrite Happ, last_snoc.
    - apply single_clustering_inv in Hcluster as (v & Hfit & _).
      apply fit_vader_inv in Hfit as (_ & _ & _ & _ & _ & _ & _ & -> & ->).
      simpl. by rewrite set_seed_seed. }
  rewrite Hself1, Htrace1. cbn zeta. split_and!.
  - by rewrite <-app_assoc.
  - done.
  - done.
  - case_decide; [|simpl; lia].
    assert (∀ s l, length (seeds_after s l) = length l) as Hlen.
    { clear. intros s l. revert s. induction l as [|j l IH]; intros s; [done|].
      simpl. by rewrite IH. }
    rewrite Hlen, length_seq. lia.
Qed.

(** X5: a fold step that returns fits [max(n_consensus, 1)] models on the
    training data with the training weights it was handed, and then one
    reference model on the validation data with the validation weights
    and the seed the job is left with. *)
Theorem cv_fold_step_fits st st' (X_train X_val : ndarray) (W_train W_val : weights_arg)
    (fold_result : Series Q) :
  _cv_fold_step X_train X_val W_train W_val st = (st', Ok fold_result) →
  ∃ seeds,
    trace st'
    = trace st ++ (Fit X_train W_train <$> seeds) ++ [Fit X_val W_val (seed (self st'))] ∧
    length seeds = n_consensus (self st) `max` 1 ∧
    seed (self st') = default (seed (self st)) (last seeds) ∧
    (1 < n_consensus (self st) →
     seeds = seeds_after (seed (self st)) (seq 0 (n_consensus (self st)))) ∧
    (n_consensus (self st) ≤ 1 → seeds = [seed (self st)] ∧ self st' = self st).
Proof.
  intros Hstep. apply cv_fold_step_inv in Hstep as (Htrace & Hseed & Hself & Hlen).
  eexists. split; [exact Htrace|]. split; [exact Hlen|]. split; [exact Hseed|].
  split.
  - intros Hn. by rewrite decide_True by lia.
  - intros Hn. rewrite decide_False in Hseed |- * by lia. split; [done|].
    by apply job_eq.
Qed.

End full_job_traces.

(** ** The Fold Result, and a job without its hyperparameters *)

Section fold_results.
Context {World : Type} `{!Backend World, !ClusteringUtils World}.
Implicit Types (st : State World).

Import FullOptimizationJob.

Lemma cv_fold_step_keys st st' (X_train X_val : ndarray) (W_train W_val : weights_arg)
    (fold_result : Series Q) :
  _cv_fold_step X_train X_val W_train W_val st = (st', Ok fold_result) →
  keys fold_result = fold_result_keys.
Proof.
  intros Hstep. unfold _cv_fold_step in Hstep.
  apply bind_inv_Ok in Hstep as (? & st0 & [= -> ->] & Hstep).
  apply bind_inv_Ok in Hstep as (st1 & out & Hcluster & Hstep).
  destruct out as [[[[[y_pred effective_k] trl] tll] tel] tell].
  repeat (apply bind_inv_Ok in Hstep as (? & ? & _ & Hstep)).
  by injection Hstep as _ <-.
Qed.

(** X6: the Fold Result has the thirteen keys of the dict literal, in its
    order (the scoring column of the optimizer is not among them), and its
    total losses are the reconstruction loss plus [alpha] times the latent
    loss, for the [alpha] of the job's [params_dict]. *)
Theorem fold_result_shape st st' (X_train X_val : ndarray) (W_train W_val : weights_arg)
    (fold_result : Series Q) :
  _cv_fold_step X_train X_val W_train W_val st = (st', Ok fold_result) →
  keys fold_result = fold_result_keys ∧
  ¬ (VADERBayesianOptimizer.score_column ∈ keys fold_result) ∧
  ∃ alpha train_rec train_lat test_rec test_lat : Q,
    getitem (params_dict (self st)) "alpha" = Ok (Num alpha) ∧
    getitem_opt fold_result "train_reconstruction_loss" = Some train_rec ∧
    getitem_opt fold_result "train_latent_loss" = Some train_lat ∧
    getitem_opt fold_result "train_total_loss" = Some (train_rec + alpha * train_lat)%Q ∧
    getitem_opt fold_result "test_reconstruction_loss" = Some test_rec ∧
    getitem_opt fold_result "test_latent_loss" = Some test_lat ∧
    getitem_opt fold_result "test_total_loss" = Some (test_rec + alpha * test_lat)%Q.
Proof.
  intros Hstep. unfold _cv_fold_step in Hstep.
  apply bind_inv_Ok in Hstep as (? & st0 & [= -> ->] & Hstep).
  apply bind_inv_Ok in Hstep as (st1 & out & Hcluster & Hstep).
  assert (params_dict (self st1) = params_dict (self st0)) as Hparams.
  { apply (steps_params_dict is_fit).
    case_decide.
    - pose proof (keeps_consensus_clustering X_train X_val W_train st0) as Hk.
      by rewrite Hcluster in Hk.
    - pose proof (keeps_single_clustering X_train X_val W_train st0) as Hk.
      by rewrite Hcluster in Hk. }
  destruct out as [[[[[y_pred effective_k] trl] tll] tel] tell].
  apply bind_inv_Ok in Hstep as (? & ? & [= <- <-] & Hstep).
  apply bind_inv_Ok in Hstep as (? & alpha_v & [-> Halpha]%lift_Ok & Hstep).
  apply bind_inv_Ok in Hstep as (? & alpha & [-> Hnum]%lift_Ok & Hstep).
  destruct alpha_v as [q|]; [|done]. injection Hnum as ->.
  repeat (apply bind_inv_Ok in Hstep as (? & ? & _ & Hstep)).
  injection Hstep as _ <-. split; [reflexivity|]. split.
  - unfold VADERBayesianOptimizer.score_column. simpl.
    rewrite !elem_of_cons, elem_of_nil. intros Hin.
    repeat (destruct Hin as [Hin|Hin]; [discriminate Hin|]). done.
  - exists alpha, trl, tll, tel, tell. rewrite <-Hparams. by split_and!.
Qed.

(** Without one of its hyperparameters [_fit_vader] raises before a model
    is constructed. *)
Lemma fit_vader_missing st (X_train : ndarray) (W_train : weights_arg) (key : string) :
  key ∈ hyperparameter_keys → getitem_opt (params_dict (self st)) key = None →
  ∃ key', key' ∈ hyperparameter_keys ∧
          getitem_opt (params_dict (self st)) key' = None ∧
          _fit_vader X_train W_train st = (st, Raise (KeyError key')).
Proof.
  intros Hkey Hmissing. unfold _fit_vader, hyperparameter_keys in *.
  unfold bind at 1. unfold get.
  destruct (getitem_opt (params_dict (self st)) "k") eqn:H1.
  2:{ exists "k"%string. split; [rewrite !elem_of_cons; tauto|]. split; [done|].
      unfold bind, lift, getitem. by rewrite H1. }
  destruct (getitem_opt (params_dict (self st)) "n_hidden") eqn:H2.
  2:{ exists "n_hidden"%string. split; [rewrite !elem_of_cons; tauto|]. split; [done|].
      unfold bind, lift, getitem. by rewrite H1, H2. }
  destruct (getitem_opt (params_dict (self st)) "learning_rate") eqn:H3.
  2:{ exists "learning_rate"%string. split; [rewrite !elem_of_cons; tauto|]. split; [done|].
      unfold bind, lift, getitem. by rewrite H1, H2, H3. }
  destruct (getitem_opt (params_dict (self st)) "batch_size") eqn:H4.
  2:{ exists "batch_size"%string. split; [rewrite !elem_of_cons; tauto|]. split; [done|].
      unfold bind, lift, getitem. by rewrite H1, H2, H3, H4. }
  destruct (getitem_opt (params_dict (self st)) "alpha") eqn:H5.
  2:{ exists "alpha"%string. split; [rewrite !elem_of_cons; tauto|]. split; [done|].
      unfold bind, lift, getitem. by rewrite H1, H2, H3, H4, H5. }
  exfalso. rewrite !elem_of_cons, elem_of_nil in Hkey.
  destruct Hkey as [->|[->|[->|[->|[->|[]]]]]]; congruence.
Qed.

(** X7: a job whose [params_dict] lacks one of the five hyperparameters
    fails in its fold step with a [KeyError] naming one that is missing,
    before any model is constructed: nothing was fitted and the
    collaborators were not called. *)
Theorem cv_fold_step_missing_hyperparameter st (X_train X_val : ndarray)
    (W_train W_val : weights_arg) (key : string) :
  key ∈ hyperparameter_keys → getitem_opt (params_dict (self st)) key = None →
  ∃ st' key',
    _cv_fold_step X_train X_val W_train W_val st = (st', Raise (KeyError key')) ∧
    key' ∈ hyperparameter_keys ∧
    getitem_opt (params_dict (self st)) key' = None ∧
    trace st' = trace st ∧ world st' = world st.
Proof.
  intros Hkey Hmissing. unfold _cv_fold_step. unfold bind at 1. unfold get.
  case_decide as Hn.
  - destruct (fit_vader_missing
                (assign_seed (seed_followed_by (seed (self st)) 0) st)
                X_train W_train key Hkey Hmissing) as (key' & Hkey' & Hnone & Hfit).
    exists (assign_seed (seed_followed_by (seed (self st)) 0) st), key'.
    split; [|done]. apply bind_Raise. unfold _consensus_clustering.
    unfold bind at 1. unfold get. apply bind_Raise.
    destruct (n_consensus (self st)) as [|n]; [lia|]. cbn [seq for_loop].
    apply bind_Raise. unfold consensus_repeat.
    erewrite bind_Ok by apply reseed_value. apply bind_Raise.
    unfold _single_clustering. by apply bind_Raise.
  - destruct (fit_vader_missing st X_train W_train key Hkey Hmissing)
      as (key' & Hkey' & Hnone & Hfit).
    exists st, key'. split; [|done]. apply bind_Raise.
    unfold _single_clustering. by apply bind_Raise.
Qed.

End fold_results.

(** ** What a run is observed to do *)

Section run_events.
Context {World : Type} `{!Shuffle} {job_methods : Methods World}.
Implicit Types (st : State World).

Lemma size_rectangular (a : ndarray) (L : nat) :
  Forall (λ r, length r = L) a → size a = length a * L.
Proof.
  unfold size. induction 1 as [|r a Hr _ IH]; [done|].
  simpl. rewrite length_app, IH, Hr. lia.
Qed.

(** A truthy array has one element, so one row. *)
Lemma truthy_array_one_row (w : ndarray) :
  rectangular w → truthy_array (Some w) = Ok true → length w = 1.
Proof.
  intros Hrect Htruthy. apply size_rectangular in Hrect.
  unfold size in Hrect. simpl in Htruthy. unfold ndarray_bool in Htruthy.
  destruct (concat w) as [|x [|y l]]; [done| |done]. simpl in Hrect.
  symmetry in Hrect. by apply Nat.eq_mul_1 in Hrect as [? _].
Qed.

Lemma take_rows_inv (a : ndarray) (idx : list nat) (rs : ndarray) :
  take_rows a idx = Ok rs → Forall (λ i, i < length a) idx.
Proof.
  revert rs. induction idx as [|i idx IH]; intros rs; [by constructor|].
  cbn [take_rows]. destruct (a !! i) as [r|] eqn:Hi; [|done].
  destruct (take_rows a idx) as [rs'|]; [|done]. intros _.
  constructor; [by eapply lookup_lt_Some|by eapply IH].
Qed.

Lemma weights_conditional_inv (w : option ndarray) (train_index val_index : list nat)
    st st' (W : weights_arg) :
  weights_conditional w train_index val_index st = (st', Ok W) →
  st' = st ∧
  ((truthy_array w = Ok false ∧ W = W_None) ∨
   (truthy_array w = Ok true ∧
    ∃ a b, subscript w train_index = Ok a ∧ subscript w val_index = Ok b)).
Proof.
  unfold weights_conditional. intros Hw.
  apply bind_inv_Ok in Hw as (? & b & [-> Hb]%lift_Ok & Hw). destruct b.
  - apply bind_inv_Ok in Hw as (? & a & [-> Ha]%lift_Ok & Hw).
    apply bind_inv_Ok in Hw as (? & b & [-> Hb']%lift_Ok & Hw).
    injection Hw as <- _. split; [done|]. right. eauto.
  - injection Hw as <- <-. split; [done|]. by left.
Qed.

(** One iteration of the loop over the folds, when it returned. *)
Lemma run_fold_inv (fold : list nat * list nat) st st' (r : Series Q) :
  run_fold fold st = (st', Ok r) →
  ∃ X_train X_val W_train,
    take_rows (data (self st)) fold.1 = Ok X_train ∧
    take_rows (data (self st)) fold.2 = Ok X_val ∧
    weights_conditional (weights (self st)) fold.1 fold.2 st = (st, Ok W_train) ∧
    _cv_fold_step X_train X_val W_train W_None
      {| self := self st; world := world st;
         trace := trace st ++ [FoldStep X_train X_val W_train W_None] |}
    = (st', Ok r).
Proof.
  destruct fold as [train_index val_index]. unfold run_fold. intros Hrun.
  apply bind_inv_Ok in Hrun as (? & st0 & [= -> ->] & Hrun).
  apply bind_inv_Ok in Hrun as (? & X_train & [-> Ht]%lift_Ok & Hrun).
  apply bind_inv_Ok in Hrun as (? & X_val & [-> Hv]%lift_Ok & Hrun).
  apply bind_inv_Ok in Hrun as (st1 & W_train & Hw & Hrun).
  apply weights_conditional_inv in Hw as Hst1. destruct Hst1 as [-> _].
  apply bind_inv_Ok in Hrun as (st2 & [] & [= <-] & Hrun).
  exists X_train, X_val, W_train. by split_and!.
Qed.

(** The loop over the folds of a job that passes no weights: what was
    observed is, fold after fold, the fold step on the rows of the fold,
    then what the step itself did; [Q] is what is known of the latter. *)
Lemma run_folds_inv (Q : Job → list event → Prop) :
  (∀ X_train X_val st st' r,
     _cv_fold_step X_train X_val W_None W_None st = (st', Ok r) →
     set_seed None (self st') = set_seed None (self st) ∧
     ∃ evs, trace st' = trace st ++ evs ∧ Q (set_seed None (self st)) evs) →
  ∀ folds st st' rs,
    truthy_array (weights (self st)) = Ok false →
    for_each folds run_fold st = (st', Ok rs) →
    set_seed None (self st') = set_seed None (self st) ∧
    ∃ per_fold : list (ndarray * ndarray * list event),
      trace st'
      = trace st ++ concat ((λ p, FoldStep p.1.1 p.1.2 W_None W_None :: p.2) <$> per_fold) ∧
      Forall2 (λ fold p,
                 take_rows (data (self st)) fold.1 = Ok p.1.1 ∧
                 take_rows (data (self st)) fold.2 = Ok p.1.2 ∧
                 Q (set_seed None (self st)) p.2) folds per_fold.
Proof.
  intros Hstep. induction folds as [|fold folds IH]; intros st st' rs Hfalsy Hrun.
  - injection Hrun as <- _. split; [done|]. exists []. simpl.
    by rewrite app_nil_r.
  - cbn [for_each] in Hrun.
    apply bind_inv_Ok in Hrun as (st1 & r & Hfold & Hrun).
    apply bind_inv_Ok in Hrun as (st2 & rs' & Hrest & [= -> _]).
    apply run_fold_inv in Hfold as (X_train & X_val & W_train & Ht & Hv & Hw & Hcv).
    apply weights_conditional_inv in Hw as [_ [[_ ->]|[Htruthy _]]]; [|congruence].
    apply Hstep in Hcv as [Hself (evs & Htrace & HQ)]. simpl in Hself, Htrace, HQ.
    assert (weights (self st1) = weights (self st)) as Hweights
      by apply (f_equal weights Hself).
    assert (data (self st1) = data (self st)) as Hdata
      by apply (f_equal data Hself).
    apply IH in Hrest as [Hself' (per_fold & Htrace' & Hall)]; [|by rewrite Hweights].
    split; [by rewrite Hself'|].
    exists ((X_train, X_val, evs) :: per_fold). split.
    + rewrite Htrace', Htrace. simpl. by rewrite <-!app_assoc.
    + constructor; [done|]. by rewrite <-Hdata, <-Hself.
Qed.

(** A run that returned did not index a truthy weights array. *)
Lemma run_folds_falsy (n : nat) (chunk : list nat) (folds : list (list nat * list nat))
    st st' rs :
  2 ≤ n →
  (∀ w, weights (self st) = Some w → rectangular w) →
  for_each (fold_of_chunk n chunk :: folds) run_fold st = (st', Ok rs) →
  truthy_array (weights (self st)) = Ok false.
Proof.
  intros Hn Hrect Hrun. cbn [for_each] in Hrun.
  apply bind_inv_Ok in Hrun as (st1 & r & Hfold & _).
  apply run_fold_inv in Hfold as (_ & _ & W_train & _ & _ & Hw & _).
  apply weights_conditional_inv in Hw as [_ [[? _]|[Htruthy (a & b & Ha & Hb)]]];
    [done|exfalso].
  destruct (weights (self st)) as [w|] eqn:Hweights; [|done].
  apply truthy_array_one_row in Htruthy; [|by apply Hrect].
  simpl in Ha, Hb. apply take_rows_inv in Ha, Hb. rewrite Htruthy in Ha, Hb.
  rewrite Forall_forall in Ha, Hb.
  destruct (proj1 (fold_of_chunk_cover n chunk 1) ltac:(lia)) as [Hin|Hin];
    [apply Ha in Hin|apply Hb in Hin]; lia.
Qed.

Lemma fold_steps_app (tr1 tr2 : list event) :
  fold_steps (tr1 ++ tr2) = fold_steps tr1 ++ fold_steps tr2.
Proof. apply omap_app. Qed.

Lemma fits_app (tr1 tr2 : list event) : fits (tr1 ++ tr2) = fits tr1 ++ fits tr2.
Proof. apply omap_app. Qed.


Lemma run_inv st st' (row : Series value) :
  run st = (st', Ok row) →
  ∃ folds rs,
    KFold_split (n_splits (self st)) (seed (self st)) (length (data (self st)))
    = Ok folds ∧
    for_each folds run_fold st = (st', Ok rs) ∧
    row = params_dict (self st') ++ (prod_map id Num <$> df_mean (pd_DataFrame rs)).
Proof.
  intros Hrun. unfold run in Hrun.
  apply bind_inv_Ok in Hrun as (st0 & st0' & [= -> ->] & Hrun).
  apply bind_inv_Ok in Hrun as (st1 & folds & [-> Hsplit]%lift_Ok & Hrun).
  apply bind_inv_Ok in Hrun as (st2 & fold_results & Hloop & Hrun).
  apply bind_inv_Ok in Hrun as (st3 & st3' & [= -> ->] & [= -> <-]).
  by exists folds, fold_results.
Qed.

(** The first fold of a split covers the index 1. *)
Lemma KFold_split_first (k n : nat) (random_state : option Z) folds :
  KFold_split k random_state n = Ok folds →
  2 ≤ n ∧ ∃ chunk folds', folds = fold_of_chunk n chunk :: folds'.
Proof.
  intros Hsplit. apply KFold_split_inv in Hsplit as Hk. destruct Hk as [Hk Hlen].
  rewrite KFold_split_ok in Hsplit by done. injection Hsplit as <-.
  split; [lia|].
  destruct (test_chunks _ _) as [|chunk chunks]; [simpl in Hlen; lia|].
  by exists chunk, (fold_of_chunk n <$> chunks).
Qed.


End run_events.

Section full_job_events.
Context {World : Type} `{!Shuffle, !Backend World, !ClusteringUtils World}.
Implicit Types (st : State World).

(** X9: a run of the full job that returns has fitted
    [n_splits * (max(n_consensus, 1) + 1)] models, over [n_splits] fold
    steps, and every one of them without weights. *)
Theorem full_job_run_fits st st' (row : Series value) :
  (∀ w, weights (self st) = Some w → rectangular w) →
  run (job_methods := FullOptimizationJob.methods) st = (st', Ok row) →
  ∃ evs,
    trace st' = trace st ++ evs ∧
    length (fold_steps evs) = n_splits (self st) ∧
    length (fits evs) = n_splits (self st) * (n_consensus (self st) `max` 1 + 1) ∧
    Forall (λ fit, fit.1.2 = W_None) (fits evs).
Proof.
  intros Hrect (folds & rs & Hsplit & Hloop & _)%run_inv.
  apply KFold_split_first in Hsplit as Hfirst.
  destruct Hfirst as [Hn (chunk & folds' & Hfolds)].
  apply KFold_split_inv in Hsplit as [_ Hlen]. rewrite Hfolds in Hloop.
  apply run_folds_falsy in Hloop as Hfalsy; [|done..].
  apply (run_folds_inv (λ job evs,
           length (fits evs) = n_consensus job `max` 1 + 1 ∧
           Forall (λ fit, fit.1.2 = W_None) (fits evs) ∧
           fold_steps evs = [])) in Hloop
    as [_ (per_fold & Htrace & Hall)];
    [|intros X_train X_val st0 st0' r Hcv|done].
  - eexists. split; [exact Htrace|]. rewrite <-Hfolds in Hall.
    rewrite <-Hlen. clear -Hall. simpl in Hall.
    induction Hall as [|fold p folds per_fold (_ & _ & Hfits & Hnone & Hsteps) _
                         (IH1 & IH2 & IH3)]; [by split_and!|].
    cbn [fmap list_fmap concat]. rewrite fold_steps_app, fits_app.
    cbn [fold_steps fits omap list_omap].
    change (omap _ p.2) with (fold_steps p.2) at 1.
    change (omap _ p.2) with (fits p.2).
    rewrite Hsteps, !length_app, Hfits, IH1, IH2. simpl. split_and!; [done|lia|].
    by apply Forall_app.
  - apply cv_fold_step_inv in Hcv as (Htrace0 & _ & Hself & Hlen0).
    split; [done|]. eexists. split; [exact Htrace0|]. simpl.
    rewrite fits_app, fold_steps_app.
    assert (∀ X s, fits (Fit X W_None <$> s) = (λ x, (X, W_None, x)) <$> s) as Hfits.
    { clear. intros X s. induction s as [|x s IH]; [done|].
      rewrite !fmap_cons. cbn [fits omap list_omap]. f_equal. exact IH. }
    assert (∀ X s, fold_steps (Fit X W_None <$> s) = []) as Hsteps.
    { clear. intros X s. by induction s. }
    rewrite Hfits, Hsteps. simpl. rewrite length_app, length_fmap, Hlen0. simpl.
    split_and!; [done| |done].
    apply Forall_app. split; [|by repeat constructor].
    apply Forall_fmap, Forall_forall. done.
Qed.

End full_job_events.

(** ** The job object after a run; the target of the label fusion *)

Section job_unchanged.
Context {World : Type} `{!Shuffle, !Backend World, !ClusteringUtils World}.
Implicit Types (st : State World) (j : Job).

Import FullOptimizationJob.

Lemma keeps_job_ret {A} j (a : A) : keeps_job j (ret a : M (State World) A).
Proof. by intros st. Qed.

Lemma keeps_job_lift {A} j (r : result A) : keeps_job j (lift r : M (State World) A).
Proof. by intros st. Qed.

Lemma keeps_job_get j : keeps_job j (get : M (State World) _).
Proof. by intros st. Qed.

Lemma keeps_job_emit j (e : event) : keeps_job j (emit e : M (State World) unit).
Proof. by intros st. Qed.

Lemma keeps_job_call {A} j (f : World → World * result A) : keeps_job j (call f).
Proof. intros st. unfold call. by destruct (f (world st)). Qed.

Lemma keeps_job_bind {A B} j (m : M (State World) A) (k : A → M (State World) B) :
  keeps_job j m → (∀ a, keeps_job j (k a)) → keeps_job j (bind m k).
Proof.
  intros Hm Hk st Hst. specialize (Hm st Hst). unfold bind.
  destruct (m st) as [st1 [a|e]]; [by apply Hk|done].
Qed.

Lemma keeps_job_for_each {A B} j (xs : list A) (body : A → M (State World) B) :
  (∀ x, keeps_job j (body x)) → keeps_job j (for_each xs body).
Proof.
  intros Hbody. induction xs as [|x xs IH]; [by apply keeps_job_ret|].
  cbn [for_each]. apply keeps_job_bind; [done|]. intros b.
  apply keeps_job_bind; [done|]. intros bs. apply keeps_job_ret.
Qed.

Ltac keeps_job_step :=
  first
    [ apply keeps_job_ret | apply keeps_job_lift | apply keeps_job_get
    | apply keeps_job_call | apply keeps_job_emit
    | apply keeps_job_bind; [|keeps_intros] ].

Lemma keeps_job_fit_vader j (X_train : ndarray) (W_train : weights_arg) :
  keeps_job j (_fit_vader X_train W_train).
Proof. unfold _fit_vader. repeat keeps_job_step. Qed.

Lemma keeps_job_single_clustering j (X_train X_val : ndarray) (W_train : weights_arg) :
  keeps_job j (_single_clustering X_train X_val W_train).
Proof.
  unfold _single_clustering. keeps_job_step; [apply keeps_job_fit_vader|].
  repeat keeps_job_step.
Qed.

Lemma keeps_job_cv_fold_step j (X_train X_val : ndarray) (W_train W_val : weights_arg) :
  n_consensus j ≤ 1 → keeps_job j (_cv_fold_step X_train X_val W_train W_val).
Proof.
  intros Hn st Hst. unfold _cv_fold_step. unfold bind at 1. unfold get.
  rewrite decide_False by (rewrite Hst; lia). revert st Hst.
  keeps_job_step; [apply keeps_job_single_clustering|].
  do 3 (keeps_job_step; [keeps_job_step|]).
  keeps_job_step; [apply keeps_job_fit_vader|].
  repeat keeps_job_step.
Qed.

Lemma keeps_job_run_fold j (fold : list nat * list nat) :
  n_consensus j ≤ 1 →
  keeps_job j (run_fold (job_methods := methods) fold).
Proof.
  intros Hn. destruct fold as [train_index val_index]. unfold run_fold.
  do 3 (keeps_job_step; [keeps_job_step|]).
  keeps_job_step.
  { unfold weights_conditional. apply keeps_job_bind; [keeps_job_step|].
    intros b. destruct b; repeat keeps_job_step. }
  keeps_job_step; [keeps_job_step|].
  by apply keeps_job_cv_fold_step.
Qed.

(** X10: without consensus repeats a run leaves the job object as it
    found it, seed included, whether it returns or raises. *)
Theorem run_without_consensus_keeps_job st :
  n_consensus (self st) ≤ 1 →
  self (run (job_methods := methods) st).1 = self st.
Proof.
  intros Hn. revert st Hn.
  assert (∀ j, n_consensus j ≤ 1 → keeps_job j (run (job_methods := methods)))
    as Hrun; [|by intros st Hn; apply (Hrun (self st))].
  intros j Hn. unfold run. do 2 (keeps_job_step; [keeps_job_step|]).
  keeps_job_step;
    [apply keeps_job_for_each; intros fold; by apply keeps_job_run_fold|].
  repeat keeps_job_step.
Qed.

End job_unchanged.

Section consensus_target.
Context {World : Type} `{!Backend World, !ClusteringUtils World}.
Implicit Types (st : State World).

Import FullOptimizationJob.

(** Rounding keeps a number between two integers between them. *)
Lemma py_round_bounds (x : Q) (a b : Z) :
  (inject_Z a <= x <= inject_Z b)%Q → (a ≤ py_round x ≤ b)%Z.
Proof.
  intros [Ha Hb]. unfold py_round.
  pose proof (Qfloor_le x) as Hfl. pose proof (Qlt_floor x) as Hfu.
  assert (a ≤ Qfloor x)%Z as Hlo.
  { rewrite <-(Qfloor_Z a). by apply Qfloor_resp_le. }
  assert (Qfloor x ≤ b)%Z as Hhi.
  { rewrite <-(Qfloor_Z b). by apply Qfloor_resp_le. }
  assert ((1 # 2 <= x - inject_Z (Qfloor x))%Q → (Qfloor x + 1 ≤ b)%Z) as Hup.
  { intros Hhalf. destruct (decide (Qfloor x = b)) as [Heq|?]; [|lia].
    rewrite Heq in Hhalf. lra. }
  destruct (x - inject_Z (Qfloor x) ?= 1 # 2)%Q eqn:Hc.
  - apply Qeq_alt in Hc. destruct (Z.even (Qfloor x)); [lia|].
    split; [lia|]. apply Hup. rewrite Hc. lra.
  - lia.
  - apply Qgt_alt in Hc. split; [lia|]. apply Hup. lra.
Qed.

(** Every repeat of a consensus run labels each validation sample. *)
Lemma repeats_label_vectors `{!ClusterWithinK} (X_train X_val : ndarray)
    (W_train : weights_arg) (K : nat) (repeats : list nat) st st'
    (per_repeat : list clustering_tuple) :
  getitem (params_dict (self st)) "k" = Ok (Num (inject_Z (Z.of_nat K))) →
  for_each repeats (one_repeat X_train X_val W_train) st = (st', Ok per_repeat) →
  Forall (λ t, length (tuple_y_pred t) = length X_val) per_repeat.
Proof.
  revert st per_repeat.
  induction repeats as [|i repeats IH]; intros st per_repeat HK Hrun.
  - injection Hrun as _ <-. constructor.
  - cbn [for_each] in Hrun.
    apply bind_inv_Ok in Hrun as (st2 & t & Hone & Hrun).
    apply bind_inv_Ok in Hrun as (st3 & ts & Hrest & [= -> <-]).
    pose proof (one_repeat_inv _ _ _ _ _ _ _ Hone) as [Hself _].
    unfold one_repeat in Hone.
    apply bind_inv_Ok in Hone as (st1 & [] & Hreseed & Hsingle).
    apply single_clustering_inv in Hsingle as (vader & Hfit & Hy & _).
    apply fit_vader_inv in Hfit as (args & w' & Htrain & Hk & _).
    rewrite reseed_value in Hreseed. injection Hreseed as <-.
    simpl in Hk. rewrite HK in Hk. injection Hk as Hk.
    destruct (cluster_within_k args _ _ _ K Htrain (eq_sym Hk) X_val) as [Hl _].
    constructor; [by rewrite Hy|].
    eapply IH; [|done]. by rewrite Hself.
Qed.

(** X11: the labels a consensus run returns are [consensus_clustering] of
    one label vector per repeat, each labelling the validation samples,
    with a target number of clusters between 1 and the configured [K]. *)
Theorem consensus_target_k_bounds `{!ClusterWithinK} st st'
    (X_train X_val : ndarray) (W_train : weights_arg) (K : nat)
    (out : clustering_tuple) :
  X_train ≠ [] →
  0 < n_consensus (self st) →
  getitem (params_dict (self st)) "k" = Ok (Num (inject_Z (Z.of_nat K))) →
  _consensus_clustering X_train X_val W_train st = (st', Ok out) →
  ∃ (label_vectors : list (list Z)) (target_k : Z),
    consensus_clustering label_vectors target_k = Ok (tuple_y_pred out) ∧
    length label_vectors = n_consensus (self st) ∧
    Forall (λ y, length y = length X_val) label_vectors ∧
    target_k = py_round (tuple_effective_k out) ∧
    (1 ≤ target_k ≤ Z.of_nat K)%Z.
Proof.
  intros Hne Hn HK Hrun. unfold _consensus_clustering in Hrun.
  apply bind_inv_Ok in Hrun as (? & st0 & [= -> ->] & Hrun).
  apply bind_inv_Ok in Hrun as (st1 & acc & Hloop & Hrun).
  rewrite consensus_loop_collects in Hloop.
  apply bind_inv_Ok in Hloop as (st2 & per_repeat & Heach & [= -> <-]).
  apply for_each_length in Heach as Hlen. rewrite length_seq in Hlen.
  apply (repeats_effective_k_bounds _ _ _ K) in Heach as Hall; [|done..].
  simpl in Hrun.
  apply bind_inv_Ok in Hrun as (? & y_pred & [-> Hcons]%lift_Ok & [= -> <-]).
  exists (tuple_y_pred <$> per_repeat),
         (py_round (np_mean (tuple_effective_k <$> per_repeat))).
  split; [done|]. split; [by rewrite length_fmap|]. split; [|split; [done|]].
  - apply Forall_fmap. by eapply repeats_label_vectors.
  - apply (py_round_bounds _ 1 (Z.of_nat K)). apply np_mean_bounds.
    + intros Hnil%fmap_nil_inv. subst per_repeat. simpl in Hlen. lia.
    + by apply Forall_fmap.
Qed.

End consensus_target.

(** ** The score of a trial over the full job *)

Section full_job_rows.
Context {World : Type} `{!Shuffle, !Backend World, !ClusteringUtils World}.
Implicit Types (st : State World).

Lemma run_folds_keys (folds : list (list nat * list nat)) st st'
    (rs : list (Series Q)) :
  for_each folds (run_fold (job_methods := FullOptimizationJob.methods)) st
  = (st', Ok rs) →
  Forall (λ r, keys r = fold_result_keys) rs.
Proof.
  revert st rs. induction folds as [|fold folds IH]; intros st rs Hrun.
  - injection Hrun as _ <-. constructor.
  - cbn [for_each] in Hrun.
    apply bind_inv_Ok in Hrun as (st1 & r & Hfold & Hrun).
    apply bind_inv_Ok in Hrun as (st2 & rs' & Hrest & [= -> <-]).
    apply run_fold_inv in Hfold as (X_train & X_val & W_train & _ & _ & _ & Hcv).
    constructor; [by apply cv_fold_step_keys in Hcv|by eapply IH].
Qed.

Lemma keys_df_mean (df : DataFrame Q) : keys (df_mean df) = columns df.
Proof.
  unfold df_mean, keys. rewrite <-list_fmap_compose.
  by rewrite <-(list_fmap_id (columns df)) at 2.
Qed.

Lemma keys_prod_map {V W} (f : V → W) (d : Series V) :
  keys (prod_map id f <$> d) = keys d.
Proof. unfold keys. rewrite <-list_fmap_compose. by apply list_fmap_ext; intros ? []. Qed.

(** The keys of the row a run of the full job returns. *)
Lemma full_job_row_keys st st' (row : Series value) (c : string) :
  run (job_methods := FullOptimizationJob.methods) st = (st', Ok row) →
  c ∈ keys row → c ∈ keys (params_dict (self st)) ∨ c ∈ fold_result_keys.
Proof.
  intros (folds & rs & _ & Hloop & ->)%run_inv.
  pose proof (keeps_for_each fit_or_unweighted_step folds run_fold
                (λ fold, keeps_run_fold (job_methods := FullOptimizationJob.methods)
                           fold) st) as Hkeeps.
  rewrite Hloop in Hkeeps. apply steps_params_dict in Hkeeps. simpl in Hkeeps.
  rewrite Hkeeps. unfold keys at 1. rewrite fmap_app, elem_of_app.
  intros [Hc|Hc]; [by left|right].
  change (c ∈ keys (prod_map id Num <$> df_mean (pd_DataFrame rs))) in Hc.
  rewrite keys_prod_map, keys_df_mean in Hc.
  apply elem_of_columns in Hc as (r & Hr & Hc).
  apply run_folds_keys in Hloop. rewrite Forall_forall in Hloop.
  by rewrite <-(Hloop r Hr).
Qed.

End full_job_rows.

Section objective_rows.
Import VADERBayesianOptimizer.
Context {World : Type} `{!Shuffle} {uuid_supply : Uuid} {job_methods : Methods World}.
Implicit Types (env : Env World).

(** The row a job of the optimizer contributes: what its [run] returned,
    or the bare parameters. *)
Lemma run_cv_single_job_row (self : Optimizer) (input_data : ndarray)
    (input_weights : option ndarray) (params_dict : Series value)
    (seed : option Z) env :
  ∃ env' row,
    run_cv_single_job self input_data input_weights params_dict seed env
    = (env', Ok row) ∧
    (row = params_dict ∨
     ∃ st st', AbstractOptimizationJob.params_dict (AbstractOptimizationJob.self st)
               = params_dict ∧
               run st = (st', Ok row)).
Proof.
  unfold run_cv_single_job, new_job.
  unfold bind at 1. unfold bind at 1. unfold get. unfold bind at 1.
  unfold modify at 1. unfold ret at 1. unfold try_except, job_run. simpl.
  destruct (run _) as [st [job_row|e]] eqn:Hrun.
  - eexists _, job_row. split; [done|]. right. eexists _, st. split; [|exact Hrun].
    done.
  - eexists _, params_dict. unfold bind, write_file, modify, ret. simpl.
    split; [done|]. by left.
Qed.

Lemma objective_loop_rows (self : Optimizer) (k number : nat) (input_data : ndarray)
    (input_weights : option ndarray) (params_dict : Series value)
    (repeats : list nat) env :
  ∃ env' results,
    for_each repeats (λ i,
      let* seed := lift (repeat_seed self k number i) in
      run_cv_single_job self input_data input_weights params_dict seed) env
    = (env', Ok results) ∧
    Forall (λ row,
              row = params_dict ∨
              ∃ st st', AbstractOptimizationJob.params_dict
                          (AbstractOptimizationJob.self st) = params_dict ∧
                        run st = (st', Ok row)) results.
Proof.
  revert env. induction repeats as [|x repeats IH]; intros env.
  - by exists env, [].
  - destruct (repeat_seed_total self k number x) as [seed Hseed].
    destruct (run_cv_single_job_row self input_data input_weights params_dict seed env)
      as (env1 & row & Hjob & Hrow).
    destruct (IH env1) as (env' & results & Hloop & Hall).
    exists env', (row :: results). split; [|by constructor].
    cbn [for_each]. erewrite bind_Ok; [|erewrite bind_Ok; [exact Hjob|]].
    + erewrite bind_Ok by done. done.
    + unfold lift. by rewrite Hseed.
Qed.

End objective_rows.

Section full_job_objective.
Import VADERBayesianOptimizer.
Context {World : Type} `{!Shuffle, !Backend World, !ClusteringUtils World}
  {uuid_supply : Uuid}.
Implicit Types (env : Env World).

(** X12: with the full job as the job class, the objective of a trial
    never has a score: no row of a trial has the scoring column, and
    [objective] returns [None], whatever the data, the parameters drawn
    and the outcome of the jobs. *)
Theorem full_job_objective_has_no_score (self : Optimizer) (trial : Trial) (k : nat)
    (input_data : ndarray) (input_weights : option ndarray) env :
  ∃ env' df,
    objective (job_methods := FullOptimizationJob.methods)
      self trial k input_data input_weights env = (env', Ok None) ∧
    fs env' !! trial_file self k (number trial) = Some (Csv df) ∧
    ¬ (score_column ∈ columns df).
Proof.
  destruct (objective_loop_rows (job_methods := FullOptimizationJob.methods)
              self k (number trial) input_data input_weights
              (trial_params trial k) (seq 0 (n_repeats self)) env)
    as (env1 & results & Hloop & Hrows).
  assert (¬ (score_column ∈ columns (pd_DataFrame results))) as Hcol.
  { intros (row & Hrow & Hc)%elem_of_columns.
    rewrite Forall_forall in Hrows.
    assert (score_column ∈ keys (trial_params trial k) ∨ score_column ∈ fold_result_keys)
      as Hin.
    { destruct (Hrows row Hrow) as [->|(st & st' & Hparams & Hrun)]; [by left|].
      rewrite <-Hparams. by eapply full_job_row_keys. }
    unfold score_column, fold_result_keys in Hin. simpl in Hin.
    rewrite !elem_of_cons, !elem_of_nil in Hin.
    repeat (destruct Hin as [Hin|Hin]; try discriminate Hin); done. }
  eexists _, (pd_DataFrame results). unfold objective.
  erewrite bind_Ok by exact Hloop. unfold bind at 1, write_file, modify.
  unfold bind, lift, score_of. rewrite decide_False by done. simpl.
  split; [done|]. split; [apply lookup_insert_eq|done].
Qed.

End full_job_objective.

(** ** Weights in the optimizer; the trials directory *)

Section weights_in_the_optimizer.
Import VADERBayesianOptimizer.
Context {World : Type} `{!Shuffle} {uuid_supply : Uuid} {job_methods : Methods World}.
Implicit Types (env : Env World).





End weights_in_the_optimizer.

Section trials_directory.
Import VADERBayesianOptimizer.
Context {World : Type}.
Implicit Types (env : Env World).

Lemma strip_prefix_app (p q s : string) :
  strip_prefix (p +:+ q) (p +:+ s) = strip_prefix q s.
Proof.
  induction p as [|a p IH]; [by rewrite !append_nil|].
  rewrite !append_cons. simpl. by rewrite decide_True.
Qed.

Lemma in_directory_path_join (dir name : string) :
  in_directory dir (path_join dir name) = negb (has_char "/" name).
Proof.
  unfold in_directory, path_join. by rewrite strip_prefix_app.
Qed.

Lemma slash_not_digit : ¬ is_digit "/".
Proof.
  intros Hc%is_digit_cases. rewrite !elem_of_cons, elem_of_nil in Hc.
  destruct Hc as [?|[?|[?|[?|[?|[?|[?|[?|[?|[?|[]]]]]]]]]]]; discriminate.
Qed.

Lemma str_nat_no_slash (n : nat) : has_char "/" (str_nat n) = false.
Proof.
  destruct (has_char "/" (str_nat n)) eqn:Hc; [|done].
  by apply str_nat_digits, slash_not_digit in Hc.
Qed.

Lemma substring_all (s : string) : String.substring 0 (String.length s) s = s.
Proof. induction s as [|a s IH]; [done|]. simpl. by rewrite IH. Qed.

Lemma endswith_app (s suffix : string) : endswith (s +:+ suffix) suffix = true.
Proof.
  unfold endswith. apply bool_decide_eq_true. rewrite append_length.
  split; [lia|].
  replace (String.length s + String.length suffix - String.length suffix)
    with (String.length s) by lia.
  induction s as [|a s IH]; [apply substring_all|].
  rewrite append_cons. exact IH.
Qed.

(** X14: the regrouping step lists the trial files and nothing else the
    optimizer writes: a trial file is an entry of the trials directory
    whose name ends in [.csv], while neither a failure log nor a
    repeat file (the step's own output) is an entry of that directory. *)
Theorem trials_directory_entries (self : Optimizer) (files : gmap string file) :
  (∀ k number content,
     files !! trial_file self k number = Some content →
     (trial_file self k number, content) ∈ scandir files (output_trials_dir self) ∧
     endswith (trial_file self k number) ".csv" = true) ∧
  (∀ path content,
     (path, content) ∈ scandir files (output_trials_dir self) →
     (∀ job_id, path ≠ failure_log_file self job_id) ∧
     (∀ i, path ≠ repeat_file self i)).
Proof.
  split.
  - intros k number content Hfile. split.
    + apply list_elem_of_filter. split; [|by apply elem_of_map_to_list].
      unfold trial_file. cbn [fst]. rewrite in_directory_path_join.
      unfold trial_id. rewrite !has_char_app, !str_nat_no_slash. done.
    + unfold trial_file, path_join. rewrite <-!append_assoc. apply endswith_app.
  - intros path content [Hdir _]%list_elem_of_filter. cbn [fst] in Hdir.
    split.
    + intros job_id ->. revert Hdir.
      unfold in_directory, failure_log_file, failed_jobs_dir, output_trials_dir,
        path_join.
      rewrite !append_assoc, strip_prefix_app. done.
    + intros i ->. revert Hdir.
      unfold in_directory, repeat_file, output_repeats_dir, output_trials_dir,
        path_join.
      rewrite !append_assoc, strip_prefix_app. done.
Qed.

Lemma read_trials_files_none (self : Optimizer) env
    (entries : list (string * file)) (acc : list (DataFrame value)) :
  Forall (λ entry, endswith entry.1 ".csv" = false) entries →
  for_loop entries acc
    (λ df_trials_list entry,
       if endswith entry.1 ".csv" then
         let* df := lift (read_csv entry.2) in
         ret (df_trials_list ++ [df])
       else ret df_trials_list) env
  = (env, Ok acc).
Proof.
  induction 1 as [|entry entries Hentry _ IH]; [done|].
  cbn [for_loop]. rewrite Hentry. unfold bind at 1, ret at 1. exact IH.
Qed.

(** X15: when the trials directory holds no [.csv] file, the regrouping
    step raises the [ValueError] of [pd.concat] on an empty list, and
    writes nothing. *)
Theorem gen_repeats_files_without_trials (self : Optimizer) env :
  Forall (λ entry, endswith entry.1 ".csv" = false)
         (scandir (fs env) (output_trials_dir self)) →
  gen_repeats_files_from_trials_files self env
  = (env, Raise (ValueError "No objects to concatenate")).
Proof.
  intros Hnone. unfold gen_repeats_files_from_trials_files.
  erewrite bind_Ok.
  2:{ unfold read_trials_files. unfold bind, get.
      by apply read_trials_files_none. }
  done.
Qed.

End trials_directory.

(** ** The schema of a job's row; regrouping trial by trial *)

Section row_schema.
Context {World : Type} `{!Shuffle, !Backend World, !ClusteringUtils World}.
Implicit Types (st : State World).

Lemma dedup_seen (seen l : list string) :
  (∀ x, x ∈ l → x ∈ seen) → dedup seen l = [].
Proof.
  induction l as [|x l IH]; intros Hl; [done|]. simpl.
  rewrite decide_True by (apply Hl; left). apply IH. intros y Hy. apply Hl. by right.
Qed.

(** Labels that come first, once each, head the deduplicated list; what
    repeats them adds nothing. *)
Lemma dedup_first (seen ks rest : list string) :
  NoDup ks → (∀ x, x ∈ ks → x ∉ seen) → (∀ x, x ∈ rest → x ∈ ks ∨ x ∈ seen) →
  dedup seen (ks ++ rest) = ks.
Proof.
  revert seen. induction ks as [|k ks IH]; intros seen Hnd Hfresh Hrest.
  - simpl. apply dedup_seen. intros x Hx.
    destruct (Hrest x Hx) as [?%elem_of_nil|?]; done.
  - apply NoDup_cons in Hnd as [Hk Hnd]. simpl.
    rewrite decide_False by (apply Hfresh; left). f_equal. apply IH; [done| |].
    + intros x Hx [->|Hseen]%elem_of_cons; [done|].
      by apply (Hfresh x); [right|].
    + intros x Hx. destruct (Hrest x Hx) as [[->|?]%elem_of_cons|?].
      * right. left.
      * by left.
      * right. by right.
Qed.

Lemma columns_same_keys {V} (records : list (Series V)) (ks : list string) :
  records ≠ [] → NoDup ks → Forall (λ r, keys r = ks) records →
  columns (pd_DataFrame records) = ks.
Proof.
  intros Hne Hnd Hall. destruct Hall as [|r records Hr Hall]; [done|].
  simpl. rewrite Hr. apply dedup_first; [done|by intros x _ ?%elem_of_nil|].
  intros x Hx. left. clear Hne Hr.
  induction Hall as [|r' records Hr' _ IH]; [by apply elem_of_nil in Hx|].
  simpl in Hx. apply elem_of_app in Hx as [Hx|Hx]; [by rewrite <-Hr'|auto].
Qed.

(** X16: the row a run of the full job returns has for keys the keys of
    the job's [params_dict] followed by the thirteen keys of the fold
    results, in this order. *)
Theorem full_job_row_schema st st' (row : Series value) :
  run (job_methods := FullOptimizationJob.methods) st = (st', Ok row) →
  keys row = keys (params_dict (self st)) ++ fold_result_keys ∧
  length row = length (params_dict (self st)) + 13.
Proof.
  intros (folds & rs & Hsplit & Hloop & ->)%run_inv.
  pose proof (keeps_for_each fit_or_unweighted_step folds run_fold
                (λ fold, keeps_run_fold (job_methods := FullOptimizationJob.methods)
                           fold) st) as Hkeeps.
  rewrite Hloop in Hkeeps. apply steps_params_dict in Hkeeps. simpl in Hkeeps.
  rewrite Hkeeps.
  apply KFold_split_inv in Hsplit as [Hk Hlen].
  apply for_each_length in Hloop as Hlen'.
  apply run_folds_keys in Hloop.
  assert (keys (prod_map id Num <$> df_mean (pd_DataFrame rs)) = fold_result_keys)
    as Hkeys.
  { rewrite keys_prod_map, keys_df_mean. apply columns_same_keys; [| |done].
    - intros ->. simpl in Hlen'. lia.
    - apply (bool_decide_unpack _). by vm_compute. }
  split.
  - unfold keys at 1. rewrite fmap_app. by f_equal.
  - rewrite length_app. f_equal.
    apply (f_equal length) in Hkeys. unfold keys in Hkeys.
    by rewrite length_fmap in Hkeys.
Qed.

End row_schema.

Section regroup_by_trial.
Import VADERBayesianOptimizer.
Context {World : Type}.
Implicit Types (env : Env World).







End regroup_by_trial.

(** ** The further properties at the demo instance *)

Section further_witnesses.
Import Demo VADERBayesianOptimizer.

Lemma consensus_seeds_chain_witness :
  ∃ st' out,
    FullOptimizationJob._consensus_clustering
      (Backend0 := demo_backend []) (ClusteringUtils0 := demo_clustering_utils)
      [[-1]; [1]]%Q [[-2]; [2]]%Q W_None (demo_state None (Some 7%Z) 2)
    = (st', Ok out) ∧
    fit_seeds (trace st') = [Some 70%Z; Some 701%Z] ∧
    AbstractOptimizationJob.seed (self st') = Some 701%Z.
Proof.
  destruct (FullOptimizationJob._consensus_clustering
              (Backend0 := demo_backend []) (ClusteringUtils0 := demo_clustering_utils)
              [[-1]; [1]]%Q [[-2]; [2]]%Q W_None
              (demo_state None (Some 7%Z) 2)) as [st' [out|e]] eqn:Hrun.
  - destruct (@consensus_seeds_chain nat (demo_backend []) demo_clustering_utils
                (demo_state None (Some 7%Z) 2) st'
                [[-1]; [1]]%Q [[-2]; [2]]%Q W_None out Hrun)
      as (Htrace & Hseed & _).
    exists st', out. split; [reflexivity|]. split.
    + rewrite Htrace. vm_compute. reflexivity.
    + rewrite Hseed. vm_compute. reflexivity.
  - exfalso. vm_compute in Hrun. discriminate Hrun.
Defined.

Lemma repeat_seed_injective_witness :
  truthy_int (seed (demo_optimizer 3)) = true ∧
  repeat_seed (demo_optimizer 3) 2 13 1 = repeat_seed (demo_optimizer 3) 2 13 1 ∧
  (2, 13, 1) = (2, 13, 1).
Proof.
  split; [reflexivity|]. split; [reflexivity|].
  apply (repeat_seed_injective (demo_optimizer 3) 2 13 1 2 13 1).
  - reflexivity.
  - right. lia.
  - reflexivity.
Defined.

Lemma cv_fold_step_fits_witness :
  ∃ st' fold_result seeds,
    FullOptimizationJob._cv_fold_step
      (Backend0 := demo_backend []) (ClusteringUtils0 := demo_clustering_utils)
      [[-1]; [1]]%Q [[-2]; [2]]%Q W_None W_None (demo_state None (Some 7%Z) 3)
    = (st', Ok fold_result) ∧
    trace st'
    = (Fit [[-1]; [1]]%Q W_None <$> seeds)
      ++ [Fit [[-2]; [2]]%Q W_None (AbstractOptimizationJob.seed (self st'))] ∧
    length seeds = 3.
Proof.
  destruct (FullOptimizationJob._cv_fold_step
              (Backend0 := demo_backend []) (ClusteringUtils0 := demo_clustering_utils)
              [[-1]; [1]]%Q [[-2]; [2]]%Q W_None W_None
              (demo_state None (Some 7%Z) 3)) as [st' [fold_result|e]] eqn:Hstep.
  - destruct (@cv_fold_step_fits nat (demo_backend []) demo_clustering_utils
                (demo_state None (Some 7%Z) 3) st'
                [[-1]; [1]]%Q [[-2]; [2]]%Q W_None W_None fold_result Hstep)
      as (seeds & Htrace & Hlen & _).
    exists st', fold_result, seeds.
    split; [reflexivity|]. split; [exact Htrace|exact Hlen].
  - exfalso. vm_compute in Hstep. discriminate Hstep.
Defined.

Lemma fold_result_shape_witness :
  ∃ fold_result,
    (FullOptimizationJob._cv_fold_step
       (Backend0 := demo_backend []) (ClusteringUtils0 := demo_clustering_utils)
       [[-1]; [1]]%Q [[-2]; [2]]%Q W_None W_None
       (demo_state None (Some 7%Z) 1)).2 = Ok fold_result ∧
    keys fold_result = fold_result_keys.
Proof.
  destruct (FullOptimizationJob._cv_fold_step
              (Backend0 := demo_backend []) (ClusteringUtils0 := demo_clustering_utils)
              [[-1]; [1]]%Q [[-2]; [2]]%Q W_None W_None
              (demo_state None (Some 7%Z) 1)) as [st' [fold_result|e]] eqn:Hstep.
  - destruct (@fold_result_shape nat (demo_backend []) demo_clustering_utils
                (demo_state None (Some 7%Z) 1) st'
                [[-1]; [1]]%Q [[-2]; [2]]%Q W_None W_None fold_result Hstep)
      as (Hkeys & _).
    exists fold_result. split; [reflexivity|exact Hkeys].
  - exfalso. vm_compute in Hstep. discriminate Hstep.
Defined.

Lemma cv_fold_step_missing_hyperparameter_witness :
  ∃ st' key,
    FullOptimizationJob._cv_fold_step
      (Backend0 := demo_backend []) (ClusteringUtils0 := demo_clustering_utils)
      [[-1]; [1]]%Q [[-2]; [2]]%Q W_None W_None
      {| self := {| data := demo_data; weights := None;
                    params_dict := [("k", Num 2); ("n_hidden", Tup [8; 2]%Z)];
                    AbstractOptimizationJob.seed := Some 7%Z;
                    AbstractOptimizationJob.n_consensus := 2;
                    AbstractOptimizationJob.n_epoch := 10;
                    AbstractOptimizationJob.n_splits := 2;
                    AbstractOptimizationJob.n_perm := 10;
                    verbose := false; cv_id := "job-0" |};
         AbstractOptimizationJob.world := 0; trace := [] |}
    = (st', Raise (KeyError key)) ∧
    trace st' = [] ∧ AbstractOptimizationJob.world st' = 0.
Proof.
  destruct (@cv_fold_step_missing_hyperparameter nat (demo_backend [])
              demo_clustering_utils
              {| self := {| data := demo_data; weights := None;
                    params_dict := [("k", Num 2); ("n_hidden", Tup [8; 2]%Z)];
                    AbstractOptimizationJob.seed := Some 7%Z;
                    AbstractOptimizationJob.n_consensus := 2;
                    AbstractOptimizationJob.n_epoch := 10;
                    AbstractOptimizationJob.n_splits := 2;
                    AbstractOptimizationJob.n_perm := 10;
                    verbose := false; cv_id := "job-0" |};
                 AbstractOptimizationJob.world := 0; trace := [] |}
              [[-1]; [1]]%Q [[-2]; [2]]%Q W_None W_None "alpha")
    as (st' & key & Hstep & _ & _ & Htrace & Hworld).
  - unfold hyperparameter_keys. rewrite !elem_of_cons. tauto.
  - reflexivity.
  - exists st', key. split; [exact Hstep|]. split; [exact Htrace|exact Hworld].
Defined.


Lemma full_job_run_fits_witness :
  ∃ st' row,
    run (H := demo_shuffle) (job_methods := demo_methods)
        (demo_state (Some [[0]]%Q) (Some 7%Z) 2) = (st', Ok row) ∧
    length (fold_steps (trace st')) = 2 ∧
    length (fits (trace st')) = 6 ∧
    Forall (λ fit, fit.1.2 = W_None) (fits (trace st')).
Proof.
  destruct (run (H := demo_shuffle) (job_methods := demo_methods)
                (demo_state (Some [[0]]%Q) (Some 7%Z) 2)) as [st' [row|e]] eqn:Hrun.
  - assert (∀ w, weights (self (demo_state (Some [[0]]%Q) (Some 7%Z) 2)) = Some w →
                 rectangular w) as Hrect.
    { intros w [= <-]. repeat constructor. }
    destruct (@full_job_run_fits nat demo_shuffle (demo_backend [])
                demo_clustering_utils _ st' row Hrect Hrun)
      as (evs & Htrace & Hsteps & Hfits & Hall).
    exists st', row. split; [reflexivity|]. rewrite Htrace. simpl app.
    split; [exact Hsteps|]. split; [exact Hfits|exact Hall].
  - exfalso. vm_compute in Hrun. discriminate Hrun.
Defined.

Lemma run_without_consensus_keeps_job_witness :
  self (run (H := demo_shuffle) (job_methods := demo_methods)
            (demo_state None (Some 7%Z) 1)).1
  = demo_job None (Some 7%Z) 1.
Proof.
  apply (@run_without_consensus_keeps_job nat demo_shuffle (demo_backend [])
           demo_clustering_utils (demo_state None (Some 7%Z) 1)).
  simpl. lia.
Defined.


Lemma gen_repeats_files_without_trials_witness :
  gen_repeats_files_from_trials_files (demo_optimizer 5)
    (demo_env {["out/csv_trials/k2_trial0.bak" := Csv (pd_DataFrame (demo_rows 0))]})
  = (demo_env {["out/csv_trials/k2_trial0.bak" := Csv (pd_DataFrame (demo_rows 0))]},
     Raise (ValueError "No objects to concatenate")).
Proof.
  apply (@gen_repeats_files_without_trials nat (demo_optimizer 5)).
  vm_compute. repeat constructor.
Defined.

Lemma consensus_target_k_bounds_witness :
  ∃ out (label_vectors : list (list Z)) (target_k : Z),
    (FullOptimizationJob._consensus_clustering
       (Backend0 := demo_backend []) (ClusteringUtils0 := demo_clustering_utils)
       [[-1]; [1]]%Q [[-2]; [2]]%Q W_None
       (demo_state None (Some 7%Z) 2)).2 = Ok out ∧
    @consensus_clustering nat demo_clustering_utils label_vectors target_k
    = Ok (FullOptimizationJob.tuple_y_pred out) ∧
    length label_vectors = 2 ∧
    (1 ≤ target_k ≤ 2)%Z.
Proof.
  destruct (FullOptimizationJob._consensus_clustering
              (Backend0 := demo_backend []) (ClusteringUtils0 := demo_clustering_utils)
              [[-1]; [1]]%Q [[-2]; [2]]%Q W_None
              (demo_state None (Some 7%Z) 2)) as [st' [out|e]] eqn:Hrun.
  - assert ([[-1]; [1]]%Q ≠ ([] : ndarray)) as Hne by done.
    assert (0 < AbstractOptimizationJob.n_consensus
                  (self (demo_state None (Some 7%Z) 2))) as Hn by (simpl; lia).
    destruct (@consensus_target_k_bounds nat (demo_backend []) demo_clustering_utils
                (demo_cluster_within_k []) (demo_state None (Some 7%Z) 2) st'
                [[-1]; [1]]%Q [[-2]; [2]]%Q W_None 2 out Hne Hn eq_refl Hrun)
      as (label_vectors & target_k & Hcons & Hlen & _ & _ & Hbounds).
    exists out, label_vectors, target_k.
    split; [reflexivity|]. split; [exact Hcons|]. split; [exact Hlen|exact Hbounds].
  - exfalso. vm_compute in Hrun. discriminate Hrun.
Defined.

Lemma full_job_row_schema_witness :
  ∃ row,
    (run (H := demo_shuffle) (job_methods := demo_methods)
         (demo_state None (Some 7%Z) 1)).2 = Ok row ∧
    keys row = keys demo_params ++ fold_result_keys ∧
    length row = 18.
Proof.
  destruct (run (H := demo_shuffle) (job_methods := demo_methods)
                (demo_state None (Some 7%Z) 1)) as [st' [row|e]] eqn:Hrun.
  - destruct (@full_job_row_schema nat demo_shuffle (demo_backend [])
                demo_clustering_utils _ st' row Hrun) as [Hkeys Hlen].
    exists row. split; [reflexivity|]. split; [exact Hkeys|exact Hlen].
  - exfalso. vm_compute in Hrun. discriminate Hrun.
Defined.


End further_witnesses.

(** ** The effective K of a job's row *)

Section row_effective_k.
Context {World : Type} `{!Shuffle, !Backend World, !ClusteringUtils World}.
Implicit Types (st : State World).

Lemma test_chunks_length (l sizes chunk : list nat) :
  chunk ∈ test_chunks l sizes → ∃ sz, sz ∈ sizes ∧ length chunk ≤ sz.
Proof.
  revert l. induction sizes as [|sz sizes IH]; intros l; simpl.
  - by intros ?%elem_of_nil.
  - intros [->|Hin]%elem_of_cons.
    + exists sz. split; [left|]. rewrite length_take. lia.
    + destruct (IH _ Hin) as (sz' & ? & ?). exists sz'. split; [by right|done].
Qed.

Lemma fold_sizes_lt (n k sz : nat) : 2 ≤ k ≤ n → sz ∈ fold_sizes n k → sz < n.
Proof.
  intros Hk (i & -> & _)%list_elem_of_fmap.
  pose proof (Nat.div_mod_eq n k) as Hdiv.
  pose proof (Nat.mod_upper_bound n k ltac:(lia)) as Hmod.
  assert (1 ≤ n / k) as Hq by (apply Nat.div_le_lower_bound; lia).
  case_decide; nia.
Qed.

(** A test chunk shorter than the data leaves samples to train on. *)
Lemma fold_train_nonempty (n : nat) (chunk : list nat) :
  length chunk < n → (fold_of_chunk n chunk).1 ≠ [].
Proof.
  intros Hlen Hnil. simpl in Hnil.
  assert (seq 0 n ⊆+ chunk) as Hsub.
  { apply NoDup_submseteq; [apply NoDup_seq|]. intros i Hi.
    destruct (decide (i ∈ chunk)) as [|Hout]; [done|].
    assert (i ∈ filter (λ i, i ∉ chunk) (seq 0 n)) as Hin
      by (by apply list_elem_of_filter).
    rewrite Hnil in Hin. by apply elem_of_nil in Hin. }
  apply submseteq_length in Hsub. rewrite length_seq in Hsub. lia.
Qed.

Lemma KFold_split_train_nonempty (k n : nat) (random_state : option Z) folds :
  KFold_split k random_state n = Ok folds → Forall (λ fold, fold.1 ≠ []) folds.
Proof.
  intros Hsplit. apply KFold_split_inv in Hsplit as Hk. destruct Hk as [Hk _].
  rewrite KFold_split_ok in Hsplit by done. injection Hsplit as <-.
  apply Forall_fmap, Forall_forall. intros chunk Hchunk.
  apply test_chunks_length in Hchunk as (sz & Hsz & Hle).
  apply fold_train_nonempty. apply (fold_sizes_lt n k) in Hsz; [lia|done].
Qed.

Lemma take_rows_length (a rs : ndarray) (idx : list nat) :
  take_rows a idx = Ok rs → length rs = length idx.
Proof.
  revert rs. induction idx as [|i idx IH]; intros rs; [by intros [= <-]|].
  cbn [take_rows]. destruct (a !! i); [|done].
  destruct (take_rows a idx) as [rs'|]; [|done]. intros [= <-].
  simpl. f_equal. by apply IH.
Qed.

(** Every fold of a run of the full job reports an effective K between 1
    and the configured [K]. *)
Lemma run_folds_effective_k `{!ClusterWithinK} (K : nat)
    (folds : list (list nat * list nat)) st st' (rs : list (Series Q)) :
  getitem (params_dict (self st)) "k" = Ok (Num (inject_Z (Z.of_nat K))) →
  Forall (λ fold, fold.1 ≠ []) folds →
  for_each folds (run_fold (job_methods := FullOptimizationJob.methods)) st
  = (st', Ok rs) →
  ∃ values,
    Forall2 (λ r v, getitem_opt r "effective_k" = Some v) rs values ∧
    Forall (λ v, (1 <= v <= inject_Z (Z.of_nat K))%Q) values.
Proof.
  intros HK Hne. revert st rs HK.
  induction Hne as [|fold folds Hfold _ IH]; intros st rs HK Hrun.
  - injection Hrun as _ <-. by exists [].
  - cbn [for_each] in Hrun.
    apply bind_inv_Ok in Hrun as (st1 & r & Hstep & Hrun).
    apply bind_inv_Ok in Hrun as (st2 & rs' & Hrest & [= -> <-]).
    pose proof (keeps_run_fold (job_methods := FullOptimizationJob.methods) fold st)
      as Hkeeps.
    rewrite Hstep in Hkeeps. apply steps_params_dict in Hkeeps. simpl in Hkeeps.
    apply run_fold_inv in Hstep as (X_train & X_val & W_train & Ht & _ & _ & Hcv).
    assert (X_train ≠ []) as HX.
    { intros ->. apply take_rows_length in Ht. by destruct (fold.1). }
    assert (∃ v, getitem_opt r "effective_k" = Some v ∧
                 (1 <= v <= inject_Z (Z.of_nat K))%Q) as (v & Hv & Hbounds).
    { destruct (decide (n_consensus (self st) ≤ 1)) as [Hn|Hn].
      - eapply (direct_fold_result_effective_k _ _ _ _ _ _ K) in Hcv
          as (_ & vader & _ & Hek & Hlo & Hhi); [|done..].
        eexists. split; [exact Hek|].
        split; [change 1%Q with (inject_Z 1)|]; rewrite <-Zle_Qle; lia.
      - eapply (consensus_fold_result_effective_k _ _ _ _ _ _ K) in Hcv;
          [done|done|simpl; lia|done]. }
    destruct (IH st1 rs') as (values & Hall & Hvalues); [by rewrite Hkeeps|done|].
    exists (v :: values). split; by constructor.
Qed.

Lemma getitem_opt_app {V} (d1 d2 : Series V) (key : string) :
  getitem_opt d1 key = None → getitem_opt (d1 ++ d2) key = getitem_opt d2 key.
Proof.
  induction d1 as [|[k v] d1 IH]; [done|]. simpl. case_decide; [done|exact IH].
Qed.

Lemma getitem_opt_prod_map {V W} (f : V → W) (d : Series V) (key : string) :
  getitem_opt (prod_map id f <$> d) key = f <$> getitem_opt d key.
Proof.
  induction d as [|[k v] d IH]; [done|]. rewrite fmap_cons. simpl.
  case_decide; [done|exact IH].
Qed.

(** X18: the [effective_k] entry of the row a run of the full job returns
    (the mean over the folds) lies between 1 and the [K] of the job's
    [params_dict], for models that label within their [K] configured
    ids: in every fold of a split there are samples to train on. *)
Theorem run_effective_k_bounds `{!ClusterWithinK} st st' (row : Series value)
    (K : nat) :
  getitem (params_dict (self st)) "k" = Ok (Num (inject_Z (Z.of_nat K))) →
  getitem_opt (params_dict (self st)) "effective_k" = None →
  run (job_methods := FullOptimizationJob.methods) st = (st', Ok row) →
  ∃ effective_k,
    getitem_opt row "effective_k" = Some (Num effective_k) ∧
    (1 <= effective_k <= inject_Z (Z.of_nat K))%Q.
Proof.
  intros HK Hfresh (folds & rs & Hsplit & Hloop & ->)%run_inv.
  pose proof (keeps_for_each fit_or_unweighted_step folds run_fold
                (λ fold, keeps_run_fold (job_methods := FullOptimizationJob.methods)
                           fold) st) as Hkeeps.
  rewrite Hloop in Hkeeps. apply steps_params_dict in Hkeeps. simpl in Hkeeps.
  rewrite Hkeeps, getitem_opt_app, getitem_opt_prod_map by done.
  apply KFold_split_inv in Hsplit as Hk. destruct Hk as [Hk Hlen].
  apply for_each_length in Hloop as Hlen'.
  apply KFold_split_train_nonempty in Hsplit.
  destruct (run_folds_effective_k K folds st st' rs HK Hsplit Hloop)
    as (values & Hall & Hvalues).
  rewrite (df_mean_defined rs "effective_k" values);
    [|intros ->; simpl in Hlen'; lia|done].
  eexists. split; [done|]. apply np_mean_bounds; [|done].
  intros ->. apply Forall2_length in Hall. simpl in Hall. lia.
Qed.

End row_effective_k.

Section row_effective_k_witness.
Import Demo.

Lemma run_effective_k_bounds_witness :
  ∃ row effective_k,
    (run (H := demo_shuffle) (job_methods := demo_methods)
         (demo_state None (Some 7%Z) 2)).2 = Ok row ∧
    getitem_opt row "effective_k" = Some (Num effective_k) ∧
    (1 <= effective_k <= inject_Z 2)%Q.
Proof.
  destruct (run (H := demo_shuffle) (job_methods := demo_methods)
                (demo_state None (Some 7%Z) 2)) as [st' [row|e]] eqn:Hrun.
  - destruct (@run_effective_k_bounds nat demo_shuffle (demo_backend [])
                demo_clustering_utils (demo_cluster_within_k [])
                (demo_state None (Some 7%Z) 2) st' row 2 eq_refl eq_refl Hrun)
      as (effective_k & Hek & Hbounds).
    exists row, effective_k. split; [reflexivity|]. split; [exact Hek|exact Hbounds].
  - exfalso. vm_compute in Hrun. discriminate Hrun.
Defined.

End row_effective_k_witness.

(** ** The seed of a job after a run with consensus repeats *)

Section seed_after_a_run.
Context {World : Type} `{!Shuffle, !Backend World, !ClusteringUtils World}.
Implicit Types (st : State World).

Import FullOptimizationJob.

Lemma last_seeds_after (s : option Z) (repeats : list nat) :
  default s (last (seeds_after s repeats)) = foldl seed_followed_by s repeats.
Proof.
  revert s. induction repeats as [|i repeats IH]; intros s; [done|].
  cbn [seeds_after foldl]. rewrite <-IH.
  destruct (seeds_after (seed_followed_by s i) repeats) as [|s' seeds].
  - reflexivity.
  - rewrite last_cons_cons. destruct (last (s' :: seeds)) eqn:Hlast; [done|].
    by apply last_None in Hlast.
Qed.

(** The seed a fold step with consensus repeats leaves on the job. *)
Lemma cv_fold_step_seed st st' (X_train X_val : ndarray) (W_train W_val : weights_arg)
    (fold_result : Series Q) :
  1 < n_consensus (self st) →
  _cv_fold_step X_train X_val W_train W_val st = (st', Ok fold_result) →
  seed (self st')
  = foldl seed_followed_by (seed (self st)) (seq 0 (n_consensus (self st))) ∧
  set_seed None (self st') = set_seed None (self st).
Proof.
  intros Hn (_ & Hseed & Hself & _)%cv_fold_step_inv.
  rewrite decide_True in Hseed by done.
  by rewrite last_seeds_after in Hseed.
Qed.

Lemma run_folds_seed (folds : list (list nat * list nat)) st st'
    (rs : list (Series Q)) (z : Z) :
  1 < n_consensus (self st) → seed (self st) = Some z → (0 < z)%Z →
  for_each folds (run_fold (job_methods := methods)) st = (st', Ok rs) →
  ∃ z', seed (self st') = Some z' ∧
        (z * 10 ^ Z.of_nat (length folds * n_consensus (self st)) ≤ z')%Z.
Proof.
  revert st rs z. induction folds as [|fold folds IH]; intros st rs z Hn Hz Hpos Hrun.
  - injection Hrun as <- _. exists z. split; [done|]. simpl. lia.
  - cbn [for_each] in Hrun.
    apply bind_inv_Ok in Hrun as (st1 & r & Hfold & Hrun).
    apply bind_inv_Ok in Hrun as (st2 & rs' & Hrest & [= -> _]).
    apply run_fold_inv in Hfold as (X_train & X_val & W_train & _ & _ & _ & Hcv).
    apply cv_fold_step_seed in Hcv as [Hseed Hself]; [|done].
    simpl in Hseed, Hself. rewrite Hz in Hseed.
    destruct (foldl_seed_followed_by_grows z (seq 0 (n_consensus (self st))) Hpos)
      as (z1 & Hz1 & Hle1).
    rewrite Hz1 in Hseed. rewrite length_seq in Hle1.
    assert (n_consensus (self st1) = n_consensus (self st)) as Hsame
      by apply (f_equal n_consensus Hself).
    pose proof (Z.pow_pos_nonneg 10 (Z.of_nat (n_consensus (self st)))
                  ltac:(lia) ltac:(lia)) as Hpow.
    destruct (IH st1 rs' z1) as (z' & Hz' & Hle'); [lia|done|nia|done|].
    exists z'. split; [done|]. rewrite Hsame in Hle'.
    cbn [length]. rewrite Nat.mul_succ_l, Nat.add_comm, Nat2Z.inj_add, Z.pow_add_r by lia.
    pose proof (Z.pow_pos_nonneg 10
                  (Z.of_nat (length folds * n_consensus (self st)))
                  ltac:(lia) ltac:(lia)) as Hpow'.
    nia.
Qed.

(** X19: a run with consensus repeats that returns leaves the job with a
    seed grown by at least [n_splits * n_consensus] decimal digits: a
    positive seed [z] has become [z * 10^(n_splits * n_consensus)] at
    least, and it is from that seed that a second run of the same job
    object would start. *)
Theorem run_seed_growth st st' (row : Series value) (z : Z) :
  1 < n_consensus (self st) → seed (self st) = Some z → (0 < z)%Z →
  run (job_methods := methods) st = (st', Ok row) →
  ∃ z', seed (self st') = Some z' ∧
        (z * 10 ^ Z.of_nat (n_splits (self st) * n_consensus (self st)) ≤ z')%Z ∧
        (z < z')%Z.
Proof.
  intros Hn Hz Hpos (folds & rs & Hsplit & Hloop & _)%run_inv.
  apply KFold_split_inv in Hsplit as [Hk Hlen].
  destruct (run_folds_seed folds st st' rs z Hn Hz Hpos Hloop) as (z' & Hz' & Hle).
  exists z'. split; [done|]. rewrite Hlen in Hle. split; [done|].
  assert (10 ≤ 10 ^ Z.of_nat (n_splits (self st) * n_consensus (self st)))%Z as Hten.
  { replace (Z.of_nat (n_splits (self st) * n_consensus (self st)))
      with (Z.succ (Z.of_nat (n_splits (self st) * n_consensus (self st) - 1)))
      by nia.
    rewrite Z.pow_succ_r by lia.
    pose proof (Z.pow_pos_nonneg 10
                  (Z.of_nat (n_splits (self st) * n_consensus (self st) - 1))
                  ltac:(lia) ltac:(lia)).
    lia. }
  nia.
Qed.

End seed_after_a_run.

Section seed_after_a_run_witness.
Import Demo.

Lemma run_seed_growth_witness :
  ∃ st' row z',
    run (H := demo_shuffle) (job_methods := demo_methods)
        (demo_state None (Some 7%Z) 2) = (st', Ok row) ∧
    seed (self st') = Some z' ∧ (7 * 10 ^ 4 ≤ z')%Z.
Proof.
  destruct (run (H := demo_shuffle) (job_methods := demo_methods)
                (demo_state None (Some 7%Z) 2)) as [st' [row|e]] eqn:Hrun.
  - destruct (@run_seed_growth nat demo_shuffle (demo_backend [])
                demo_clustering_utils (demo_state None (Some 7%Z) 2) st' row 7)
      as (z' & Hz' & Hle & _).
    + simpl. lia.
    + reflexivity.
    + lia.
    + exact Hrun.
    + exists st', row, z'. split; [reflexivity|]. split; [exact Hz'|exact Hle].
  - exfalso. vm_compute in Hrun. discriminate Hrun.
Defined.

End seed_after_a_run_witness.

(** ** The jobs of a trial, read through [run] *)

Section trial_runs.
Import VADERBayesianOptimizer.
Context {World : Type} `{!Shuffle} {uuid_supply : Uuid} {uuid_unique : UuidUnique}
  {job_methods : Methods World}.
Implicit Types (env : Env World).

(** One job of a trial, read through [run]: the job constructed holds the
    id drawn, it runs on the hidden state of the moment with a trace of
    its own, and its row is what [run] returned, or the bare parameters
    once its failure is logged. *)
Lemma run_cv_single_job_run (self : Optimizer) (input_data : ndarray)
    (input_weights : option ndarray) (params_dict : Series value)
    (seed : option Z) env :
  ∃ env' st r,
    run (job_methods := job_methods)
        {| self := job_of self input_data input_weights params_dict seed
                          (uuid4 (jobs_started env));
           AbstractOptimizationJob.world := world env; trace := [] |} = (st, r) ∧
    run_cv_single_job self input_data input_weights params_dict seed env
    = (env', Ok (job_row params_dict
                   (job_of self input_data input_weights params_dict seed
                           (uuid4 (jobs_started env)), r))) ∧
    world env' = AbstractOptimizationJob.world st ∧
    jobs_started env' = S (jobs_started env) ∧
    outcomes env' = outcomes env ++ [(uuid4 (jobs_started env), r)].
Proof.
  unfold run_cv_single_job, new_job.
  unfold bind at 1. unfold bind at 1. unfold get. unfold bind at 1.
  unfold modify at 1. unfold ret at 1. unfold try_except, job_run. simpl.
  fold (job_of self input_data input_weights params_dict seed
               (uuid4 (jobs_started env))).
  destruct (run _) as [st [row|e]].
  - eexists _, st, (Ok row). by split_and!.
  - eexists _, st, (Raise e). unfold bind, write_file, modify, ret. simpl.
    by split_and!.
Qed.

(** The loop over the repeats of a trial, read through [run]: its rows are
    those of the jobs of the trial run one after the other. *)
Lemma objective_loop_runs (self : Optimizer) (k number : nat) (input_data : ndarray)
    (input_weights : option ndarray) (params_dict : Series value)
    (repeats : list nat) env :
  ∃ env' seeds,
    Forall2 (λ i s, repeat_seed self k number i = Ok s) repeats seeds ∧
    for_each repeats (λ i,
      let* seed := lift (repeat_seed self k number i) in
      run_cv_single_job self input_data input_weights params_dict seed) env
    = (env', Ok (job_row params_dict
                 <$> (run_jobs (trial_jobs self input_data input_weights params_dict
                                           seeds (jobs_started env))
                               (world env)).1)) ∧
    world env'
    = (run_jobs (trial_jobs self input_data input_weights params_dict
                            seeds (jobs_started env))
                (world env)).2 ∧
    outcomes env'
    = outcomes env
      ++ ((λ out, (cv_id out.1, out.2))
          <$> (run_jobs (trial_jobs self input_data input_weights params_dict
                                    seeds (jobs_started env))
                        (world env)).1).
Proof.
  revert env. induction repeats as [|x repeats IH]; intros env.
  - exists env, []. split_and!; [constructor|done|done|]. simpl. by rewrite app_nil_r.
  - destruct (repeat_seed_total self k number x) as [seed Hseed].
    destruct (run_cv_single_job_run self input_data input_weights params_dict seed env)
      as (env1 & st & r & Hrun & Hjob & Hworld & Hstarted & Houts).
    destruct (IH env1) as (env' & seeds & Hseeds & Hloop & Hworld' & Houts').
    exists env', (seed :: seeds). cbn [trial_jobs run_jobs]. rewrite Hrun.
    rewrite Hstarted, Hworld in Hloop, Hworld', Houts'.
    destruct (run_jobs _ (AbstractOptimizationJob.world st)) as [outs w'].
    simpl in *. split_and!.
    + by constructor.
    + erewrite bind_Ok; [|erewrite bind_Ok; [exact Hjob|]].
      * erewrite bind_Ok by done. done.
      * unfold lift. by rewrite Hseed.
    + done.
    + rewrite Houts', Houts, <-app_assoc. done.
Qed.

Lemma length_trial_jobs (self : Optimizer) (input_data : ndarray)
    (input_weights : option ndarray) (params_dict : Series value)
    (seeds : list (option Z)) (started : nat) :
  length (trial_jobs self input_data input_weights params_dict seeds started)
  = length seeds.
Proof.
  revert started. induction seeds as [|s seeds IH]; intros started; simpl; [done|].
  by rewrite IH.
Qed.

Lemma length_run_jobs (jobs : list Job) (w : World) :
  length (run_jobs jobs w).1 = length jobs.
Proof.
  revert w. induction jobs as [|job jobs IH]; intros w; simpl; [done|].
  destruct (run _) as [st r]. specialize (IH (AbstractOptimizationJob.world st)).
  destruct (run_jobs jobs _) as [outs w']. simpl in *. by rewrite IH.
Qed.

(** The jobs run are the jobs given, in order. *)
Lemma run_jobs_jobs (jobs : list Job) (w : World) : (run_jobs jobs w).1.*1 = jobs.
Proof.
  revert w. induction jobs as [|job jobs IH]; intros w; simpl; [done|].
  destruct (run _) as [st r]. specialize (IH (AbstractOptimizationJob.world st)).
  destruct (run_jobs jobs _) as [outs w']. simpl in *. f_equal. exact IH.
Qed.

Lemma trial_jobs_lookup (self : Optimizer) (input_data : ndarray)
    (input_weights : option ndarray) (params_dict : Series value)
    (seeds : list (option Z)) (started i : nat) (job : Job) :
  trial_jobs self input_data input_weights params_dict seeds started !! i = Some job →
  ∃ seed, seeds !! i = Some seed ∧
          job = job_of self input_data input_weights params_dict seed
                       (uuid4 (started + i)).
Proof.
  revert started i. induction seeds as [|s seeds IH]; intros started [|i] Hi;
    simpl in Hi; try done.
  - injection Hi as <-. exists s. by rewrite Nat.add_0_r.
  - apply IH in Hi as (seed & Hseed & ->). exists seed. split; [done|].
    do 2 f_equal. lia.
Qed.

(** What [objective] does as a whole, read through [run]. *)
Lemma objective_runs (self : Optimizer) (trial : Trial) (k : nat)
    (input_data : ndarray) (input_weights : option ndarray) env :
  ∃ env' seeds outs,
    Forall2 (λ i s, repeat_seed self k (number trial) i = Ok s)
            (seq 0 (n_repeats self)) seeds ∧
    outs = (run_jobs (trial_jobs self input_data input_weights (trial_params trial k)
                                 seeds (jobs_started env))
                     (world env)).1 ∧
    objective self trial k input_data input_weights env
    = (env', score_of (pd_DataFrame (job_row (trial_params trial k) <$> outs))) ∧
    length outs = n_repeats self ∧
    world env'
    = (run_jobs (trial_jobs self input_data input_weights (trial_params trial k)
                            seeds (jobs_started env))
                (world env)).2 ∧
    jobs_started env' = jobs_started env + n_repeats self ∧
    fs env' !! trial_file self k (number trial)
    = Some (Csv (pd_DataFrame (job_row (trial_params trial k) <$> outs))) ∧
    (∀ i job r, outs !! i = Some (job, r) →
       cv_id job = uuid4 (jobs_started env + i) ∧
       (∀ e, r = Raise e →
          fs env' !! failure_log_file self (cv_id job)
          = Some (FailureLog (cv_id job) (trial_params trial k) e))) ∧
    (∀ path,
       path ≠ trial_file self k (number trial) →
       (∀ i job e, outs !! i = Some (job, Raise e) →
                   path ≠ failure_log_file self (cv_id job)) →
       fs env' !! path = fs env !! path).
Proof.
  destruct (objective_loop self k (number trial) input_data input_weights
              (trial_params trial k) (seq 0 (n_repeats self)) env)
    as (env1 & results & outs0 & Hloop & Hstarted & Houts & Hlen & Hlen' & Hin & Hframe).
  destruct (objective_loop_runs self k (number trial) input_data input_weights
              (trial_params trial k) (seq 0 (n_repeats self)) env)
    as (env2 & seeds & Hseeds & Hloop' & Hworld & Houts').
  rewrite Hloop in Hloop'. injection Hloop' as <- ->.
  rewrite Houts in Houts'. apply app_inv_head in Houts'. subst outs0.
  rewrite length_seq, length_fmap in Hlen'. rewrite length_seq in Hstarted. clear Hlen.
  eexists _, seeds, _. split; [done|]. split; [done|].
  set (outs := (run_jobs _ _).1) in *. split_and!.
  - unfold objective. erewrite bind_Ok by exact Hloop.
    unfold bind at 1. unfold write_file at 1, modify at 1.
    unfold bind, lift, ret. by destruct (score_of _).
  - done.
  - done.
  - done.
  - simpl. apply lookup_insert_eq.
  - intros i job r Hi.
    specialize (Hin i (cv_id job) r). rewrite list_lookup_fmap, Hi in Hin.
    destruct (Hin eq_refl) as [Hid Hr]. split; [done|].
    intros e ->. destruct Hr as [_ Hlog]. simpl.
    rewrite lookup_insert_ne; [done|].
    intros Heq. symmetry in Heq. by apply failure_log_file_ne_trial_file in Heq.
  - intros path Hne Hpath. simpl. rewrite lookup_insert_ne by done. apply Hframe.
    intros i id e Hi. rewrite list_lookup_fmap in Hi.
    destruct (outs !! i) as [[job r]|] eqn:Hout; [|done].
    simpl in Hi. injection Hi as <- ->. by apply (Hpath i job e).
Qed.

(** The job at position [i] runs on the hidden state the jobs before it
    left. *)
Lemma run_jobs_lookup (jobs : list Job) (w : World) (i : nat) (job : Job)
    (r : result (Series value)) :
  (run_jobs jobs w).1 !! i = Some (job, r) →
  jobs !! i = Some job ∧
  ∃ st, run (job_methods := job_methods)
            {| self := job; AbstractOptimizationJob.world := (run_jobs (take i jobs) w).2;
               trace := [] |} = (st, r).
Proof.
  revert w i. induction jobs as [|job0 jobs IH]; intros w i Hi; [done|].
  cbn [run_jobs] in Hi.
  destruct (run {| self := job0; AbstractOptimizationJob.world := w; trace := [] |})
    as [st0 r0] eqn:Hrun.
  destruct (run_jobs jobs (AbstractOptimizationJob.world st0)) as [outs w'] eqn:Hjobs.
  destruct i as [|i]; simpl in Hi.
  - injection Hi as <- <-. split; [done|]. exists st0. exact Hrun.
  - specialize (IH (AbstractOptimizationJob.world st0) i). rewrite Hjobs in IH.
    destruct (IH Hi) as [Hjob [st Hst]]. split; [done|]. exists st.
    cbn [take run_jobs]. rewrite Hrun.
    by destruct (run_jobs (take i jobs) (AbstractOptimizationJob.world st0)).
Qed.

(** C4: the [n_repeats] jobs of a trial all run, one after the other,
    each on the hidden state the jobs before it left, whether those
    returned or raised.  A job whose [run] raises has the exception
    written to the file named by its id in the failure directory, and
    its row in the trial file is the bare hyperparameter configuration; a
    job whose [run] returns has the row returned there.  The persisted
    trial file holds these [n_repeats] rows in the order of the repeats,
    distinct jobs have distinct failure logs, no other file is written,
    and the objective goes on to score the persisted frame. *)
Theorem objective_failure_containment (self : Optimizer) (trial : Trial) (k : nat)
    (input_data : ndarray) (input_weights : option ndarray) env :
  ∃ env' seeds jobs outs df,
    Forall2 (λ i s, repeat_seed self k (number trial) i = Ok s)
            (seq 0 (n_repeats self)) seeds ∧
    jobs = trial_jobs self input_data input_weights (trial_params trial k) seeds
                      (jobs_started env) ∧
    outs = (run_jobs jobs (world env)).1 ∧
    df = pd_DataFrame (job_row (trial_params trial k) <$> outs) ∧
    length outs = n_repeats self ∧
    objective self trial k input_data input_weights env = (env', score_of df) ∧
    world env' = (run_jobs jobs (world env)).2 ∧
    jobs_started env' = jobs_started env + n_repeats self ∧
    fs env' !! trial_file self k (number trial) = Some (Csv df) ∧
    length (rows df) = n_repeats self ∧
    (∀ i job r, outs !! i = Some (job, r) →
       ∃ s st,
         repeat_seed self k (number trial) i = Ok s ∧
         job = job_of self input_data input_weights (trial_params trial k) s
                      (uuid4 (jobs_started env + i)) ∧
         run (job_methods := job_methods)
             {| self := job;
                AbstractOptimizationJob.world := (run_jobs (take i jobs) (world env)).2;
                trace := [] |} = (st, r) ∧
         match r with
         | Ok job_row => rows df !! i = Some job_row
         | Raise e =>
             rows df !! i = Some (trial_params trial k) ∧
             fs env' !! failure_log_file self (cv_id job)
             = Some (FailureLog (cv_id job) (trial_params trial k) e)
         end) ∧
    (∀ i1 i2 job1 job2 r1 r2,
       outs !! i1 = Some (job1, r1) → outs !! i2 = Some (job2, r2) →
       failure_log_file self (cv_id job1) = failure_log_file self (cv_id job2) →
       i1 = i2) ∧
    (∀ path,
       path ≠ trial_file self k (number trial) →
       (∀ i job e, outs !! i = Some (job, Raise e) →
                   path ≠ failure_log_file self (cv_id job)) →
       fs env' !! path = fs env !! path).
Proof.
  destruct (objective_runs self trial k input_data input_weights env)
    as (env' & seeds & outs & Hseeds & Houts & Hobj & Hlen & Hworld & Hstarted
        & Hfile & Hin & Hframe).
  exists env', seeds,
    (trial_jobs self input_data input_weights (trial_params trial k) seeds
                (jobs_started env)),
    outs, (pd_DataFrame (job_row (trial_params trial k) <$> outs)).
  split; [done|]. split; [done|]. split; [done|]. split; [done|]. split; [done|].
  split; [done|]. split; [done|]. split; [done|]. split; [done|].
  split; [simpl; by rewrite length_fmap|]. split; [|split; [|done]].
  - intros i job r Hi. destruct (Hin i job r Hi) as [Hid Hlog].
    rewrite Houts in Hi. apply run_jobs_lookup in Hi as Hrun.
    destruct Hrun as [Hjob [st Hst]].
    apply trial_jobs_lookup in Hjob as (s & Hs & Hjob).
    exists s, st. split_and!; [|done|done|].
    + eapply Forall2_lookup_r in Hseeds as (i' & Hi' & Hseed); [|exact Hs].
      apply lookup_seq in Hi' as [-> _]. done.
    + rewrite <-Houts in Hi. simpl. rewrite list_lookup_fmap, Hi.
      destruct r as [row|e]; [done|]. split; [done|]. by apply Hlog.
  - intros i1 i2 job1 job2 r1 r2 [Hid1 _]%Hin [Hid2 _]%Hin Heq%failure_log_file_inj.
    rewrite Hid1, Hid2 in Heq. apply uuid4_inj in Heq. lia.
Qed.

End trial_runs.

(** ** The score of a trial *)

Section trial_scores.
Import VADERBayesianOptimizer.
Context {World : Type} `{!Shuffle} {uuid_supply : Uuid} {job_methods : Methods World}.
Implicit Types (env : Env World).

Lemma getitem_opt_of_keys {V} (r : Series V) (key : string) :
  key ∈ keys r → ∃ v, getitem_opt r key = Some v.
Proof.
  induction r as [|[k v] r IH]; [by intros ?%elem_of_nil|].
  unfold keys. rewrite fmap_cons. simpl. intros Hin.
  case_decide; [by eexists|]. apply elem_of_cons in Hin as [->|Hin]; [done|].
  by apply IH.
Qed.

(** The scoring column is a column of the frame exactly when some row has
    a score. *)
Lemma score_column_scores (results : list (Series value)) :
  score_column ∈ columns (pd_DataFrame results) ↔ scores_of results ≠ [].
Proof.
  rewrite elem_of_columns. unfold scores_of. split.
  - intros (r & Hr & Hkey) Hnil.
    apply getitem_opt_of_keys in Hkey as [v Hv].
    assert (v ∈ omap (λ row, getitem_opt row score_column) results) as Hin.
    { apply list_elem_of_omap. by exists r. }
    rewrite Hnil in Hin. by apply elem_of_nil in Hin.
  - intros Hne.
    destruct (omap (λ row, getitem_opt row score_column) results) as [|v vs] eqn:Hs;
      [done|].
    assert (v ∈ omap (λ row, getitem_opt row score_column) results) as Hin
      by (rewrite Hs; left).
    apply list_elem_of_omap in Hin as (r & Hr & Hv).
    exists r. split; [done|]. by eapply getitem_opt_keys.
Qed.

(** When the scores are numbers, the cells of the scoring column convert,
    and those that are not NaN are these numbers. *)
Lemma numeric_cells_scores (results : list (Series value)) :
  scores_of results = Num <$> score_values results →
  ∃ cells,
    numeric_cells (column (pd_DataFrame results) score_column) = Ok cells ∧
    omap id cells = score_values results.
Proof.
  unfold column, score_values, scores_of. simpl.
  induction results as [|row results IH]; intros Hnum; [by exists []|].
  rewrite fmap_cons. cbn [omap list_omap] in Hnum |- *.
  destruct (getitem_opt row score_column) as [[q|zs]|] eqn:Hcell.
  - cbn [omap list_omap fmap list_fmap] in Hnum |- *.
    injection Hnum as Hnum. destruct (IH Hnum) as (cells & Hcells & Hvals).
    exists (Some q :: cells). cbn [numeric_cells as_number]. rewrite Hcells.
    split; [done|]. cbn [omap list_omap id]. by rewrite Hvals.
  - cbn [omap list_omap fmap list_fmap] in Hnum.
    destruct (omap _ (omap _ results)); discriminate Hnum || (injection Hnum; done).
  - destruct (IH Hnum) as (cells & Hcells & Hvals).
    exists (None :: cells). cbn [numeric_cells]. rewrite Hcells. by split.
Qed.

(** The score of a frame whose scores are numbers: [None] without any,
    their mean otherwise. *)
Lemma score_of_scores (results : list (Series value)) :
  scores_of results = Num <$> score_values results →
  score_of (pd_DataFrame results)
  = Ok (match score_values results with
        | [] => None
        | _ :: _ => Some (np_mean (score_values results))
        end).
Proof.
  intros Hnum. unfold score_of.
  destruct (decide (score_column ∈ columns (pd_DataFrame results))) as [Hin|Hin].
  - destruct (numeric_cells_scores results Hnum) as (cells & Hcells & Hvals).
    unfold series_mean, nanmean. rewrite Hcells, Hvals.
    apply score_column_scores in Hin. rewrite Hnum in Hin.
    by destruct (score_values results).
  - rewrite score_column_scores in Hin.
    assert (scores_of results = []) as Hnil
      by (destruct (scores_of results); [done|by exfalso; apply Hin]).
    unfold score_values. by rewrite Hnil.
Qed.

(** The row of a disciplined job that returns has a number in the scoring
    column, or nothing, when its configuration has no such entry. *)
Lemma run_score_cell `{!Disciplined job_methods} (st st' : State World)
    (row : Series value) :
  run st = (st', Ok row) →
  getitem_opt (params_dict (self st)) score_column = None →
  getitem_opt row score_column = None ∨
  ∃ q, getitem_opt row score_column = Some (Num q).
Proof.
  intros Hrun Hparams.
  pose proof (keeps_run st) as Hsteps. rewrite Hrun in Hsteps.
  apply steps_params_dict in Hsteps. simpl in Hsteps.
  apply run_inv in Hrun as (folds & rs & _ & _ & ->).
  rewrite Hsteps, getitem_opt_app, getitem_opt_prod_map by done.
  destruct (getitem_opt (df_mean (pd_DataFrame rs)) score_column) as [q|];
    [right; by exists q|by left].
Qed.

(** So the scores among the rows of disciplined jobs are numbers. *)
Lemma run_jobs_scores `{!Disciplined job_methods} (params_dict : Series value)
    (jobs : list Job) (w : World) :
  getitem_opt params_dict score_column = None →
  Forall (λ job, AbstractOptimizationJob.params_dict job = params_dict) jobs →
  scores_of (job_row params_dict <$> (run_jobs jobs w).1)
  = Num <$> score_values (job_row params_dict <$> (run_jobs jobs w).1).
Proof.
  intros Hparams Hjobs. revert w.
  induction Hjobs as [|job jobs Hjob _ IH]; intros w; [done|].
  cbn [run_jobs].
  destruct (run {| self := job; AbstractOptimizationJob.world := w; trace := [] |})
    as [st r] eqn:Hrun.
  specialize (IH (AbstractOptimizationJob.world st)).
  destruct (run_jobs jobs (AbstractOptimizationJob.world st)) as [outs w'].
  simpl in IH. cbn [fst]. rewrite fmap_cons.
  unfold score_values, scores_of in *. cbn [omap list_omap].
  assert (getitem_opt (job_row params_dict (job, r)) score_column = None ∨
          ∃ q, getitem_opt (job_row params_dict (job, r)) score_column = Some (Num q))
    as [Hcell|[q Hcell]].
  { unfold job_row. simpl. destruct r as [row|e]; [|by left].
    eapply run_score_cell; [exact Hrun|]. simpl. by rewrite Hjob. }
  - rewrite Hcell. exact IH.
  - rewrite Hcell. cbn [omap list_omap]. rewrite fmap_cons. by f_equal.
Qed.

Lemma trial_jobs_params (self : Optimizer) (input_data : ndarray)
    (input_weights : option ndarray) (params_dict : Series value)
    (seeds : list (option Z)) (started : nat) :
  Forall (λ job, AbstractOptimizationJob.params_dict job = params_dict)
         (trial_jobs self input_data input_weights params_dict seeds started).
Proof.
  revert started. induction seeds as [|s seeds IH]; intros started; simpl;
    constructor; [done|apply IH].
Qed.

Lemma trial_params_no_score (trial : Trial) (k : nat) :
  getitem_opt (trial_params trial k) score_column = None.
Proof. reflexivity. Qed.

(** C3: the objective of a trial never raises.  It is read off the frame
    of the [n_repeats] rows of the trial, the row of each job being what
    its [run] returned, or the bare configuration when it raised: [None]
    when no row has a score (the scoring column is then no column of the
    frame), and otherwise the arithmetic mean of the scores of the rows
    that have one.  The row of a job that raised has none, so the mean is
    over all [n_repeats] rows only when every job returned a score. *)
Theorem objective_score `{!Disciplined job_methods} (self : Optimizer) (trial : Trial)
    (k : nat) (input_data : ndarray) (input_weights : option ndarray) env :
  ∃ env' seeds outs df,
    Forall2 (λ i s, repeat_seed self k (number trial) i = Ok s)
            (seq 0 (n_repeats self)) seeds ∧
    outs = (run_jobs (trial_jobs self input_data input_weights (trial_params trial k)
                                 seeds (jobs_started env))
                     (world env)).1 ∧
    df = pd_DataFrame (job_row (trial_params trial k) <$> outs) ∧
    length (rows df) = n_repeats self ∧
    fs env' !! trial_file self k (number trial) = Some (Csv df) ∧
    scores_of (rows df) = Num <$> score_values (rows df) ∧
    (∀ i job e, outs !! i = Some (job, Raise e) →
                column df score_column !! i = Some None) ∧
    (score_column ∈ columns df ↔ score_values (rows df) ≠ []) ∧
    objective self trial k input_data input_weights env
    = (env', Ok (match score_values (rows df) with
                 | [] => None
                 | _ :: _ =>
                     Some (Qred (np_sum (score_values (rows df))
                                 / inject_Z (Z.of_nat (length (score_values (rows df))))))
                 end)) ∧
    (length (score_values (rows df)) = n_repeats self → 0 < n_repeats self →
     objective self trial k input_data input_weights env
     = (env', Ok (Some (Qred (np_sum (score_values (rows df))
                              / inject_Z (Z.of_nat (n_repeats self))))))).
Proof.
  destruct (objective_loop_runs self k (number trial) input_data input_weights
              (trial_params trial k) (seq 0 (n_repeats self)) env)
    as (env1 & seeds & Hseeds & Hloop & _).
  set (outs := (run_jobs (trial_jobs self input_data input_weights
                                     (trial_params trial k) seeds (jobs_started env))
                         (world env)).1) in *.
  set (results := job_row (trial_params trial k) <$> outs) in *.
  assert (scores_of results = Num <$> score_values results) as Hnum.
  { apply run_jobs_scores; [done|apply trial_jobs_params]. }
  assert (length results = n_repeats self) as Hlen.
  { unfold results, outs. by rewrite length_fmap, length_run_jobs, length_trial_jobs,
      <-(Forall2_length _ _ _ Hseeds), length_seq. }
  assert (∃ env',
            objective self trial k input_data input_weights env
            = (env', score_of (pd_DataFrame results)) ∧
            fs env' !! trial_file self k (number trial)
            = Some (Csv (pd_DataFrame results))) as (env' & Hobj & Hfile).
  { eexists. split.
    - unfold objective. erewrite bind_Ok by exact Hloop.
      unfold bind at 1. unfold write_file at 1, modify at 1.
      unfold bind, lift, ret. by destruct (score_of _).
    - simpl. apply lookup_insert_eq. }
  rewrite (score_of_scores results Hnum) in Hobj.
  exists env', seeds, outs, (pd_DataFrame results).
  split; [done|]. split; [done|]. split; [done|]. split; [done|]. split; [done|].
  split; [done|]. split_and!.
  - intros i job e Hi. unfold column, results. simpl.
    by rewrite !list_lookup_fmap, Hi.
  - rewrite score_column_scores. simpl. rewrite Hnum.
    by destruct (score_values results).
  - done.
  - simpl. intros Hall Hpos. rewrite Hobj. unfold np_mean. rewrite Hall.
    destruct (score_values results); [simpl in Hall; lia|done].
Qed.

End trial_scores.

(** ** Consensus repeats that disagree on the number of clusters *)

Section effective_k_at_the_demo.
Import Demo.

Lemma demo_growing_cluster_within_k :
  ClusterWithinK (Backend0 := demo_growing_backend).
Proof.
  intros args w w' v K Htrain HK X. unfold train, demo_growing_backend in Htrain.
  rewrite HK, Qfloor_Z in Htrain.
  case_decide; [done|]. injection Htrain as _ <-.
  cbn [cluster toy_model]. split; [by rewrite length_fmap|].
  apply Forall_fmap, Forall_forall. intros row _. simpl.
  destruct row as [|x row]; [lia|].
  destruct (Qle_bool x 0); simpl; [lia|].
  destruct (Z.leb_spec (Z.of_nat K `min` Z.of_nat (S w)) 1); lia.
Qed.

(** No count of labels is one and a half. *)
Lemma count_not_three_halves (n : nat) : ¬ (inject_Z (Z.of_nat n) == 3 # 2)%Q.
Proof. unfold Qeq. simpl. lia. Qed.

Lemma fold_result_effective_k_witness :
  (∃ fold_result st1 vader,
     (FullOptimizationJob._cv_fold_step
        (Backend0 := demo_backend []) (ClusteringUtils0 := demo_clustering_utils)
        [[-1]; [1]]%Q [[-2]; [2]]%Q W_None W_None
        (demo_state None (Some 7%Z) 1)).2 = Ok fold_result ∧
     FullOptimizationJob._fit_vader (Backend0 := demo_backend [])
       [[-1]; [1]]%Q W_None (demo_state None (Some 7%Z) 1) = (st1, Ok vader) ∧
     getitem_opt fold_result "effective_k"
     = Some (inject_Z (Z.of_nat (distinct_labels (cluster vader [[-1]; [1]]%Q)))) ∧
     1 ≤ distinct_labels (cluster vader [[-1]; [1]]%Q) ≤ 2) ∧
  (∃ fold_result (per_repeat : list FullOptimizationJob.clustering_tuple),
     (FullOptimizationJob._cv_fold_step
        (Backend0 := demo_growing_backend) (ClusteringUtils0 := demo_clustering_utils)
        [[-1]; [1]]%Q [[-2]; [2]]%Q W_None W_None
        (demo_state None (Some 7%Z) 2)).2 = Ok fold_result ∧
     length per_repeat = 2 ∧
     getitem_opt fold_result "effective_k"
     = Some (np_mean (FullOptimizationJob.tuple_effective_k <$> per_repeat)) ∧
     (1 <= np_mean (FullOptimizationJob.tuple_effective_k <$> per_repeat)
      <= inject_Z 2)%Q).
Proof.
  assert ([[-1]; [1]]%Q ≠ ([] : ndarray)) as Hne by done.
  split.
  - destruct (FullOptimizationJob._cv_fold_step
                (Backend0 := demo_backend []) (ClusteringUtils0 := demo_clustering_utils)
                [[-1]; [1]]%Q [[-2]; [2]]%Q W_None W_None
                (demo_state None (Some 7%Z) 1)) as [st' [fold_result|e]] eqn:Hstep;
      [|exfalso; vm_compute in Hstep; discriminate Hstep].
    destruct (@fold_result_effective_k nat (demo_backend []) demo_clustering_utils
                (demo_cluster_within_k []) (demo_state None (Some 7%Z) 1) st'
                [[-1]; [1]]%Q [[-2]; [2]]%Q W_None W_None 2 fold_result
                Hne eq_refl Hstep)
      as (effective_k & Hek & _ & Hdirect & _).
    destruct Hdirect as (st1 & vader & Hfit & -> & Hcount); [simpl; lia|].
    exists fold_result, st1, vader.
    split; [reflexivity|]. split; [exact Hfit|]. split; [exact Hek|exact Hcount].
  - destruct (FullOptimizationJob._cv_fold_step
                (Backend0 := demo_growing_backend)
                (ClusteringUtils0 := demo_clustering_utils)
                [[-1]; [1]]%Q [[-2]; [2]]%Q W_None W_None
                (demo_state None (Some 7%Z) 2)) as [st' [fold_result|e]] eqn:Hstep;
      [|exfalso; vm_compute in Hstep; discriminate Hstep].
    destruct (@fold_result_effective_k nat demo_growing_backend demo_clustering_utils
                demo_growing_cluster_within_k (demo_state None (Some 7%Z) 2) st'
                [[-1]; [1]]%Q [[-2]; [2]]%Q W_None W_None 2 fold_result
                Hne eq_refl Hstep)
      as (effective_k & Hek & Hbounds & _ & Hcons).
    destruct Hcons as (st1 & per_repeat & _ & Hlen & -> & _); [simpl; lia|].
    exists fold_result, per_repeat.
    split; [reflexivity|]. split; [exact Hlen|]. split; [exact Hek|exact Hbounds].
Defined.

(** With two consensus repeats and models that label within their two
    configured ids, the first fit puts both training samples into one
    cluster and the second into two: the Fold Result reports an
    [effective_k] of 3/2, which is the count of distinct labels of no
    fit. *)
Lemma fold_result_effective_k_three_halves :
  ClusterWithinK (Backend0 := demo_growing_backend) ∧
  ∃ st1 fold_result,
    (FullOptimizationJob._cv_fold_step
       (Backend0 := demo_growing_backend) (ClusteringUtils0 := demo_clustering_utils)
       [[-1]; [1]]%Q [[-2]; [2]]%Q W_None W_None
       (demo_state None (Some 7%Z) 2)).2 = Ok fold_result ∧
    getitem (params_dict (self (demo_state None (Some 7%Z) 2))) "k" = Ok (Num 2) ∧
    for_each (seq 0 2)
      (λ i, let* _ := FullOptimizationJob.reseed i in
            let* vader := FullOptimizationJob._fit_vader (Backend0 := demo_growing_backend)
                            [[-1]; [1]]%Q W_None in
            ret (cluster vader [[-1]; [1]]%Q))
      (demo_state None (Some 7%Z) 2)
    = (st1, Ok [[0; 0]; [0; 1]]%Z) ∧
    distinct_labels [0; 0]%Z = 1 ∧
    distinct_labels [0; 1]%Z = 2 ∧
    getitem_opt fold_result "effective_k" = Some (3 # 2) ∧
    ∀ labels : list Z, ¬ (inject_Z (Z.of_nat (distinct_labels labels)) == 3 # 2)%Q.
Proof.
  split; [exact demo_growing_cluster_within_k|].
  eexists _, _. split_and!.
  - vm_compute. reflexivity.
  - reflexivity.
  - vm_compute. reflexivity.
  - by vm_compute.
  - by vm_compute.
  - vm_compute. reflexivity.
  - intros labels. apply count_not_three_halves.
Qed.

End effective_k_at_the_demo.

(** ** Trials at the demo instance *)

Section trials_at_the_demo.
Import Demo VADERBayesianOptimizer.

Lemma demo_scoring_disciplined (failing : list nat) :
  Disciplined (demo_scoring_methods failing).
Proof.
  split.
  - intros X_train X_val W_train W_val. cbn [_cv_fold_step demo_scoring_methods].
    repeat keeps_step.
  - intros X_train W_train. cbn [_fit_vader demo_scoring_methods].
    apply keeps_fit_vader.
Qed.

(** The seeds of the three repeats of the demo trial. *)
Lemma demo_repeat_seeds (seeds : list (option Z)) :
  Forall2 (λ i s, repeat_seed (demo_optimizer 3) 2 (number demo_trial) i = Ok s)
          (seq 0 3) seeds →
  seeds = [Some 42230; Some 42231; Some 42232]%Z.
Proof.
  intros Hseeds.
  apply Forall2_cons_inv_l in Hseeds as (s0 & seeds0 & H0 & Hseeds & ->).
  apply Forall2_cons_inv_l in Hseeds as (s1 & seeds1 & H1 & Hseeds & ->).
  apply Forall2_cons_inv_l in Hseeds as (s2 & seeds2 & H2 & Hseeds & ->).
  apply Forall2_nil_inv_l in Hseeds as ->.
  vm_compute in H0, H1, H2. by injection H0 as <-; injection H1 as <-; injection H2 as <-.
Qed.

Lemma objective_score_witness :
  (∃ env',
     demo_scoring_objective [] 3 = (env', Ok (Some 42231%Q)) ∧
     (score_values <$> csv_rows (fs env' !! trial_file (demo_optimizer 3) 2 3))
     = Some [42230; 42231; 42232]%Q) ∧
  (∃ env',
     demo_scoring_objective [2] 3 = (env', Ok (Some 42231%Q)) ∧
     (score_values <$> csv_rows (fs env' !! trial_file (demo_optimizer 3) 2 3))
     = Some [42230; 42232]%Q) ∧
  (∃ env',
     demo_objective [] 3 = (env', Ok None) ∧
     (score_values <$> csv_rows (fs env' !! trial_file (demo_optimizer 3) 2 3))
     = Some []).
Proof.
  split_and!.
  - destruct (@objective_score nat demo_shuffle demo_uuid (demo_scoring_methods [])
                (demo_scoring_disciplined []) (demo_optimizer 3) demo_trial 2
                demo_data None (demo_env ∅))
      as (env' & seeds & outs & df & Hseeds & Houts & Hdf & _ & Hfile & _ & _ & _
          & Hobj & _).
    apply demo_repeat_seeds in Hseeds. subst seeds.
    vm_compute in Houts. subst outs. vm_compute in Hdf. subst df.
    exists env'. split.
    + unfold demo_scoring_objective. rewrite Hobj. reflexivity.
    + change (number demo_trial) with 3 in Hfile. rewrite Hfile. reflexivity.
  - destruct (@objective_score nat demo_shuffle demo_uuid (demo_scoring_methods [2])
                (demo_scoring_disciplined [2]) (demo_optimizer 3) demo_trial 2
                demo_data None (demo_env ∅))
      as (env' & seeds & outs & df & Hseeds & Houts & Hdf & _ & Hfile & _ & _ & _
          & Hobj & _).
    apply demo_repeat_seeds in Hseeds. subst seeds.
    vm_compute in Houts. subst outs. vm_compute in Hdf. subst df.
    exists env'. split.
    + unfold demo_scoring_objective. rewrite Hobj. reflexivity.
    + change (number demo_trial) with 3 in Hfile. rewrite Hfile. reflexivity.
  - destruct (@objective_score nat demo_shuffle demo_uuid (demo_job_methods [])
                full_job_disciplined (demo_optimizer 3) demo_trial 2
                demo_data None (demo_env ∅))
      as (env' & seeds & outs & df & Hseeds & Houts & Hdf & _ & Hfile & _ & _ & _
          & Hobj & _).
    apply demo_repeat_seeds in Hseeds. subst seeds.
    vm_compute in Houts. subst outs. vm_compute in Hdf. subst df.
    exists env'. split.
    + unfold demo_objective. rewrite Hobj. reflexivity.
    + change (number demo_trial) with 3 in Hfile. rewrite Hfile. reflexivity.
Defined.

(** Three repeats whose jobs score 42230, 42231 and 42232, the first of
    which fails: the trial file holds three rows, the first without a
    score, and the objective is 42231.5, the mean of the two scores there
    are, not a mean over the three rows. *)
Lemma objective_score_skips_failed_repeat :
  (demo_scoring_objective [0] 3).2 = Ok (Some (84463 # 2)) ∧
  ((λ rs : list (Series value), (λ row, getitem_opt row score_column) <$> rs)
   <$> csv_rows (fs (demo_scoring_objective [0] 3).1 !! trial_file (demo_optimizer 3) 2 3))
  = Some [None; Some (Num 42231); Some (Num 42232)] ∧
  fs (demo_scoring_objective [0] 3).1 !! failure_log_file (demo_optimizer 3) "job-0"
  = Some (FailureLog "job-0" (trial_params demo_trial 2) (RuntimeError "loss is NaN")) ∧
  (84463 # 2 == (42231 + 42232) / 2)%Q ∧
  ¬ (84463 # 2 == (42231 + 42232) / 3)%Q.
Proof. vm_compute. split_and!; try reflexivity; discriminate. Qed.

Lemma objective_failure_containment_witness :
  ∃ env' job st w,
    run (H := demo_shuffle) (job_methods := demo_job_methods [5])
        {| self := job; AbstractOptimizationJob.world := w; trace := [] |}
    = (st, Raise (RuntimeError "loss is NaN")) ∧
    w = 4 ∧
    job = job_of (demo_optimizer 3) demo_data None (trial_params demo_trial 2)
                 (Some 42231%Z) "job-1" ∧
    (demo_objective [5] 3).1 = env' ∧
    (length <$> csv_rows (fs env' !! trial_file (demo_optimizer 3) 2 3)) = Some 3 ∧
    (csv_rows (fs env' !! trial_file (demo_optimizer 3) 2 3) ≫= (.!! 1))
    = Some (trial_params demo_trial 2) ∧
    fs env' !! failure_log_file (demo_optimizer 3) "job-1"
    = Some (FailureLog "job-1" (trial_params demo_trial 2) (RuntimeError "loss is NaN")) ∧
    fs env' !! failure_log_file (demo_optimizer 3) "job-0" = None ∧
    fs env' !! failure_log_file (demo_optimizer 3) "job-2" = None.
Proof.
  destruct (@objective_failure_containment nat demo_shuffle demo_uuid
              demo_uuid_unique (demo_job_methods [5]) (demo_optimizer 3)
              demo_trial 2 demo_data None (demo_env ∅))
    as (env' & seeds & jobs & outs & df & Hseeds & Hjobs & Houts & Hdf & _ & Hobj
        & _ & _ & Hfile & Hrows & Hin & _ & Hframe).
  apply demo_repeat_seeds in Hseeds. subst seeds.
  vm_compute in Hjobs. subst jobs. vm_compute in Houts. subst outs.
  destruct (Hin 1 _ _ eq_refl) as (s & st & _ & _ & Hrun & Hrow & Hlog).
  change (number demo_trial) with 3 in Hfile.
  assert (∀ id, id = "job-0" ∨ id = "job-2" →
            fs env' !! failure_log_file (demo_optimizer 3) id = None) as Hnone.
  { intros id Hid. rewrite Hframe; [reflexivity| |].
    - destruct Hid as [-> | ->]; vm_compute; discriminate.
    - intros [|[|[|i]]] job e Hi; try discriminate Hi. injection Hi as <- _.
      destruct Hid as [-> | ->]; vm_compute; discriminate. }
  eexists env', _, st, _. split; [exact Hrun|].
  split; [reflexivity|]. split; [reflexivity|].
  split; [unfold demo_objective; by rewrite Hobj|].
  rewrite Hfile. cbn [csv_rows fmap option_fmap option_map mbind option_bind].
  split; [by rewrite Hrows|]. split; [by rewrite Hrow|].
  split; [exact Hlog|]. split; apply Hnone; [by left|by right].
Defined.

End trials_at_the_demo.
